(** * SDT-Agent: the retry-driven workflow engine and its phases

    A shallow embedding of the Python sources under [agent/]:
    [helpers.py], [sdt_types.py], [main_agent.py] and the phase classes of
    [agent/nodes/].  Python values are modelled by the Rocq data they
    denote; everything the agent reaches outside its own process (file
    system, child processes, the generation oracle, the GitHub API) is an
    operation of the [Host] interface, threaded through an exception/state
    monad that also records the calls made. *)

From Stdlib Require Import String Ascii List ZArith Lia Bool Arith.
From Stdlib Require Import DecimalString.
Import ListNotations.
Open Scope string_scope.

Set Implicit Arguments.

(* ===================================================================== *)
(** ** Python [str] operations used by the sources *)
(* ===================================================================== *)

Module Py.

(** [c.lower()] on one character (ASCII letters; other bytes are kept). *)
Definition lower_ascii (c : ascii) : ascii :=
  let n := nat_of_ascii c in
  if ((65 <=? n) && (n <=? 90))%nat then ascii_of_nat (n + 32) else c.

(** [s.lower()] *)
Fixpoint lower (s : string) : string :=
  match s with
  | EmptyString => EmptyString
  | String c s' => String (lower_ascii c) (lower s')
  end.

(** [s.startswith(p)] *)
Definition startswith (s p : string) : bool := String.prefix p s.

(** [sub in s] *)
Fixpoint contains (sub s : string) : bool :=
  String.prefix sub s ||
  match s with
  | EmptyString => false
  | String _ s' => contains sub s'
  end.

(** [s.endswith(p)] *)
Definition endswith (s p : string) : bool :=
  let n := String.length s in
  let m := String.length p in
  (m <=? n)%nat && String.eqb (String.substring (n - m) m s) p.

(** [s[:-n]] for [n <= len(s)] *)
Definition drop_last (n : nat) (s : string) : string :=
  String.substring 0 (String.length s - n) s.

Fixpoint rev_onto (s acc : string) : string :=
  match s with
  | EmptyString => acc
  | String c s' => rev_onto s' (String c acc)
  end.

Definition rev (s : string) : string := rev_onto s EmptyString.

(** the characters [str.strip()] removes, restricted to ASCII *)
Definition is_space (c : ascii) : bool :=
  let n := nat_of_ascii c in
  ((n =? 32) || ((9 <=? n) && (n <=? 13)) || ((28 <=? n) && (n <=? 31)))%nat.

(** [s.lstrip()] *)
Fixpoint lstrip (s : string) : string :=
  match s with
  | EmptyString => EmptyString
  | String c s' => if is_space c then lstrip s' else s
  end.

(** [s.rstrip()] *)
Definition rstrip (s : string) : string := rev (lstrip (rev s)).

(** [s.strip()] *)
Definition strip (s : string) : string := rstrip (lstrip s).

(** [sep.join(l)] *)
Fixpoint join (sep : string) (l : list string) : string :=
  match l with
  | [] => EmptyString
  | [x] => x
  | x :: l' => x ++ sep ++ join sep l'
  end.

(** [s.split(c)] for a one-character separator *)
Fixpoint split (c : ascii) (s : string) : list string :=
  match s with
  | EmptyString => [EmptyString]
  | String a s' =>
      if Ascii.eqb a c then EmptyString :: split c s'
      else match split c s' with
           | h :: t => String a h :: t
           | [] => [String a EmptyString]
           end
  end.

(** [s.split(c, 1)[-1]]: what follows the first [c], or [s] without one *)
Fixpoint after_first (c : ascii) (s : string) : option string :=
  match s with
  | EmptyString => None
  | String a s' => if Ascii.eqb a c then Some s' else after_first c s'
  end.

Definition split1_last (c : ascii) (s : string) : string :=
  match after_first c s with Some r => r | None => s end.

(** [l[-2:]] *)
Definition last2 {A : Type} (l : list A) : list A :=
  skipn (List.length l - 2) l.

(** [s.replace(old, new)] for a non-empty [old]; [skip] counts the
    characters of a match that are still to be passed over. *)
Fixpoint replace_from (old new : string) (skip : nat) (s : string) : string :=
  match s with
  | EmptyString => EmptyString
  | String c s' =>
      match skip with
      | S k => replace_from old new k s'
      | O =>
          if String.prefix old s
          then new ++ replace_from old new (String.length old - 1) s'
          else String c (replace_from old new 0 s')
      end
  end.

Definition replace (old new s : string) : string := replace_from old new 0 s.

(** [s.rfind(".")], as the index counted from the left *)
Fixpoint rfind_dot_from (i : nat) (s : string) (found : option nat) : option nat :=
  match s with
  | EmptyString => found
  | String c s' =>
      rfind_dot_from (S i) s' (if Ascii.eqb c "."%char then Some i else found)
  end.

Definition rfind_dot (s : string) : option nat := rfind_dot_from 0 s None.

(** [str(n)] for an [int] *)
Definition str_of_Z (z : Z) : string := NilZero.string_of_int (Z.to_int z).

(** [x in l] for a list of strings *)
Definition mem (x : string) (l : list string) : bool :=
  existsb (String.eqb x) l.

(** truth value of a [str]: non-empty *)
Definition nonempty (s : string) : bool :=
  match s with EmptyString => false | _ => true end.

End Py.

(* ===================================================================== *)
(** ** [pathlib.PurePosixPath] *)
(* ===================================================================== *)

Module PurePath.

(** A parsed path: the root ([""], ["/"] or ["//"]) and the components
    after it.  The drive is always empty on POSIX. *)
Record t : Type := mk { root : string; parts : list string }.

Fixpoint leading_slashes (s : string) : nat :=
  match s with
  | String "/"%char s' => S (leading_slashes s')
  | _ => 0
  end.

(** [splitroot]: two leading slashes are kept, any other number above
    zero collapses to one. *)
Definition splitroot (s : string) : string :=
  match leading_slashes s with
  | 0 => ""
  | 2 => "//"
  | _ => "/"
  end.

Definition keep_part (x : string) : bool :=
  Py.nonempty x && negb (String.eqb x ".").

(** [Path(s)] *)
Definition of_string (s : string) : t :=
  mk (splitroot s) (filter keep_part (Py.split "/"%char s)).

(** [str(p)] *)
Definition to_string (p : t) : string :=
  match root p, parts p with
  | EmptyString, [] => "."
  | r, ps => r ++ Py.join "/" ps
  end.

(** [p.parent] *)
Definition parent (p : t) : t :=
  mk (root p) (removelast (parts p)).

(** [p.name] *)
Definition name (p : t) : string := last (parts p) "".

(** [p.suffix] *)
Definition suffix (p : t) : string :=
  let n := name p in
  match Py.rfind_dot n with
  | Some i =>
      if ((0 <? i) && (i <? String.length n - 1))%nat
      then String.substring i (String.length n - i) n
      else ""
  | None => ""
  end.

(** [p.stem] *)
Definition stem (p : t) : string :=
  let n := name p in
  match Py.rfind_dot n with
  | Some i =>
      if ((0 <? i) && (i <? String.length n - 1))%nat
      then String.substring 0 i n
      else n
  | None => n
  end.

(** [p.is_absolute()] *)
Definition is_absolute (p : t) : bool := Py.nonempty (root p).

(** [p / q]: a rooted right operand replaces the left one. *)
Definition join (p q : t) : t :=
  if Py.nonempty (root q) then q else mk (root p) (parts p ++ parts q).

Definition abs_parts (p : t) : list string :=
  if Py.nonempty (root p) then root p :: parts p else parts p.

Fixpoint strip_prefix (pre l : list string) : option (list string) :=
  match pre, l with
  | [], _ => Some l
  | x :: pre', y :: l' => if String.eqb x y then strip_prefix pre' l' else None
  | _ :: _, [] => None
  end.

(** [p.relative_to(q)]; [None] stands for the [ValueError]. *)
Definition relative_to (p q : t) : option t :=
  match abs_parts q with
  | [] => if Py.nonempty (root p) then None else Some (mk "" (parts p))
  | qa =>
      match strip_prefix qa (abs_parts p) with
      | Some rest => Some (mk "" rest)
      | None => None
      end
  end.

End PurePath.

(** [os.path.join(a, b)] on POSIX *)
Definition os_path_join (a b : string) : string :=
  if Py.startswith b "/" then b
  else if negb (Py.nonempty a) || Py.endswith a "/" then a ++ b
  else a ++ "/" ++ b.

(* ===================================================================== *)
(** ** Data model ([sdt_types.py]) *)
(* ===================================================================== *)

(** [ProjectContext] *)
Record ProjectContext : Type := {
  repo_link : string;
  project_description : option string;
  language : option string;
  context_relevant_files : option (list string);
  dependencies : option (list string)
}.

(** The plan is a [dict]; a field is [None] when its key is absent. *)
Record Plan : Type := {
  relevant_files : option (list string);
  source_files : option (list string);
  test_files : option (list string);
  is_test_generation_issue : option bool
}.

(** [code_changes], a [dict] with the keys the phases read and write. *)
Record CodeChanges : Type := {
  created_file : option string;
  updated_files : option (list string);
  commit_message : option string
}.

(** A Python [dict] from paths to captured output, in insertion order. *)
Definition Outputs : Type := list (string * string).

(** [TestResultsModel] ([total=False]: either key may be absent).  The
    outer [option] of [tests_passed] is the presence of the key, the inner
    one distinguishes the value [None] from a [bool]. *)
Record TestResults : Type := {
  test_outputs : option Outputs;
  tests_passed : option (option bool)
}.

(** [LintResultsModel] *)
Record LintResults : Type := {
  lint_outputs : option Outputs;
  lint_passed : option (option bool)
}.

(** [WorkflowState] *)
Record WorkflowState : Type := {
  github_issue : string;
  project_context : option ProjectContext;
  plan : option Plan;
  code_changes : option CodeChanges;
  test_results : option TestResults;
  lint_results : option LintResults;
  passed : option bool;
  last_errors : option string
}.

(** Field updates, written as the assignments [state.f = v] of the code. *)
Definition set_github_issue (st : WorkflowState) (v : string) : WorkflowState :=
  {| github_issue := v; project_context := project_context st;
     plan := plan st; code_changes := code_changes st;
     test_results := test_results st; lint_results := lint_results st;
     passed := passed st; last_errors := last_errors st |}.

Definition set_plan (st : WorkflowState) (v : option Plan) : WorkflowState :=
  {| github_issue := github_issue st; project_context := project_context st;
     plan := v; code_changes := code_changes st;
     test_results := test_results st; lint_results := lint_results st;
     passed := passed st; last_errors := last_errors st |}.

Definition set_code_changes (st : WorkflowState) (v : option CodeChanges) : WorkflowState :=
  {| github_issue := github_issue st; project_context := project_context st;
     plan := plan st; code_changes := v;
     test_results := test_results st; lint_results := lint_results st;
     passed := passed st; last_errors := last_errors st |}.

Definition set_test_results (st : WorkflowState) (v : option TestResults) : WorkflowState :=
  {| github_issue := github_issue st; project_context := project_context st;
     plan := plan st; code_changes := code_changes st;
     test_results := v; lint_results := lint_results st;
     passed := passed st; last_errors := last_errors st |}.

Definition set_lint_results (st : WorkflowState) (v : option LintResults) : WorkflowState :=
  {| github_issue := github_issue st; project_context := project_context st;
     plan := plan st; code_changes := code_changes st;
     test_results := test_results st; lint_results := v;
     passed := passed st; last_errors := last_errors st |}.

Definition set_passed (st : WorkflowState) (v : option bool) : WorkflowState :=
  {| github_issue := github_issue st; project_context := project_context st;
     plan := plan st; code_changes := code_changes st;
     test_results := test_results st; lint_results := lint_results st;
     passed := v; last_errors := last_errors st |}.

Definition set_last_errors (st : WorkflowState) (v : option string) : WorkflowState :=
  {| github_issue := github_issue st; project_context := project_context st;
     plan := plan st; code_changes := code_changes st;
     test_results := test_results st; lint_results := lint_results st;
     passed := passed st; last_errors := v |}.

(** *** Python truth values *)

(** [bool(v)] for a value that is [None] or a [bool] *)
Definition truthy (v : option bool) : bool :=
  match v with Some true => true | _ => false end.

(** [d.get("tests_passed")]: an absent key reads as [None]. *)
Definition get_tests_passed (r : TestResults) : option bool :=
  match tests_passed r with Some v => v | None => None end.

(** [bool(d)] for a results [dict]: true when it holds a key. *)
Definition test_results_nonempty (r : TestResults) : bool :=
  match test_outputs r, tests_passed r with
  | None, None => false
  | _, _ => true
  end.

(** [state.test_results and state.test_results.get("tests_passed")] as a
    condition *)
Definition tests_ok (st : WorkflowState) : bool :=
  match test_results st with
  | Some r => test_results_nonempty r && truthy (get_tests_passed r)
  | None => false
  end.

(** [state.test_results and not state.test_results.get("tests_passed")] *)
Definition tests_failed (st : WorkflowState) : bool :=
  match test_results st with
  | Some r => test_results_nonempty r && negb (truthy (get_tests_passed r))
  | None => false
  end.

(** The empty [dict] and the two-key records the test phase writes. *)
Definition empty_test_results : TestResults :=
  {| test_outputs := None; tests_passed := None |}.

Definition empty_lint_results : LintResults :=
  {| lint_outputs := None; lint_passed := None |}.

Definition mk_test_results (o : Outputs) (b : bool) : TestResults :=
  {| test_outputs := Some o; tests_passed := Some (Some b) |}.

Definition mk_lint_results (o : Outputs) (b : bool) : LintResults :=
  {| lint_outputs := Some o; lint_passed := Some (Some b) |}.

(** [d[k] = v] on an insertion-ordered [dict] *)
Fixpoint dict_set (d : Outputs) (k v : string) : Outputs :=
  match d with
  | [] => [(k, v)]
  | (k', v') :: d' =>
      if String.eqb k' k then (k, v) :: d' else (k', v') :: dict_set d' k v
  end.

(** [plan.get(key, [])] after [plan = state.plan or {}] *)
Definition plan_list (st : WorkflowState) (field : Plan -> option (list string))
  : list string :=
  match plan st with
  | Some p => match field p with Some l => l | None => [] end
  | None => []
  end.

(* ===================================================================== *)
(** ** The host: what the agent reaches outside its own process *)
(* ===================================================================== *)

(** An exception, by its class and message. *)
Definition Exn : Type := string.

(** [subprocess.CompletedProcess] *)
Record CompletedProcess : Type := {
  returncode : Z;
  stdout : string;
  stderr : string
}.

(** What a prompt is assembled from.  The sources format these values
    into one text ([format_instruction_prompt] and the f-strings around
    it); only the oracle reads that text. *)
Inductive Prompt : Type :=
| CodePrompt (lang issue file content : string) (others : list string)
             (errors : option string)
| TestPrompt (lang issue file content : string) (others : list string)
             (errors : option string)
| CommitPrompt (issue : string) (summaries : list (string * string)).

(** The remote operations of the commit phase (PyGithub). *)
Inductive GithubCall : Type :=
| GetRepo (repo : string)
| GetBranch (branch : string)
| GetGitRef (ref : string)
| CreateGitTree (files : list (string * string))
| GetGitCommit
| CreateGitCommit (message : string)
| RefEdit.

(** The calls a phase makes, in order. *)
Inductive Event : Type :=
| EvSubprocess (cmd cwd : string)
| EvPipInstall (module : string)
| EvAgent (p : Prompt)
| EvMkdir (path : string)
| EvTouch (path : string)
| EvWrite (path content : string)
| EvGithub (c : GithubCall)
| EvPrepare (repo_url destination : string)
| EvFetchIssue (repo number : string)
| EvClassify (issue project_path : string).

(** The interface of the environment.  [W] is its state; an operation
    that raises returns [inl].  Nothing is assumed about an instance, so
    every theorem below holds for every behaviour of the environment. *)
Class Host (W : Type) : Type := {
  (** [Path.exists], [Path.is_dir] / [os.path.isdir], [Path.is_file] /
      [os.path.isfile] *)
  path_exists : W -> string -> bool;
  path_is_dir : W -> string -> bool;
  path_is_file : W -> string -> bool;
  (** [Path.mkdir(parents=True, exist_ok=True)] *)
  path_mkdir : W -> string -> Exn + W;
  (** [Path.touch(exist_ok=True)] *)
  path_touch : W -> string -> Exn + W;
  (** [Path.read_text] / [open(...).read()] *)
  path_read_text : W -> string -> Exn + string;
  (** [Path.write_text] *)
  path_write_text : W -> string -> string -> Exn + W;
  (** [subprocess.run(cmd, shell=True, cwd=...)] *)
  subprocess_run : W -> string -> string -> (Exn + CompletedProcess) * W;
  (** [subprocess.check_call([sys.executable, "-m", "pip", "install", m])] *)
  pip_install : W -> string -> (Exn + unit) * W;
  (** the generation oracle, [SDTAgent.agent_respond] *)
  agent_respond : W -> Prompt -> (Exn + string) * W;
  (** one remote GitHub operation *)
  github : W -> GithubCall -> (Exn + unit) * W;
  (** [os.getenv] *)
  getenv : W -> string -> option string;
  (** [re.findall(r"ModuleNotFoundError: No module named '([^']+)'", s)],
      in the order [set(...)] is iterated *)
  missing_modules : W -> string -> list string;
  (** [helpers.code_header_remover]: regular-expression removal of the
      markdown fences, then [strip] *)
  code_header_remover : W -> string -> string;
  (** [os.path.relpath(os.path.abspath(os.path.join(root, f)),
      os.path.abspath(root))] *)
  relpath_in : W -> string -> string -> string;
  (** [CloneProjectRepoNode.run] past the naming of the destination:
      [git clone] when it is missing, then the dependency installation *)
  prepare_repository : W -> string -> string -> (Exn + unit) * W;
  (** [helpers.is_issue_number]: whether [int(s)] succeeds *)
  is_issue_number : W -> string -> bool;
  (** the body of an open issue, through [strip_markdown]; raises for an
      issue that has no body or is not open *)
  fetch_issue_body : W -> string -> string -> (Exn + string) * W;
  (** [PlanningNode.run], from the candidate files to the four
      classified fields (the file-name scan of the issue, the walk of the
      repository and the classification call with its fallback) *)
  classify_files : W -> string -> string -> (Exn + Plan) * W
}.

(** The state a phase runs in: the host and the calls made so far. *)
Record World (W : Type) : Type := {
  host : W;
  calls : list Event
}.

(** Computations that may raise and that act on the world. *)
Definition M (W A : Type) : Type := World W -> (Exn + A) * World W.

Section Monad.
Context {W : Type}.

Definition ret {A : Type} (a : A) : M W A := fun w => (inr a, w).

Definition bind {A B : Type} (m : M W A) (k : A -> M W B) : M W B :=
  fun w =>
    match m w with
    | (inr a, w') => k a w'
    | (inl e, w') => (inl e, w')
    end.

Definition raise {A : Type} (e : Exn) : M W A := fun w => (inl e, w).

(** [try: m  except Exception as e: h(e)] *)
Definition try_except {A : Type} (m : M W A) (h : Exn -> M W A) : M W A :=
  fun w =>
    match m w with
    | (inr a, w') => (inr a, w')
    | (inl e, w') => h e w'
    end.

Definition emit (e : Event) : M W unit :=
  fun w => (inr tt, {| host := host w; calls := calls w ++ [e] |}).

(** a query of the host that changes nothing *)
Definition ask {A : Type} (f : W -> A) : M W A :=
  fun w => (inr (f (host w)), w).

(** an operation that updates the host or raises *)
Definition update (f : W -> Exn + W) : M W unit :=
  fun w =>
    match f (host w) with
    | inr h' => (inr tt, {| host := h'; calls := calls w |})
    | inl e => (inl e, w)
    end.

(** an operation that answers and moves the host on *)
Definition call {A : Type} (f : W -> (Exn + A) * W) : M W A :=
  fun w =>
    let '(r, h') := f (host w) in
    (r, {| host := h'; calls := calls w |}).

(** [for x in l: body(x)] *)
Fixpoint for_each {A : Type} (l : list A) (body : A -> M W unit) : M W unit :=
  match l with
  | [] => ret tt
  | x :: l' => bind (body x) (fun _ => for_each l' body)
  end.

(** a loop that threads an accumulator, [continue] being [ret acc] *)
Fixpoint fold_m {A S : Type} (l : list A) (body : S -> A -> M W S) (acc : S) : M W S :=
  match l with
  | [] => ret acc
  | x :: l' => bind (body acc x) (fun acc' => fold_m l' body acc')
  end.

End Monad.

Notation "x <- m ;; k" := (bind m (fun x => k))
  (at level 61, m at next level, right associativity).
Notation "m ;;; k" := (bind m (fun _ => k))
  (at level 61, right associativity).

(** [l.append(x)] *)
Definition py_append {A : Type} (l : list A) (x : A) : list A := (l ++ [x])%list.

(** the newline character, as a string *)
Definition nl : string := String (ascii_of_nat 10) EmptyString.

(** [s.lstrip("/")] *)
Fixpoint lstrip_slash (s : string) : string :=
  match s with
  | String "/"%char s' => lstrip_slash s'
  | _ => s
  end.

(** [list(set(l))]: each element once.  Python leaves the order of a set
    open; the model lists elements by first occurrence. *)
Fixpoint set_list (l : list string) : list string :=
  match l with
  | [] => []
  | x :: l' => x :: filter (fun y => negb (String.eqb x y)) (set_list l')
  end.

(* ===================================================================== *)
(** ** [helpers.py] *)
(* ===================================================================== *)

(** [extract_repo_name_from_url] *)
Definition extract_repo_name_from_url (url : string) : Exn + string :=
  let url := if Py.endswith url ".git" then Py.drop_last 4 url else url in
  if Py.startswith url "git@" then inr (Py.split1_last ":"%char url)
  else if Py.startswith url "https://" || Py.startswith url "http://" then
    inr (Py.join "/" (Py.last2 (Py.split "/"%char url)))
  else inl "ValueError: Unrecognized GitHub repo URL format".

(** [is_test_file] *)
Definition is_test_file (f : string) : bool :=
  let name := Py.lower (PurePath.name (PurePath.of_string f)) in
  Py.contains "test" name || Py.contains "spec" name.

(** the loop over [plan["relevant_files"]] of
    [detect_language_from_context] *)
Fixpoint language_of_files (l : list string) : string :=
  match l with
  | [] => "python"
  | f :: l' =>
      let ext := Py.lower (PurePath.suffix (PurePath.of_string f)) in
      if String.eqb ext ".py" then "python"
      else if String.eqb ext ".ts" || String.eqb ext ".tsx" then "typescript"
      else if String.eqb ext ".js" || String.eqb ext ".jsx" then "javascript"
      else language_of_files l'
  end.

(** [detect_language_from_context].  A context whose [language] is
    [None] makes [.lower()] raise. *)
Definition detect_language_from_context (st : WorkflowState) : Exn + string :=
  let from_plan :=
    match plan st with
    | Some p =>
        match relevant_files p with
        | Some l => language_of_files l
        | None => "python"
        end
    | None => "python"
    end in
  match project_context st with
  | Some pc =>
      match language pc with
      | None => inl "AttributeError: 'NoneType' object has no attribute 'lower'"
      | Some l =>
          let tech := Py.lower l in
          if Py.contains "python" tech then inr "python"
          else if Py.contains "typescript" tech || Py.contains "ts" tech
          then inr "typescript"
          else if Py.contains "javascript" tech || Py.contains "js" tech
          then inr "javascript"
          else inr from_plan
      end
  | None => inr from_plan
  end.

Definition default_repo_developer_twin : string :=
  "https://github.com/SDT-DeveloperTwin/SDT-Testing-Project.git".

Definition default_repo_mahmoud : string :=
  "https://github.com/mahmoud99-cell/SDT-Testing-Project.git".

(** [state.project_context.repo_link if state.project_context else d] *)
Definition repo_url_of (st : WorkflowState) (d : string) : string :=
  match project_context st with
  | Some pc => repo_link pc
  | None => d
  end.

(** [... if state.project_context and getattr(state.project_context,
    "repo_link", None) else d] *)
Definition repo_url_checked (st : WorkflowState) (d : string) : string :=
  match project_context st with
  | Some pc => if Py.nonempty (repo_link pc) then repo_link pc else d
  | None => d
  end.

(** The accumulation that closes both generation phases:
    [for f in targets: if f not in updated: updated.append(str(f))]. *)
Definition append_new (updated : list string) (f : string) : list string :=
  if Py.mem f updated then updated else py_append updated f.

Definition accumulate_updated_files (st : WorkflowState) (targets : list string)
  : WorkflowState :=
  let cc :=
    match code_changes st with
    | None => {| created_file := None; updated_files := Some []; commit_message := None |}
    | Some c => c
    end in
  let current := match updated_files cc with Some l => l | None => [] end in
  set_code_changes st
    (Some {| created_file := created_file cc;
             updated_files := Some (fold_left append_new targets current);
             commit_message := commit_message cc |}).

(** [code_changes["updated_files"]], empty when there is none yet *)
Definition updated_of (st : WorkflowState) : list string :=
  match code_changes st with
  | Some cc => match updated_files cc with Some l => l | None => [] end
  | None => []
  end.

Section Phases.
Context {W : Type} `{Host W}.

Definition lift {A : Type} (r : Exn + A) : M W A :=
  match r with
  | inr a => ret a
  | inl e => raise e
  end.

Definition mkdir (p : string) : M W unit :=
  emit (EvMkdir p) ;;; update (fun h => path_mkdir h p).

Definition touch (p : string) : M W unit :=
  emit (EvTouch p) ;;; update (fun h => path_touch h p).

Definition read_text (p : string) : M W string :=
  r <- ask (fun h => path_read_text h p) ;; lift r.

Definition write_text (p content : string) : M W unit :=
  emit (EvWrite p content) ;;; update (fun h => path_write_text h p content).

Definition run_process (cmd cwd : string) : M W CompletedProcess :=
  emit (EvSubprocess cmd cwd) ;;; call (fun h => subprocess_run h cmd cwd).

Definition pip (m : string) : M W unit :=
  emit (EvPipInstall m) ;;; call (fun h => pip_install h m).

Definition respond (p : Prompt) : M W string :=
  emit (EvAgent p) ;;; call (fun h => agent_respond h p).

Definition remote (c : GithubCall) : M W unit :=
  emit (EvGithub c) ;;; call (fun h => github h c).

(** [get_test_dir]: [tests] when it is a directory, else [test] when it
    is one, else [tests] after creating it. *)
Definition get_test_dir (project_path : string) : M W PurePath.t :=
  let tests_dir :=
    PurePath.join (PurePath.of_string project_path) (PurePath.of_string "tests") in
  let test_dir :=
    PurePath.join (PurePath.of_string project_path) (PurePath.of_string "test") in
  has_tests <- ask (fun h => path_exists h (PurePath.to_string tests_dir)
                             && path_is_dir h (PurePath.to_string tests_dir)) ;;
  if has_tests then ret tests_dir
  else
    has_test <- ask (fun h => path_exists h (PurePath.to_string test_dir)
                              && path_is_dir h (PurePath.to_string test_dir)) ;;
    if has_test then ret test_dir
    else mkdir (PurePath.to_string tests_dir) ;;; ret tests_dir.

Definition relative_to (p : PurePath.t) (base : string) : M W PurePath.t :=
  match PurePath.relative_to p (PurePath.of_string base) with
  | Some r => ret r
  | None => raise "ValueError: path is not in the subpath of the base"
  end.

(** One step of the normalisation loop shared by
    [planning_node.py] and [test_generation_node.py].  A [Path] object
    is always true, so of [not parent or str(parent) == "."] only the
    comparison decides. *)
Definition normalize_test_path (project_path file_path : string) : M W string :=
  let file_path_obj := PurePath.of_string file_path in
  if String.eqb (PurePath.to_string (PurePath.parent file_path_obj)) "."
  then
    test_dir <- get_test_dir project_path ;;
    rel <- relative_to test_dir project_path ;;
    ret (PurePath.to_string
           (PurePath.join rel (PurePath.of_string (PurePath.name file_path_obj))))
  else ret (PurePath.to_string file_path_obj).

Definition normalize_test_files (project_path : string) (files : list string)
  : M W (list string) :=
  fold_m files
    (fun acc f => n <- normalize_test_path project_path f ;; ret (py_append acc n))
    [].

(** The path a generation phase reads and writes for [file_path]. *)
Definition target_path (project_path file_path : string) : M W PurePath.t :=
  let file_path_obj := PurePath.of_string file_path in
  rel <- (if PurePath.is_absolute file_path_obj
          then relative_to file_path_obj project_path
          else ret (PurePath.of_string
                      (Py.replace (project_path ++ "/") "" file_path))) ;;
  ret (PurePath.join (PurePath.of_string project_path) rel).

(** [f for f in relevant_files if f != file_path] *)
Definition others (relevant : list string) (file_path : string) : list string :=
  filter (fun f => negb (String.eqb f file_path)) relevant.

(** [getattr(state, "last_errors", None)] when it is true *)
Definition error_context (st : WorkflowState) : option string :=
  match last_errors st with
  | Some e => if Py.nonempty e then Some e else None
  | None => None
  end.

(** [new_code = code_header_remover(raw); if new_code: write] *)
Definition store_generated (path raw : string) : M W unit :=
  new_code <- ask (fun h => code_header_remover h raw) ;;
  if Py.nonempty new_code
  then write_text path (Py.rstrip new_code ++ nl)
  else ret tt.

(** the synthesised test file name of [TestGenerationNode.run] *)
Definition inferred_test_filename (lang : string) (sources : list string) : string :=
  match sources with
  | s0 :: _ =>
      let base_name := PurePath.stem (PurePath.of_string s0) in
      let base_name :=
        if Py.startswith base_name "test_"
        then String.substring 5 (String.length base_name - 5) base_name
        else base_name in
      if String.eqb lang "python" then "test_" ++ base_name ++ ".py"
      else base_name ++ ".test." ++
           (if String.eqb lang "typescript" then "ts" else "js")
  | [] =>
      if String.eqb lang "python" then "test_generated.py" else "generated.test.ts"
  end.

(** the target list of [TestGenerationNode.run]: the plan's test files,
    or one inferred and created file, then normalised *)
Definition test_targets (st : WorkflowState) (lang project_path : string)
  : M W (list string) :=
  let planned := plan_list st test_files in
  files <- (match planned with
            | [] =>
                let test_filename :=
                  inferred_test_filename lang (plan_list st source_files) in
                test_dir <- get_test_dir project_path ;;
                let test_file_path :=
                  PurePath.join test_dir (PurePath.of_string test_filename) in
                rel <- relative_to test_file_path project_path ;;
                touch (PurePath.to_string test_file_path) ;;;
                ret [PurePath.to_string rel]
            | _ => ret planned
            end) ;;
  normalize_test_files project_path files.

(** [TestGenerationNode.run].  [has_agent] is false for the instance
    built without an oracle ([TestGenerationNode()]), whose call raises
    a [TypeError] inside the [try]. *)
Definition TestGenerationNode_run (has_agent : bool) (st : WorkflowState)
  : M W WorkflowState :=
  let issue_text := github_issue st in
  lang <- lift (detect_language_from_context st) ;;
  repo_name <- lift (extract_repo_name_from_url
                       (repo_url_of st default_repo_developer_twin)) ;;
  let project_path := os_path_join "GitHubIssue" repo_name in
  let relevant := plan_list st relevant_files in
  targets <- test_targets st lang project_path ;;
  for_each targets
    (fun file_path =>
       path_obj <- target_path project_path file_path ;;
       mkdir (PurePath.to_string (PurePath.parent path_obj)) ;;;
       file_content <- try_except (read_text (PurePath.to_string path_obj))
                                  (fun _ => ret "") ;;
       try_except
         (raw <- (if has_agent
                  then respond (TestPrompt lang issue_text file_path file_content
                                           (others relevant file_path)
                                           (error_context st))
                  else raise "TypeError: 'NoneType' object is not callable") ;;
          store_generated (PurePath.to_string path_obj) raw)
         (fun _ => ret tt)) ;;;
  ret (accumulate_updated_files st targets).

(** [CodeGenerationNode.run] *)
Definition CodeGenerationNode_run (st : WorkflowState) : M W WorkflowState :=
  let issue_text := github_issue st in
  if negb (Py.nonempty issue_text) then ret st
  else
    lang <- lift (detect_language_from_context st) ;;
    repo_name <- lift (extract_repo_name_from_url
                         (repo_url_of st default_repo_developer_twin)) ;;
    let project_path := os_path_join "GitHubIssue" repo_name in
    let sources := plan_list st source_files in
    let relevant := plan_list st relevant_files in
    for_each sources
      (fun file_path =>
         path_obj <- target_path project_path file_path ;;
         file_content <- try_except (read_text (PurePath.to_string path_obj))
                                    (fun _ => ret "") ;;
         try_except
           (raw <- respond (CodePrompt lang issue_text file_path file_content
                                       (others relevant file_path)
                                       (error_context st)) ;;
            store_generated (PurePath.to_string path_obj) raw)
           (fun _ => ret tt)) ;;;
    ret (accumulate_updated_files st sources).

End Phases.

(* ===================================================================== *)
(** ** [TestAndLintNode] *)
(* ===================================================================== *)

(** The local variables of [TestAndLintNode.run] that its two loops
    update. *)
Record Tally : Type := {
  t_test_outputs : Outputs;
  t_lint_outputs : Outputs;
  all_tests_passed : bool;
  all_lint_passed : bool;
  error_accum : list string
}.

Definition tally0 : Tally :=
  {| t_test_outputs := []; t_lint_outputs := [];
     all_tests_passed := true; all_lint_passed := true; error_accum := [] |}.

(** a test ran to completion: record its output, and its failure if the
    exit code is not zero *)
Definition record_test (t : Tally) (file_path : string) (p : CompletedProcess) : Tally :=
  let out :=
    "[Exit code: " ++ Py.str_of_Z (returncode p) ++ "]" ++ nl ++
    "STDOUT:" ++ nl ++ stdout p ++ nl ++ "STDERR:" ++ nl ++ stderr p in
  let failed := negb (Z.eqb (returncode p) 0) in
  {| t_test_outputs := dict_set (t_test_outputs t) file_path out;
     t_lint_outputs := t_lint_outputs t;
     all_tests_passed := if failed then false else all_tests_passed t;
     all_lint_passed := all_lint_passed t;
     error_accum :=
       if failed
       then py_append (error_accum t)
              ("Test failure in " ++ file_path ++ ":" ++ nl ++ stdout p ++ nl ++ stderr p)
       else error_accum t |}.

(** the [except] branch of the test loop *)
Definition record_test_error (t : Tally) (file_path : string) (e : Exn) : Tally :=
  {| t_test_outputs := dict_set (t_test_outputs t) file_path ("Test error: " ++ e);
     t_lint_outputs := t_lint_outputs t;
     all_tests_passed := false;
     all_lint_passed := all_lint_passed t;
     error_accum := py_append (error_accum t) ("Test error in " ++ file_path ++ ": " ++ e) |}.

Definition record_lint (t : Tally) (file_path : string) (p : CompletedProcess) : Tally :=
  let out :=
    "[Exit code: " ++ Py.str_of_Z (returncode p) ++ "]" ++ nl ++
    "STDOUT:" ++ nl ++ stdout p ++ nl ++ "STDERR:" ++ nl ++ stderr p in
  let failed := negb (Z.eqb (returncode p) 0) in
  {| t_test_outputs := t_test_outputs t;
     t_lint_outputs := dict_set (t_lint_outputs t) file_path out;
     all_tests_passed := all_tests_passed t;
     all_lint_passed := if failed then false else all_lint_passed t;
     error_accum :=
       if failed
       then py_append (error_accum t)
              ("Lint failure in " ++ file_path ++ ": Exit code " ++
               Py.str_of_Z (returncode p))
       else error_accum t |}.

(** the [except] branch of the lint loop *)
Definition record_lint_error (t : Tally) (file_path : string) (e : Exn) : Tally :=
  {| t_test_outputs := t_test_outputs t;
     t_lint_outputs := dict_set (t_lint_outputs t) file_path ("Lint error: " ++ e);
     all_tests_passed := all_tests_passed t;
     all_lint_passed := false;
     error_accum := py_append (error_accum t) ("Lint error in " ++ file_path ++ ": " ++ e) |}.

(** the files the lint loop takes: Python sources whose stem does not
    mention tests *)
Definition lintable (file_path : string) : bool :=
  Py.endswith file_path ".py"
  && negb (Py.contains "test" (Py.lower (PurePath.stem (PurePath.of_string file_path)))).

(** [any("no tests ran" in v.lower() for v in test_outputs.values())] *)
Definition no_tests_ran (outs : Outputs) : bool :=
  existsb (fun kv => Py.contains "no tests ran" (Py.lower (snd kv))) outs.

(** the assignments that end [TestAndLintNode.run] *)
Definition finish_test_and_lint (st : WorkflowState) (t : Tally) : WorkflowState :=
  if no_tests_ran (t_test_outputs t) then
    set_passed
      (set_lint_results
         (set_test_results st (Some (mk_test_results (t_test_outputs t) true)))
         (Some (mk_lint_results (t_lint_outputs t) (all_lint_passed t))))
      (Some true)
  else
    set_last_errors
      (set_passed
         (set_lint_results
            (set_test_results st
               (Some (mk_test_results (t_test_outputs t) (all_tests_passed t))))
            (Some (mk_lint_results (t_lint_outputs t) (all_lint_passed t))))
         (Some (all_tests_passed t && all_lint_passed t)))
      (match error_accum t with
       | [] => None
       | errs => Some (Py.join (nl ++ nl) errs)
       end).

(** the return taken when no test file exists *)
Definition finish_without_tests (st : WorkflowState) : WorkflowState :=
  set_lint_results
    (set_test_results st (Some (mk_test_results [] true)))
    (Some (mk_lint_results [] true)).

(** the return taken when the plan has no relevant file *)
Definition finish_nothing_relevant (st : WorkflowState) : WorkflowState :=
  set_passed
    (set_lint_results
       (set_test_results st (Some empty_test_results))
       (Some empty_lint_results))
    None.

Section TestAndLint.
Context {W : Type} `{Host W}.

(** [[f for f in files if Path(os.path.join(project_path, f)).is_file()]] *)
Definition existing (project_path : string) (files : list string) : M W (list string) :=
  ask (fun h =>
         filter (fun f =>
                   path_is_file h
                     (PurePath.to_string
                        (PurePath.of_string (os_path_join project_path f))))
                files).

(** whether [pyproject.toml] configures [addopts] with [--doctest-rst] *)
Definition use_repo_pytest (repo_root : string) : M W bool :=
  let pyproject_path := os_path_join repo_root "pyproject.toml" in
  is_file <- ask (fun h => path_is_file h pyproject_path) ;;
  if is_file then
    try_except
      (content <- read_text pyproject_path ;;
       ret (Py.contains "addopts" content && Py.contains "--doctest-rst" content))
      (fun _ => ret false)
  else ret false.

(** the body of the [try] of the test loop *)
Definition run_test (repo_root file_path ext test_cmd : string)
  : M W CompletedProcess :=
  let is_py := String.eqb ext ".py" in
  test_cmd <-
    (if is_py
        && Py.startswith test_cmd "pytest "
        && negb (Py.mem (Py.strip test_cmd) ["pytest"; "pytest --doctest-rst"])
     then
       rel <- ask (fun h => relpath_in h repo_root file_path) ;;
       ret ("pytest " ++ rel)
     else ret test_cmd) ;;
  test_proc <- run_process test_cmd repo_root ;;
  if is_py
     && Py.contains "ModuleNotFoundError" (stderr test_proc)
     && Py.contains "No module named" (stderr test_proc)
  then
    missing <- ask (fun h => missing_modules h (stderr test_proc)) ;;
    for_each missing (fun m => try_except (pip m) (fun _ => ret tt)) ;;;
    run_process test_cmd repo_root
  else ret test_proc.

(** one iteration of the test loop *)
Definition test_one (repo_root : string) (t : Tally) (file_path : string)
  : M W Tally :=
  let ext := Py.lower (PurePath.suffix (PurePath.of_string file_path)) in
  let attempt (test_cmd : string) : M W Tally :=
    try_except
      (p <- run_test repo_root file_path ext test_cmd ;; ret (record_test t file_path p))
      (fun e => ret (record_test_error t file_path e)) in
  if String.eqb ext ".py" then
    repo_pytest <- use_repo_pytest repo_root ;;
    attempt (if repo_pytest then "pytest" else "pytest " ++ file_path)
  else if Py.mem ext [".js"; ".jsx"; ".ts"; ".tsx"] then
    attempt "npm run test"
  else ret t.

(** one iteration of the lint loop *)
Definition lint_one (repo_root : string) (t : Tally) (file_path : string)
  : M W Tally :=
  if lintable file_path then
    try_except
      (rel <- ask (fun h => relpath_in h repo_root file_path) ;;
       p <- run_process ("ruff check " ++ rel) repo_root ;;
       ret (record_lint t file_path p))
      (fun e => ret (record_lint_error t file_path e))
  else ret t.

(** the three-step resolution of the test files that exist on disk; the
    state comes back because the last step runs the test-generation
    phase on it *)
Definition resolve_test_files (st : WorkflowState) (project_path : string)
  : M W (WorkflowState * list string) :=
  from_plan <- existing project_path (plan_list st test_files) ;;
  found <- (match from_plan with
            | [] => existing project_path
                      (filter is_test_file (plan_list st relevant_files))
            | _ => ret from_plan
            end) ;;
  match found with
  | [] =>
      st' <- TestGenerationNode_run false st ;;
      regenerated <- existing project_path (plan_list st' test_files) ;;
      ret (st', regenerated)
  | _ => ret (st, found)
  end.

(** [TestAndLintNode.run] *)
Definition TestAndLintNode_run (st : WorkflowState) : M W WorkflowState :=
  let relevant := plan_list st relevant_files in
  match relevant with
  | [] => ret (finish_nothing_relevant st)
  | _ =>
      repo_name <- lift (extract_repo_name_from_url
                           (repo_url_checked st default_repo_developer_twin)) ;;
      let project_path := os_path_join "GitHubIssue" repo_name in
      is_dir <- ask (fun h => path_is_dir h project_path) ;;
      if negb is_dir
      then raise "FileNotFoundError: repository path not found; did issue_analysis run?"
      else
        resolved <- resolve_test_files st project_path ;;
        let '(st, test_files_exist) := resolved in
        match test_files_exist with
        | [] => ret (finish_without_tests st)
        | _ =>
            t <- fold_m test_files_exist (test_one project_path) tally0 ;;
            t <- fold_m relevant (lint_one project_path) t ;;
            ret (finish_test_and_lint st t)
        end
  end.

End TestAndLint.

(* ===================================================================== *)
(** ** [CommitAndPRNode] *)
(* ===================================================================== *)

(** [created_file] followed by [updated_files], through [list(set(...))] *)
Definition changed_files (cc : CodeChanges) : list string :=
  set_list
    ((match created_file cc with Some f => [f] | None => [] end)
       ++ (match updated_files cc with Some l => l | None => [] end))%list.

Section Commit.
Context {W : Type} `{Host W}.

(** read every file of [files] under [base], skipping the unreadable
    ones; [entry] builds what is kept of a file *)
Definition read_all (base : string) (files : list string)
           (entry : string -> string -> string * string)
  : M W (list (string * string)) :=
  fold_m files
    (fun acc file_path =>
       try_except
         (data <- read_text (os_path_join base file_path) ;;
          ret (py_append acc (entry file_path data)))
         (fun _ => ret acc))
    [].

(** the commit message: the cached one, else one asked of the oracle and
    stored in [code_changes] *)
Definition ensure_commit_message (st : WorkflowState) (cc : CodeChanges)
           (repo_url : string) : M W (CodeChanges * string) :=
  let cached := match commit_message cc with Some m => m | None => "" end in
  if Py.nonempty cached then ret (cc, cached)
  else
    repo_name <- lift (extract_repo_name_from_url repo_url) ;;
    let project_path := os_path_join "GitHubIssue" repo_name in
    summaries <- read_all project_path (changed_files cc)
                   (fun f data => (f, String.substring 0 500 data)) ;;
    message <- respond (CommitPrompt (github_issue st) summaries) ;;
    ret ({| created_file := created_file cc;
            updated_files := updated_files cc;
            commit_message := Some message |}, message).

(** [CommitAndPRNode.run] *)
Definition CommitAndPRNode_run (st : WorkflowState) : M W WorkflowState :=
  let repo_url := repo_url_checked st default_repo_mahmoud in
  if tests_ok st then
    match code_changes st with
    | None => raise "AttributeError: 'NoneType' object has no attribute 'get'"
    | Some cc =>
        msg <- ensure_commit_message st cc repo_url ;;
        let '(cc, message) := msg in
        let st := set_code_changes st (Some cc) in
        repo_name <- lift (extract_repo_name_from_url repo_url) ;;
        base_branch <- ask (fun h => match getenv h "GITHUB_BASE_BRANCH" with
                                     | Some b => b
                                     | None => "main"
                                     end) ;;
        remote (GetRepo repo_name) ;;;
        remote (GetBranch base_branch) ;;;
        remote (GetGitRef ("heads/" ++ base_branch)) ;;;
        commit_files <- read_all (os_path_join "GitHubIssue" "SDT-Testing-Project")
                          (changed_files cc)
                          (fun f data => (lstrip_slash (Py.replace "\" "/" f), data)) ;;
        match commit_files with
        | [] => ret st
        | _ =>
            remote (CreateGitTree commit_files) ;;;
            remote GetGitCommit ;;;
            remote (CreateGitCommit message) ;;;
            remote RefEdit ;;;
            ret st
        end
    end
  else ret st.

End Commit.

(* ===================================================================== *)
(** ** [SDTAgent]: the engine ([main_agent.py]) *)
(* ===================================================================== *)

(** the targets of the conditional edge; [END] is the graph's stop *)
Inductive Route : Type :=
| main_code_generation
| commit_and_pr
| END.

(** the attributes of [SDTAgent] the transition reads and writes *)
Record SDTAgent : Type := {
  retry_count : Z;
  max_retries : Z
}.

(** [SDTAgent.__init__] *)
Definition SDTAgent_init : SDTAgent := {| retry_count := 0; max_retries := 3 |}.

(** [SDTAgent.should_retry].  It returns the route together with the
    state and the engine as the call leaves them. *)
Definition should_retry (self : SDTAgent) (st : WorkflowState)
           (include_commit_and_pr : bool) : Route * WorkflowState * SDTAgent :=
  if tests_failed st then
    let retry_attempt := retry_count self in
    if (retry_attempt <? max_retries self)%Z then
      (main_code_generation, st,
       {| retry_count := retry_count self + 1; max_retries := max_retries self |})
    else
      (END, set_last_errors st None, self)
  else
    let st := set_last_errors st None in
    if include_commit_and_pr then
      ((if tests_ok st then commit_and_pr else END), st, self)
    else (END, st, self).

(* ===================================================================== *)
(** ** The phases before generation, and the graph of [run_workflow] *)
(* ===================================================================== *)

Section Workflow.
Context {W : Type} `{Host W}.

(** [CloneProjectRepoNode.run]: the state passes through. *)
Definition CloneProjectRepoNode_run (st : WorkflowState) : M W WorkflowState :=
  let repo_url := repo_url_checked st default_repo_mahmoud in
  repo_name <- lift (extract_repo_name_from_url repo_url) ;;
  let destination_dir := os_path_join "GitHubIssue" repo_name in
  emit (EvPrepare repo_url destination_dir) ;;;
  call (fun h => prepare_repository h repo_url destination_dir) ;;;
  ret st.

(** [RetrieveIssueDetailsNode.run] *)
Definition RetrieveIssueDetailsNode_run (st : WorkflowState) : M W WorkflowState :=
  let issue := github_issue st in
  numbered <- ask (fun h => is_issue_number h issue) ;;
  if Py.nonempty issue && numbered then
    token <- ask (fun h => getenv h "GITHUB_TOKEN") ;;
    repo_name <- (match project_context st with
                  | Some pc =>
                      if Py.nonempty (repo_link pc)
                      then lift (extract_repo_name_from_url (repo_link pc))
                      else ret ""
                  | None => ret ""
                  end) ;;
    let has_token := match token with Some t => Py.nonempty t | None => false end in
    if negb has_token || negb (Py.nonempty repo_name)
    then raise "ValueError: Missing GitHub credentials."
    else
      emit (EvFetchIssue repo_name issue) ;;;
      body <- call (fun h => fetch_issue_body h repo_name issue) ;;
      ret (set_github_issue st body)
  else if negb (Py.nonempty issue)
  then raise "ValueError: github_issue is empty in WorkflowState."
  else ret st.

(** [PlanningNode.run] *)
Definition PlanningNode_run (st : WorkflowState) : M W WorkflowState :=
  let issue_text := github_issue st in
  repo_name <- lift (extract_repo_name_from_url
                       (repo_url_of st default_repo_developer_twin)) ;;
  let project_path := os_path_join "GitHubIssue" repo_name in
  is_dir <- ask (fun h => path_is_dir h project_path) ;;
  if negb is_dir
  then raise "FileNotFoundError: repository path not found; did issue_analysis run?"
  else if negb (Py.nonempty issue_text)
  then raise "ValueError: github_issue is empty"
  else
    emit (EvClassify issue_text project_path) ;;;
    classified <- call (fun h => classify_files h issue_text project_path) ;;
    let tests := match test_files classified with Some l => l | None => [] end in
    normalized <- normalize_test_files project_path tests ;;
    ret (set_plan st
           (Some {| relevant_files :=
                      Some (match relevant_files classified with
                            | Some l => l | None => [] end);
                    source_files :=
                      Some (match source_files classified with
                            | Some l => l | None => [] end);
                    test_files := Some normalized;
                    is_test_generation_issue :=
                      Some (match is_test_generation_issue classified with
                            | Some b => b | None => false end) |})).

(** The cycle of the graph built by [run_workflow]:
    [main_code_generation -> test_and_lint], then the conditional edge
    decided by [should_retry], which leads back to
    [main_code_generation], on to [commit_and_pr] (the finish point) or
    to the end.  The graph runtime itself is the [langgraph] library;
    its walk is written here as the loop it performs, the one state
    record being handed from node to node.  [None] is returned when
    [fuel] rounds did not reach the end. *)
Fixpoint retry_cycle (fuel : nat) (include_commit_and_pr : bool)
         (self : SDTAgent) (st : WorkflowState)
  : M W (option (WorkflowState * SDTAgent)) :=
  match fuel with
  | O => ret None
  | S fuel' =>
      st <- CodeGenerationNode_run st ;;
      st <- TestAndLintNode_run st ;;
      let '(route, st, self) := should_retry self st include_commit_and_pr in
      match route with
      | main_code_generation => retry_cycle fuel' include_commit_and_pr self st
      | commit_and_pr =>
          st <- CommitAndPRNode_run st ;;
          ret (Some (st, self))
      | END => ret (Some (st, self))
      end
  end.

(** rounds that always suffice: one per retry left, and the last one *)
Definition rounds (self : SDTAgent) : nat :=
  S (Z.to_nat (max_retries self - retry_count self)).

(** the whole graph, from its entry point *)
Definition workflow (self : SDTAgent) (st : WorkflowState)
           (include_commit_and_pr : bool)
  : M W (option (WorkflowState * SDTAgent)) :=
  st <- CloneProjectRepoNode_run st ;;
  st <- RetrieveIssueDetailsNode_run st ;;
  st <- PlanningNode_run st ;;
  retry_cycle (rounds self) include_commit_and_pr self st.

(** [SDTAgent.run_workflow]: the final state, or [None] when a phase
    raised (the [except] branch logs and returns [None]). *)
Definition run_workflow (self : SDTAgent) (initial_state : WorkflowState)
           (include_commit_and_pr : bool) (w : World W)
  : option WorkflowState * World W :=
  match workflow self initial_state include_commit_and_pr w with
  | (inr (Some (final_state, _)), w') => (Some final_state, w')
  | (_, w') => (None, w')
  end.

End Workflow.

(* ===================================================================== *)
(** ** A scripted host, to run the phases on concrete inputs *)
(* ===================================================================== *)

Module Sim.

(** Directories and files by path, the answers child processes and the
    oracle will give (in order), and the plan the classifier returns. *)
Record t : Type := {
  dirs : list string;
  files : list (string * string);
  processes : list CompletedProcess;
  replies : list string;
  classified : Plan
}.

Definition lookup (p : string) (l : list (string * string)) : option string :=
  match find (fun kv => String.eqb (fst kv) p) l with
  | Some kv => Some (snd kv)
  | None => None
  end.

Definition is_file (h : t) (p : string) : bool :=
  match lookup p (files h) with Some _ => true | None => false end.

Definition is_dir (h : t) (p : string) : bool := Py.mem p (dirs h).

Definition with_dirs (h : t) (d : list string) : t :=
  {| dirs := d; files := files h; processes := processes h;
     replies := replies h; classified := classified h |}.

Definition with_files (h : t) (f : list (string * string)) : t :=
  {| dirs := dirs h; files := f; processes := processes h;
     replies := replies h; classified := classified h |}.

Definition mkdir (h : t) (p : string) : Exn + t :=
  if is_file h p then inl "FileExistsError"
  else if is_dir h p then inr h
  else inr (with_dirs h (py_append (dirs h) p)).

Definition touch (h : t) (p : string) : Exn + t :=
  if is_dir h p || is_file h p then inr h
  else inr (with_files h (py_append (files h) (p, ""))).

Definition read (h : t) (p : string) : Exn + string :=
  match lookup p (files h) with
  | Some c => inr c
  | None => inl "FileNotFoundError"
  end.

Definition write (h : t) (p c : string) : Exn + t :=
  if is_dir h p then inl "IsADirectoryError"
  else inr (with_files h (dict_set (files h) p c)).

Definition ok : CompletedProcess := {| returncode := 0; stdout := ""; stderr := "" |}.

Definition run (h : t) (cmd cwd : string) : (Exn + CompletedProcess) * t :=
  match processes h with
  | p :: rest =>
      (inr p, {| dirs := dirs h; files := files h; processes := rest;
                 replies := replies h; classified := classified h |})
  | [] => (inr ok, h)
  end.

Definition reply (h : t) (p : Prompt) : (Exn + string) * t :=
  match replies h with
  | r :: rest =>
      (inr r, {| dirs := dirs h; files := files h; processes := processes h;
                 replies := rest; classified := classified h |})
  | [] => (inr "", h)
  end.

#[global] Instance sim_host : Host t := {|
  path_exists := fun h p => is_dir h p || is_file h p;
  path_is_dir := is_dir;
  path_is_file := is_file;
  path_mkdir := mkdir;
  path_touch := touch;
  path_read_text := read;
  path_write_text := write;
  subprocess_run := run;
  pip_install := fun h _ => (inr tt, h);
  agent_respond := reply;
  github := fun h _ => (inr tt, h);
  getenv := fun _ _ => None;
  missing_modules := fun _ _ => [];
  code_header_remover := fun _ s => s;
  relpath_in := fun _ _ f => f;
  prepare_repository := fun h _ _ => (inr tt, h);
  is_issue_number := fun _ _ => false;
  fetch_issue_body := fun h _ _ => (inl "UnknownObjectException", h);
  classify_files := fun h _ _ => (inr (classified h), h)
|}.

Definition start (h : t) : World t := {| host := h; calls := [] |}.

End Sim.

(** *** The shipped test project, as a scripted world *)

Definition testing_project : string := "GitHubIssue/SDT-DeveloperTwin/SDT-Testing-Project".

Definition price_plan : Plan :=
  {| relevant_files := Some ["price_utils.py"; "tests/test_price_utils.py"];
     source_files := Some ["price_utils.py"];
     test_files := Some ["tests/test_price_utils.py"];
     is_test_generation_issue := Some false |}.

Definition price_host (procs : list CompletedProcess) : Sim.t :=
  {| Sim.dirs := [testing_project; testing_project ++ "/tests"];
     Sim.files := [(testing_project ++ "/price_utils.py", "def f(): pass");
                   (testing_project ++ "/tests/test_price_utils.py", "def test_f(): pass");
                   ("GitHubIssue/SDT-Testing-Project/price_utils.py", "def f(): pass")];
     Sim.processes := procs;
     Sim.replies := [];
     Sim.classified := price_plan |}.

Definition price_state : WorkflowState :=
  {| github_issue := "price_utils.py rounds prices the wrong way";
     project_context :=
       Some {| repo_link := default_repo_developer_twin;
               project_description := None; language := Some "Python";
               context_relevant_files := None; dependencies := None |};
     plan := None; code_changes := None; test_results := None;
     lint_results := None; passed := None; last_errors := None |}.

Definition exit_with (code : Z) (out : string) : CompletedProcess :=
  {| returncode := code; stdout := out; stderr := "" |}.

(* ===================================================================== *)
(** ** What the properties are stated with *)
(* ===================================================================== *)



(** [state.test_results.get("tests_passed")], [None] without results *)
Definition tests_passed_of (st : WorkflowState) : option bool :=
  match test_results st with
  | Some r => get_tests_passed r
  | None => None
  end.

Definition lint_passed_of (st : WorkflowState) : option bool :=
  match lint_results st with
  | Some r => match lint_passed r with Some v => v | None => None end
  | None => None
  end.

(** a failing result, as the test phase writes it *)
Definition failing_state : WorkflowState :=
  set_last_errors
    (set_test_results price_state (Some (mk_test_results [] false)))
    (Some "Test failure in tests/test_price_utils.py").

(** the state the test phase leaves when the plan has no relevant file:
    both results are the empty [dict] *)
Definition nothing_relevant_state : WorkflowState :=
  finish_nothing_relevant price_state.

(** results that hold outputs but no [tests_passed] key *)
Definition unflagged_state : WorkflowState :=
  set_test_results price_state
    (Some {| test_outputs := Some []; tests_passed := None |}).

(** a passing result, as the test phase writes it *)
Definition passing_state : WorkflowState :=
  set_test_results price_state (Some (mk_test_results [] true)).

(** The passing transition as the specification words it: with
    [tests_passed] true, or
    absent or [None], the transition clears [last_errors] and leads to
    [commit_and_pr] when that phase is enabled and to the stop
    otherwise. *)
Definition passing_transition_as_specified
           (self : SDTAgent) (st : WorkflowState) (inc : bool) : Prop :=
  truthy (tests_passed_of st) = true \/ tests_passed_of st = None ->
  let '(route, st', _) := should_retry self st inc in
  last_errors st' = None
  /\ route = (if inc then commit_and_pr else END).

(** the state as the planning phase leaves it for the price issue *)
Definition planned_state : WorkflowState := set_plan price_state (Some price_plan).

(** the same issue with a plan that names no test file *)
Definition untested_plan : Plan :=
  {| relevant_files := Some ["price_utils.py"];
     source_files := Some ["price_utils.py"];
     test_files := Some [];
     is_test_generation_issue := Some false |}.

Definition untested_state : WorkflowState := set_plan price_state (Some untested_plan).


Definition is_github (e : Event) : bool :=
  match e with EvGithub _ => true | _ => false end.


(** no [/] occurs in [x] *)
Fixpoint no_slash (x : string) : bool :=
  match x with
  | EmptyString => true
  | String c x' => negb (Ascii.eqb c "/"%char) && no_slash x'
  end.

(** a component as [Path] keeps it: not empty, not [.], without [/] *)
Definition component (x : string) : bool := PurePath.keep_part x && no_slash x.

(** a path as [Path(...)] builds it *)
Definition canonical (p : PurePath.t) : Prop :=
  (PurePath.root p = "" \/ PurePath.root p = "/" \/ PurePath.root p = "//")
  /\ Forall (fun x => component x = true) (PurePath.parts p).

(** [str(Path(project_path, d))] *)
Definition dir_path (project_path d : string) : string :=
  PurePath.to_string
    (PurePath.join (PurePath.of_string project_path) (PurePath.of_string d)).

(** [str(Path(d) / name)] *)
Definition relocated (d name : string) : string :=
  PurePath.to_string (PurePath.join (PurePath.mk "" [d]) (PurePath.of_string name)).

(** Idempotence as the specification words it: normalising the result
    of a normalisation gives that result again. *)
Definition normalization_idempotent_at {W : Type} `{Host W}
           (project_path f : string) (w : World W) : Prop :=
  forall f1 w1,
    normalize_test_path project_path f w = (inr f1, w1) ->
    normalize_test_path project_path f1 w1 = (inr f1, w1).

(** whenever a test has failed, an error block has been collected *)
Definition errors_recorded (t : Tally) : Prop :=
  all_tests_passed t = false -> error_accum t <> [].

Section Statements.
Context {W : Type} `{Host W}.

(** [m] adds no call of the kind [bad] to the record, whatever the host
    answers and whether it returns or raises *)
Definition avoids (bad : Event -> bool) {A : Type} (m : M W A) : Prop :=
  forall w r w', m w = (r, w') ->
    exists evs, calls w' = (calls w ++ evs)%list
                /\ Forall (fun e => bad e = false) evs.

(** the target paths an execution of [TestGenerationNode.run] works on *)
Definition TestGenerationNode_targets (st : WorkflowState) : M W (list string) :=
  lang <- lift (detect_language_from_context st) ;;
  repo_name <- lift (extract_repo_name_from_url
                       (repo_url_of st default_repo_developer_twin)) ;;
  test_targets st lang (os_path_join "GitHubIssue" repo_name).

(** A sequence of generation-phase executions on one state record, with
    the target paths of each; between two of them other phases may rewrite
    the rest of the state.  [CodeGenerationNode.run] is met with the issue
    text in place, which [PlanningNode.run] insists on. *)
Inductive generation_trace : WorkflowState -> list (list string) -> WorkflowState -> Prop :=
| trace_done (st : WorkflowState) :
    generation_trace st [] st
| trace_code (st st1 st2 : WorkflowState) (w w1 : World W) (tss : list (list string)) :
    github_issue st <> "" ->
    CodeGenerationNode_run st w = (inr st1, w1) ->
    generation_trace st1 tss st2 ->
    generation_trace st (plan_list st source_files :: tss) st2
| trace_test (has_agent : bool) (st st1 st2 : WorkflowState) (w w0 w1 : World W)
             (targets : list string) (tss : list (list string)) :
    TestGenerationNode_targets st w = (inr targets, w0) ->
    TestGenerationNode_run has_agent st w = (inr st1, w1) ->
    generation_trace st1 tss st2 ->
    generation_trace st (targets :: tss) st2
| trace_other (st st1 st2 : WorkflowState) (tss : list (list string)) :
    updated_of st1 = updated_of st ->
    generation_trace st1 tss st2 ->
    generation_trace st tss st2.

(** [p.exists() and p.is_dir()] *)
Definition has_dir (w : World W) (p : string) : bool :=
  path_exists (host w) p && path_is_dir (host w) p.

(** the world after [Path.mkdir] was called on [p] and left the host [h'] *)
Definition after_mkdir (w : World W) (p : string) (h' : W) : World W :=
  {| host := h'; calls := (calls w ++ [EvMkdir p])%list |}.

End Statements.

(* ===================================================================== *)
(** ** More of the sources: [MainCodeGenerationNode], the edges of the
       graph, and the repository URL of [benchmark_agent.py] *)
(* ===================================================================== *)

Section MainCodeGeneration.
Context {W : Type} `{Host W}.

(** [MainCodeGenerationNode.run].  Both phase objects are built on the
    spot and without an argument: [TestGenerationNode()] has no oracle,
    and [CodeGenerationNode()] raises, its [__init__] requiring one. *)
Definition MainCodeGenerationNode_run (st : WorkflowState) : M W WorkflowState :=
  let sources := plan_list st source_files in
  let tests := plan_list st test_files in
  let is_test_generation :=
    match plan st with
    | Some p => match is_test_generation_issue p with Some b => b | None => false end
    | None => false
    end in
  if is_test_generation then
    match tests with
    | [] => ret st
    | _ => TestGenerationNode_run false st
    end
  else
    match sources with
    | [] => ret st
    | _ =>
        raise ("TypeError: CodeGenerationNode.__init__() missing 1 required "
               ++ "positional argument: 'agent_respond'")
    end.

End MainCodeGeneration.

(** [SDTAgent.build_phases]: the names of the nodes, in order *)
Definition build_phases (include_commit_and_pr : bool) : list string :=
  (["issue_analysis"; "project_understanding"; "planning";
    "main_code_generation"; "test_and_lint"]
     ++ (if include_commit_and_pr then ["commit_and_pr"] else []))%list.

(** the keys of the mapping [run_workflow] hands to
    [add_conditional_edges] for [test_and_lint] *)
Definition conditional_edges (include_commit_and_pr : bool) : list Route :=
  if include_commit_and_pr
  then [main_code_generation; commit_and_pr; END]
  else [main_code_generation; END].

(** the node a route names; [END] names none *)
Definition route_node (r : Route) : option string :=
  match r with
  | main_code_generation => Some "main_code_generation"
  | commit_and_pr => Some "commit_and_pr"
  | END => None
  end.

(** the repository URL [instance_to_state] and
    [benchmark_agent_on_instance] build from [instance["repo"]] *)
Definition instance_repo_url (repo : string) : string :=
  if negb (Py.startswith repo "http") then
    if negb (Py.endswith repo ".git")
    then "https://github.com/" ++ repo ++ ".git"
    else "https://github.com/" ++ repo
  else repo.

(** ** What the further properties are stated with *)

(** the command lines the test phase is written to start *)
Definition test_phase_command (cmd : string) : bool :=
  String.eqb cmd "pytest"
  || Py.startswith cmd "pytest "
  || String.eqb cmd "npm run test"
  || Py.startswith cmd "ruff check ".


(** a call to the oracle, a write of file content or a GitHub call *)
Definition writes_or_asks (e : Event) : bool :=
  match e with
  | EvAgent _ | EvWrite _ _ | EvGithub _ => true
  | _ => false
  end.

(** the creation of a git tree with no file in it *)
Definition empty_tree (e : Event) : bool :=
  match e with
  | EvGithub (CreateGitTree []) => true
  | _ => false
  end.

(** the keys of a [dict] *)
Definition keys (d : Outputs) : list string := map fst d.

(** the extensions the test loop has a command for *)
Definition testable (file_path : string) : bool :=
  let ext := Py.lower (PurePath.suffix (PurePath.of_string file_path)) in
  String.eqb ext ".py" || Py.mem ext [".js"; ".jsx"; ".ts"; ".tsx"].


(** the GitHub calls of a commit: the three look-ups, then, when there
    is a file to commit, the tree, the parent, the commit and the move of
    the branch *)
Definition commit_calls (repo branch message : string) (files : list (string * string))
  : list Event :=
  map EvGithub
    ([GetRepo repo; GetBranch branch; GetGitRef ("heads/" ++ branch)]
       ++ match files with
          | [] => []
          | _ => [CreateGitTree files; GetGitCommit; CreateGitCommit message; RefEdit]
          end)%list.

(** What a completed run of [CommitAndPRNode.run] has done: nothing, the
    tests not having passed; or the commit of [files] under the message
    now held in [code_changes]. *)
Definition commit_outcome {W : Type} (st st' : WorkflowState) (w w' : World W) : Prop :=
  (tests_ok st = false /\ st' = st /\ w' = w)
  \/ exists cc cc' message repo branch files,
       tests_ok st = true
       /\ code_changes st = Some cc
       /\ st' = set_code_changes st (Some cc')
       /\ created_file cc' = created_file cc
       /\ updated_files cc' = updated_files cc
       /\ commit_message cc' = Some message
       /\ Forall (fun kv => exists f, In f (changed_files cc)
                                      /\ fst kv = lstrip_slash (Py.replace "\" "/" f))
                 files
       /\ filter is_github (calls w')
          = (filter is_github (calls w) ++ commit_calls repo branch message files)%list.

(** a state whose tests passed, with a change to commit *)
Definition committable_state : WorkflowState :=
  set_code_changes passing_state
    (Some {| created_file := None;
             updated_files := Some ["price_utils.py"];
             commit_message := Some "fix: round prices half up" |}).

(** [plan.get("is_test_generation_issue", False)] as a condition *)
Definition for_test_generation (st : WorkflowState) : bool :=
  match plan st with
  | Some p => match is_test_generation_issue p with Some b => b | None => false end
  | None => false
  end.

(** [bool(os.getenv("GITHUB_TOKEN"))] *)
Definition has_token {W : Type} `{Host W} (w : World W) : bool :=
  match getenv (host w) "GITHUB_TOKEN" with
  | Some t => Py.nonempty t
  | None => false
  end.

(** [state.test_results["test_outputs"]] and
    [state.lint_results["lint_outputs"]], empty when there is none *)
Definition test_outputs_of (st : WorkflowState) : Outputs :=
  match test_results st with
  | Some r => match test_outputs r with Some o => o | None => [] end
  | None => []
  end.

Definition lint_outputs_of (st : WorkflowState) : Outputs :=
  match lint_results st with
  | Some r => match lint_outputs r with Some o => o | None => [] end
  | None => []
  end.


(* ===================================================================== *)
(** * Properties *)
(* ===================================================================== *)

(** ** Samples of the path model, against [pathlib] *)

Example pathlib_samples :
  map (fun s => PurePath.to_string (PurePath.of_string s))
      [""; "."; "foo.py"; "./foo.py"; "a//b.py"; "///foo.py"; "//foo.py"; "a/b/"; "/"]
  = ["."; "."; "foo.py"; "foo.py"; "a/b.py"; "/foo.py"; "//foo.py"; "a/b"; "/"].
Proof. reflexivity. Qed.

Example pathlib_suffix_samples :
  map (fun s => (PurePath.suffix (PurePath.of_string s), PurePath.stem (PurePath.of_string s)))
      ["a/foo.py"; ".hidden"; "a."; "a.b.c"; "..x"]
  = [(".py", "foo"); ("", ".hidden"); ("", "a."); (".c", "a.b"); (".x", ".")].
Proof. reflexivity. Qed.

(** ** The conditional transition *)

Lemma should_retry_failing_retry (self : SDTAgent) (st : WorkflowState) (inc : bool) :
  tests_failed st = true ->
  (retry_count self < max_retries self)%Z ->
  should_retry self st inc =
  (main_code_generation, st,
   {| retry_count := retry_count self + 1; max_retries := max_retries self |}).
Proof.
  intros Hf Hlt. unfold should_retry. rewrite Hf.
  apply Z.ltb_lt in Hlt. now rewrite Hlt.
Qed.

Lemma should_retry_failing_stop (self : SDTAgent) (st : WorkflowState) (inc : bool) :
  tests_failed st = true ->
  (max_retries self <= retry_count self)%Z ->
  should_retry self st inc = (END, set_last_errors st None, self).
Proof.
  intros Hf Hge. unfold should_retry. rewrite Hf.
  apply Z.ltb_ge in Hge. now rewrite Hge.
Qed.

Lemma should_retry_not_failing (self : SDTAgent) (st : WorkflowState) (inc : bool) :
  tests_failed st = false ->
  should_retry self st inc =
  ((if inc && tests_ok st then commit_and_pr else END),
   set_last_errors st None, self).
Proof.
  intros Hf. unfold should_retry. rewrite Hf.
  assert (Hok : tests_ok (set_last_errors st None) = tests_ok st) by reflexivity.
  rewrite Hok. now destruct inc.
Qed.




(** With the empty results, [tests_passed] is absent, the commit phase is
    enabled, and the transition stops instead of committing. *)
Lemma passing_transition_counterexample :
  ~ passing_transition_as_specified SDTAgent_init nothing_relevant_state true.
Proof.
  unfold passing_transition_as_specified. cbn. intros Hc.
  destruct Hc as [_ Hroute]; [now right | discriminate].
Qed.

(** C5, amended.  When the results are there and [tests_passed] is true,
    the transition clears [last_errors] and leads to [commit_and_pr] if
    that phase is enabled and to the stop otherwise; when there are no
    results, or the results are the empty [dict], it clears [last_errors]
    and stops whether or not the commit phase is enabled.  In neither
    case does it lead back to [main_code_generation], and the engine is
    left as it was. *)
Theorem passing_transition (self : SDTAgent) (st : WorkflowState) (inc : bool)
        (Hpass : tests_ok st = true
                 \/ test_results st = None
                 \/ test_results st = Some empty_test_results) :
  let '(route, st', self') := should_retry self st inc in
  last_errors st' = None
  /\ route = (if inc && tests_ok st then commit_and_pr else END)
  /\ route <> main_code_generation
  /\ self' = self.
Proof.
  assert (Hf : tests_failed st = false).
  { unfold tests_failed, tests_ok in *.
    destruct Hpass as [Hok | [Hn | He]].
    - destruct (test_results st) as [r|]; [|reflexivity].
      apply andb_true_iff in Hok. destruct Hok as [-> ->]. reflexivity.
    - now rewrite Hn.
    - now rewrite He. }
  rewrite (should_retry_not_failing self st inc Hf).
  repeat split. destruct (inc && tests_ok st); discriminate.
Qed.

Lemma passing_transition_witness :
  fst (fst (should_retry SDTAgent_init passing_state true)) = commit_and_pr
  /\ fst (fst (should_retry SDTAgent_init nothing_relevant_state true)) = END.
Proof.
  split.
  - pose proof (passing_transition SDTAgent_init passing_state true
                  (or_introl eq_refl)) as Hp.
    destruct (should_retry SDTAgent_init passing_state true) as [[route st'] self'].
    exact (proj1 (proj2 Hp)).
  - pose proof (passing_transition SDTAgent_init nothing_relevant_state true
                  (or_intror (or_intror eq_refl))) as Hp.
    destruct (should_retry SDTAgent_init nothing_relevant_state true)
      as [[route st'] self'].
    exact (proj1 (proj2 Hp)).
Defined.

(** Results that are there but carry no [tests_passed] read as a
    failure: the transition retries. *)
Lemma unflagged_results_retry :
  tests_passed_of unflagged_state = None
  /\ fst (fst (should_retry SDTAgent_init unflagged_state true)) = main_code_generation.
Proof. split; reflexivity. Qed.

(** ** Reasoning about phases *)

Section Reasoning.
Context {W : Type} `{Host W}.

Lemma bind_inr {A B : Type} (m : M W A) (k : A -> M W B)
      (w w' : World W) (b : B) :
  bind m k w = (inr b, w') ->
  exists a w1, m w = (inr a, w1) /\ k a w1 = (inr b, w').
Proof.
  unfold bind. destruct (m w) as [[e|a] w1]; intros Hb.
  - discriminate.
  - now exists a, w1.
Qed.

Lemma ret_inr {A : Type} (a b : A) (w w' : World W) :
  ret a w = (inr b, w') -> a = b /\ w = w'.
Proof. unfold ret. intros Hr. now inversion Hr. Qed.

Lemma lift_inr {A : Type} (r : Exn + A) (a : A) (w w' : World W) :
  lift r w = (inr a, w') -> r = inr a /\ w = w'.
Proof.
  destruct r as [e|x]; cbn; unfold raise, ret; intros Hr;
    inversion Hr; now subst.
Qed.

(** *** Calls of a kind that a computation never makes *)

Variable bad : Event -> bool.

Lemma avoids_same {A : Type} (m : M W A) :
  (forall w r w', m w = (r, w') -> calls w' = calls w) -> avoids (W := W) bad m.
Proof.
  intros Hm w r w' Hr. exists []. rewrite app_nil_r.
  split; [eauto | constructor].
Qed.

Lemma avoids_ret {A : Type} (a : A) : avoids (W := W) bad (ret a).
Proof. apply avoids_same. unfold ret. intros w r w' Hr. now inversion Hr. Qed.

Lemma avoids_raise {A : Type} (e : Exn) : avoids (W := W) bad (raise (A := A) e).
Proof. apply avoids_same. unfold raise. intros w r w' Hr. now inversion Hr. Qed.

Lemma avoids_lift {A : Type} (r : Exn + A) : avoids (W := W) bad (lift r).
Proof. destruct r; [apply avoids_raise | apply avoids_ret]. Qed.

Lemma avoids_ask {A : Type} (f : W -> A) : avoids (W := W) bad (ask f).
Proof. apply avoids_same. unfold ask. intros w r w' Hr. now inversion Hr. Qed.

Lemma avoids_update (f : W -> Exn + W) : avoids (W := W) bad (update f).
Proof.
  apply avoids_same. unfold update. intros w r w'.
  destruct (f (host w)); intros Hr; now inversion Hr.
Qed.

Lemma avoids_call {A : Type} (f : W -> (Exn + A) * W) : avoids (W := W) bad (call f).
Proof.
  apply avoids_same. unfold call. intros w r w'.
  destruct (f (host w)); intros Hr; now inversion Hr.
Qed.

Lemma avoids_emit (e : Event) : bad e = false -> avoids (W := W) bad (emit e).
Proof.
  intros He w r w' Hr. unfold emit in Hr. inversion Hr; subst. cbn.
  exists [e]. split; [reflexivity | now constructor].
Qed.

Lemma avoids_bind {A B : Type} (m : M W A) (k : A -> M W B) :
  avoids (W := W) bad m -> (forall a, avoids (W := W) bad (k a)) -> avoids (W := W) bad (bind m k).
Proof.
  intros Hm Hk w r w' Hr. unfold bind in Hr.
  destruct (m w) as [[e|a] w1] eqn:Em.
  - inversion Hr; subst. eapply Hm; eauto.
  - destruct (Hm _ _ _ Em) as (evs1 & E1 & F1).
    destruct (Hk a _ _ _ Hr) as (evs2 & E2 & F2).
    exists (evs1 ++ evs2)%list. split.
    + now rewrite E2, E1, app_assoc.
    + now apply Forall_app.
Qed.

Lemma avoids_try {A : Type} (m : M W A) (h : Exn -> M W A) :
  avoids (W := W) bad m -> (forall e, avoids (W := W) bad (h e)) -> avoids (W := W) bad (try_except m h).
Proof.
  intros Hm Hh w r w' Hr. unfold try_except in Hr.
  destruct (m w) as [[e|a] w1] eqn:Em.
  - destruct (Hm _ _ _ Em) as (evs1 & E1 & F1).
    destruct (Hh e _ _ _ Hr) as (evs2 & E2 & F2).
    exists (evs1 ++ evs2)%list. split.
    + now rewrite E2, E1, app_assoc.
    + now apply Forall_app.
  - inversion Hr; subst. eapply Hm; eauto.
Qed.

Lemma avoids_for_each {A : Type} (l : list A) (body : A -> M W unit) :
  (forall a, avoids (W := W) bad (body a)) -> avoids (W := W) bad (for_each l body).
Proof.
  intros Hb. induction l as [|x l IH]; cbn.
  - apply avoids_ret.
  - apply avoids_bind; auto.
Qed.

Lemma avoids_fold_m {A S : Type} (l : list A) (body : S -> A -> M W S) :
  (forall s a, avoids (W := W) bad (body s a)) -> forall acc, avoids (W := W) bad (fold_m l body acc).
Proof.
  intros Hb. induction l as [|x l IH]; intros acc; cbn.
  - apply avoids_ret.
  - apply avoids_bind; auto.
Qed.

Lemma avoids_if {A : Type} (b : bool) (m1 m2 : M W A) :
  avoids (W := W) bad m1 -> avoids (W := W) bad m2 -> avoids (W := W) bad (if b then m1 else m2).
Proof. now destruct b. Qed.

(** the calls of the kind [bad] are those there were *)
Lemma avoids_filter {A : Type} (m : M W A) (w w' : World W) (r : Exn + A) :
  avoids (W := W) bad m -> m w = (r, w') -> filter bad (calls w') = filter bad (calls w).
Proof.
  intros Hm Hr. destruct (Hm _ _ _ Hr) as (evs & Ec & Fc).
  rewrite Ec, filter_app.
  assert (Hnone : filter bad evs = []).
  { clear Ec. induction Fc as [|e evs He _ IH]; cbn; [reflexivity|].
    now rewrite He. }
  now rewrite Hnone, app_nil_r.
Qed.

End Reasoning.

Ltac avoids_step :=
  first
    [ apply avoids_bind; [|intros ?]
    | apply avoids_try; [|intros ?]
    | apply avoids_for_each; intros ?
    | apply avoids_fold_m; intros ? ?
    | apply avoids_if
    | apply avoids_ret | apply avoids_raise | apply avoids_lift | apply avoids_ask
    | apply avoids_update | apply avoids_call
    | apply avoids_emit; reflexivity ].

Ltac prove_avoids := repeat avoids_step.

Section QuietPhases.
Context {W : Type} `{Host W}.
Variable bad : Event -> bool.

(** the kinds of call the phases up to generation do make *)
Hypothesis mkdir_ok : forall p, bad (EvMkdir p) = false.
Hypothesis touch_ok : forall p, bad (EvTouch p) = false.
Hypothesis write_ok : forall p c, bad (EvWrite p c) = false.
Hypothesis agent_ok : forall p, bad (EvAgent p) = false.

Lemma avoids_mkdir (p : string) : avoids (W := W) bad (mkdir p).
Proof. unfold mkdir. apply avoids_bind; [now apply avoids_emit|intros ?; prove_avoids]. Qed.

Lemma avoids_touch (p : string) : avoids (W := W) bad (touch p).
Proof. unfold touch. apply avoids_bind; [now apply avoids_emit|intros ?; prove_avoids]. Qed.

Lemma avoids_write_text (p c : string) : avoids (W := W) bad (write_text p c).
Proof. unfold write_text. apply avoids_bind; [now apply avoids_emit|intros ?; prove_avoids]. Qed.

Lemma avoids_respond (p : Prompt) : avoids (W := W) bad (respond p).
Proof. unfold respond. apply avoids_bind; [now apply avoids_emit|intros ?; prove_avoids]. Qed.

Lemma avoids_read_text (p : string) : avoids (W := W) bad (read_text p).
Proof. unfold read_text. prove_avoids. Qed.

Lemma avoids_get_test_dir (p : string) : avoids (W := W) bad (get_test_dir p).
Proof.
  unfold get_test_dir. apply avoids_bind; [prove_avoids|intros ?].
  apply avoids_if; [prove_avoids|].
  apply avoids_bind; [prove_avoids|intros ?].
  apply avoids_if; [prove_avoids|].
  apply avoids_bind; [apply avoids_mkdir|intros ?; prove_avoids].
Qed.

Lemma avoids_relative_to (p : PurePath.t) (base : string) :
  avoids (W := W) bad (relative_to p base).
Proof. unfold relative_to. destruct PurePath.relative_to; prove_avoids. Qed.

Lemma avoids_normalize_test_path (p f : string) :
  avoids (W := W) bad (normalize_test_path p f).
Proof.
  unfold normalize_test_path.
  apply avoids_if; [|prove_avoids].
  apply avoids_bind; [apply avoids_get_test_dir|intros ?].
  apply avoids_bind; [apply avoids_relative_to|intros ?]. prove_avoids.
Qed.

Lemma avoids_target_path (p f : string) : avoids (W := W) bad (target_path p f).
Proof.
  unfold target_path. apply avoids_bind; [|intros ?; prove_avoids].
  apply avoids_if; [apply avoids_relative_to | prove_avoids].
Qed.

Lemma avoids_store_generated (p raw : string) :
  avoids (W := W) bad (store_generated p raw).
Proof.
  unfold store_generated. apply avoids_bind; [prove_avoids|intros ?].
  apply avoids_if; [apply avoids_write_text | prove_avoids].
Qed.

Lemma avoids_CodeGenerationNode_run (st : WorkflowState) :
  avoids (W := W) bad (CodeGenerationNode_run st).
Proof.
  unfold CodeGenerationNode_run.
  apply avoids_if; [prove_avoids|].
  apply avoids_bind; [prove_avoids|intros ?].
  apply avoids_bind; [prove_avoids|intros ?].
  apply avoids_bind; [|intros ?; prove_avoids].
  apply avoids_for_each; intros f.
  apply avoids_bind; [apply avoids_target_path|intros ?].
  apply avoids_bind;
    [apply avoids_try; [apply avoids_read_text|intros; prove_avoids]|intros ?].
  apply avoids_try; [|intros; prove_avoids].
  apply avoids_bind; [apply avoids_respond|intros ?]. apply avoids_store_generated.
Qed.

Lemma avoids_test_targets (st : WorkflowState) (lang p : string) :
  avoids (W := W) bad (test_targets st lang p).
Proof.
  unfold test_targets. apply avoids_bind.
  - destruct (plan_list st test_files); [|prove_avoids].
    apply avoids_bind; [apply avoids_get_test_dir|intros ?].
    apply avoids_bind; [apply avoids_relative_to|intros ?].
    apply avoids_bind; [apply avoids_touch|intros ?]. prove_avoids.
  - intros files. unfold normalize_test_files.
    apply avoids_fold_m. intros acc f.
    apply avoids_bind; [apply avoids_normalize_test_path|intros ?]. prove_avoids.
Qed.



End QuietPhases.

(** ** The commit gate and the early return of the test phase *)

Lemma accumulate_keeps_plan (st : WorkflowState) (targets : list string) :
  plan (accumulate_updated_files st targets) = plan st.
Proof. reflexivity. Qed.

Lemma falsy_not_ok (st : WorkflowState) :
  truthy (tests_passed_of st) = false -> tests_ok st = false.
Proof.
  unfold tests_passed_of, tests_ok. destruct (test_results st) as [r|]; [|reflexivity].
  intros ->. apply andb_false_r.
Qed.

Section GateAndEarlyReturn.
Context {W : Type} `{Host W}.

(** What a completed run of [CodeGenerationNode.run] returns: the state
    itself for an empty issue, else the state with the source files
    accumulated. *)
Lemma CodeGenerationNode_run_inr (st st' : WorkflowState) (w w' : World W) :
  CodeGenerationNode_run st w = (inr st', w') ->
  (github_issue st = "" /\ st' = st /\ w' = w)
  \/ (github_issue st <> ""
      /\ st' = accumulate_updated_files st (plan_list st source_files)).
Proof.
  unfold CodeGenerationNode_run. destruct (github_issue st) as [|c s] eqn:Ei; cbn [Py.nonempty negb].
  - intros Hr. apply ret_inr in Hr. left. now destruct Hr.
  - intros Hr. right. split; [discriminate|].
    apply bind_inr in Hr. destruct Hr as (lang & w1 & _ & Hr).
    apply bind_inr in Hr. destruct Hr as (repo & w2 & _ & Hr).
    apply bind_inr in Hr. destruct Hr as (u & w3 & _ & Hr).
    apply ret_inr in Hr. now destruct Hr.
Qed.

(** C6.  When [test_results.tests_passed] is false, [None] or absent,
    [CommitAndPRNode.run] returns the state it was given and leaves the
    world, with its record of calls, as it found it: no remote call is
    made, so no tree, no commit and no update of the branch. *)
Theorem commit_gate (st : WorkflowState) (w : World W)
        (Hfalsy : truthy (tests_passed_of st) = false) :
  CommitAndPRNode_run st w = (inr st, w)
  /\ filter is_github (calls (snd (CommitAndPRNode_run st w)))
     = filter is_github (calls w).
Proof.
  assert (Hrun : CommitAndPRNode_run st w = (inr st, w)).
  { unfold CommitAndPRNode_run. now rewrite (falsy_not_ok st Hfalsy). }
  now rewrite Hrun.
Qed.

(** C10.  With no plan, or a plan whose [relevant_files] is empty,
    [TestAndLintNode.run] returns at once: both results are the empty
    [dict], [passed] is [None], and the world is untouched, so no test
    or lint command has run.  [should_retry] then answers with the stop
    whether or not the commit phase is enabled, and a round of the
    graph that starts from such a state ends where the generation phase
    left the world: the commit phase is never entered. *)
Theorem nothing_relevant (st : WorkflowState)
        (Hrel : plan_list st relevant_files = []) :
  (forall w : World W,
      TestAndLintNode_run st w = (inr (finish_nothing_relevant st), w))
  /\ test_results (finish_nothing_relevant st) = Some empty_test_results
  /\ lint_results (finish_nothing_relevant st) = Some empty_lint_results
  /\ passed (finish_nothing_relevant st) = None
  /\ (forall self inc,
         should_retry self (finish_nothing_relevant st) inc
         = (END, set_last_errors (finish_nothing_relevant st) None, self))
  /\ (forall fuel self inc (w w1 : World W) st1,
         CodeGenerationNode_run st w = (inr st1, w1) ->
         retry_cycle (S fuel) inc self st w
         = (inr (Some (set_last_errors (finish_nothing_relevant st1) None, self)), w1)
           /\ filter is_github (calls w1) = filter is_github (calls w)).
Proof.
  assert (Hrun : forall s (w : World W), plan_list s relevant_files = [] ->
              TestAndLintNode_run s w = (inr (finish_nothing_relevant s), w)).
  { intros s w Hs. unfold TestAndLintNode_run. now rewrite Hs. }
  assert (Hroute : forall s self inc,
             should_retry self (finish_nothing_relevant s) inc
             = (END, set_last_errors (finish_nothing_relevant s) None, self)).
  { intros s self inc. rewrite should_retry_not_failing by reflexivity.
    now rewrite andb_false_r. }
  split; [intros w; now apply Hrun|].
  split; [reflexivity|]. split; [reflexivity|]. split; [reflexivity|].
  split; [intros self inc; apply Hroute|].
  intros fuel self inc w w1 st1 Hgen. split.
  - cbn [retry_cycle]. unfold bind at 1. rewrite Hgen.
    assert (Hplan : plan_list st1 relevant_files = []).
    { destruct (CodeGenerationNode_run_inr _ _ Hgen) as [(_ & -> & _) | (_ & ->)];
        exact Hrel. }
    unfold bind at 1. rewrite (Hrun st1 w1 Hplan).
    now rewrite Hroute.
  - eapply avoids_filter; [|exact Hgen].
    now apply avoids_CodeGenerationNode_run.
Qed.

End GateAndEarlyReturn.

Lemma commit_gate_witness :
  CommitAndPRNode_run failing_state (Sim.start (price_host []))
  = (inr failing_state, Sim.start (price_host [])).
Proof.
  apply (proj1 (commit_gate failing_state (Sim.start (price_host [])) eq_refl)).
Defined.

Lemma nothing_relevant_witness :
  TestAndLintNode_run price_state (Sim.start (price_host []))
  = (inr (finish_nothing_relevant price_state), Sim.start (price_host [])).
Proof.
  apply (proj1 (nothing_relevant (W := Sim.t) price_state eq_refl)).
Defined.

(** ** Runs of the test phase and of the whole workflow on the test project *)

(** C2.  The whole workflow on the price issue, the test command exiting
    with 0 and the lint command with 1: the run ends with [passed] false
    and [tests_passed] true, and the commit phase has created the tree and
    the commit and moved the branch. *)
Lemma lint_failure_still_commits :
  match run_workflow SDTAgent_init price_state true
          (Sim.start (price_host [exit_with 0 "1 passed"; exit_with 1 "E501"])) with
  | (Some st, w) =>
      passed st = Some false
      /\ tests_passed_of st = Some true
      /\ lint_passed_of st = Some false
      /\ filter is_github (calls w)
         = [EvGithub (GetRepo "SDT-DeveloperTwin/SDT-Testing-Project");
            EvGithub (GetBranch "main");
            EvGithub (GetGitRef "heads/main");
            EvGithub (CreateGitTree [("price_utils.py", "def f(): pass")]);
            EvGithub GetGitCommit;
            EvGithub (CreateGitCommit "");
            EvGithub RefEdit]
  | (None, _) => False
  end.
Proof. vm_compute. repeat split. Qed.

(** C3.  Two runs of [TestAndLintNode.run] after which [passed] is not
    the conjunction of the two results.  In the first the test output
    says that no tests ran and the lint command exits with 1: [passed] is
    true, [lint_passed] false.  In the second no test file exists:
    both results are true and [passed] is left as it was, [None]. *)
Lemma passed_is_not_the_conjunction :
  match TestAndLintNode_run planned_state
          (Sim.start (price_host [exit_with 5 "no tests ran in 0.01s";
                                  exit_with 1 "E501"])) with
  | (inr st, _) =>
      passed st = Some true
      /\ tests_passed_of st = Some true
      /\ lint_passed_of st = Some false
  | (inl _, _) => False
  end
  /\ match TestAndLintNode_run untested_state (Sim.start (price_host [])) with
     | (inr st, _) =>
         passed st = None
         /\ tests_passed_of st = Some true
         /\ lint_passed_of st = Some true
     | (inl _, _) => False
     end.
Proof. vm_compute. repeat split. Qed.


Section ShortCircuit.
Context {W : Type} `{Host W}.


End ShortCircuit.


(** ** [last_errors] over a run *)

(** The three outcomes of [should_retry]. *)
Lemma should_retry_cases (self : SDTAgent) (st : WorkflowState) (inc : bool) :
  (tests_failed st = true
   /\ (retry_count self < max_retries self)%Z
   /\ should_retry self st inc
      = (main_code_generation, st,
         {| retry_count := retry_count self + 1; max_retries := max_retries self |}))
  \/ (tests_failed st = true
      /\ (max_retries self <= retry_count self)%Z
      /\ should_retry self st inc = (END, set_last_errors st None, self))
  \/ (tests_failed st = false
      /\ should_retry self st inc
         = ((if inc && tests_ok st then commit_and_pr else END),
            set_last_errors st None, self)).
Proof.
  destruct (tests_failed st) eqn:Hf.
  - destruct (Z_lt_le_dec (retry_count self) (max_retries self)) as [Hlt|Hge].
    + left. auto using should_retry_failing_retry.
    + right. left. auto using should_retry_failing_stop.
  - right. right. auto using should_retry_not_failing.
Qed.

Section LastErrors.
Context {W : Type} `{Host W}.






End LastErrors.


(** ** The change tracker: [code_changes["updated_files"]] *)

Lemma mem_In (x : string) (l : list string) : Py.mem x l = true <-> In x l.
Proof.
  unfold Py.mem. rewrite existsb_exists. split.
  - intros (y & Hy & Hxy). apply String.eqb_eq in Hxy. now subst.
  - intros Hx. exists x. split; [exact Hx | apply String.eqb_refl].
Qed.

Lemma mem_app (x : string) (l1 l2 : list string) :
  Py.mem x (l1 ++ l2) = Py.mem x l1 || Py.mem x l2.
Proof. apply existsb_app. Qed.

Lemma append_new_prefix (old : list string) (f : string) :
  exists added, append_new old f = (old ++ added)%list.
Proof.
  unfold append_new, py_append. destruct (Py.mem f old).
  - exists []. now rewrite app_nil_r.
  - now exists [f].
Qed.

Lemma append_new_NoDup (old : list string) (f : string) :
  NoDup old -> NoDup (append_new old f).
Proof.
  intros Hn. unfold append_new, py_append. destruct (Py.mem f old) eqn:Hm.
  - exact Hn.
  - apply NoDup_app.
    + exact Hn.
    + repeat constructor. intros [].
    + intros x Hx [Hf|[]]. subst x.
      apply mem_In in Hx. congruence.
Qed.

Lemma append_new_In (old : list string) (f : string) : In f (append_new old f).
Proof.
  unfold append_new, py_append. destruct (Py.mem f old) eqn:Hm.
  - now apply mem_In.
  - apply in_or_app. right. now left.
Qed.

Lemma fold_append_prefix (targets old : list string) :
  exists added, fold_left append_new targets old = (old ++ added)%list.
Proof.
  revert old. induction targets as [|t ts IH]; intros old; cbn.
  - exists []. now rewrite app_nil_r.
  - destruct (append_new_prefix old t) as (a1 & E1).
    destruct (IH (append_new old t)) as (a2 & E2).
    exists (a1 ++ a2)%list. now rewrite E2, E1, app_assoc.
Qed.

Lemma fold_append_NoDup (targets old : list string) :
  NoDup old -> NoDup (fold_left append_new targets old).
Proof.
  revert old. induction targets as [|t ts IH]; intros old Hn; cbn.
  - exact Hn.
  - apply IH. now apply append_new_NoDup.
Qed.

Lemma fold_append_keeps (targets old : list string) (x : string) :
  In x old -> In x (fold_left append_new targets old).
Proof.
  intros Hx. destruct (fold_append_prefix targets old) as (added & ->).
  apply in_or_app. now left.
Qed.

Lemma fold_append_In (targets old : list string) (f : string) :
  In f targets -> In f (fold_left append_new targets old).
Proof.
  revert old. induction targets as [|t ts IH]; intros old Hf; cbn.
  - destruct Hf.
  - destruct Hf as [-> | Hf].
    + apply fold_append_keeps, append_new_In.
    + now apply IH.
Qed.

Lemma filter_swap {A : Type} (p q : A -> bool) (l : list A) :
  filter p (filter q l) = filter q (filter p l).
Proof.
  induction l as [|y l IH]; cbn; [reflexivity|].
  destruct (p y) eqn:Hp; destruct (q y) eqn:Hq; cbn; rewrite ?Hp, ?Hq; congruence.
Qed.

Lemma filter_drop_rejected (p : string -> bool) (x : string) (l : list string) :
  p x = false ->
  filter p (filter (fun y => negb (String.eqb x y)) l) = filter p l.
Proof.
  intros Hp. induction l as [|y l IH]; cbn; [reflexivity|].
  destruct (String.eqb x y) eqn:Hxy; cbn.
  - apply String.eqb_eq in Hxy. subst y. now rewrite Hp.
  - now rewrite IH.
Qed.

(** [set_list] and [filter] commute. *)
Lemma filter_set_list (p : string -> bool) (l : list string) :
  filter p (set_list l) = set_list (filter p l).
Proof.
  induction l as [|x l IH]; cbn [set_list filter]; [reflexivity|].
  destruct (p x) eqn:Hp; cbn [set_list].
  - f_equal. now rewrite filter_swap, IH.
  - now rewrite filter_drop_rejected, IH.
Qed.

(** The accumulation in closed form: the old list, then the targets that
    were not in it, each once, in the order of its first appearance. *)
Lemma fold_append_first_appearance (targets old : list string) :
  fold_left append_new targets old
  = (old ++ set_list (filter (fun f => negb (Py.mem f old)) targets))%list.
Proof.
  revert old. induction targets as [|t ts IH]; intros old; cbn [fold_left filter].
  - cbn. now rewrite app_nil_r.
  - rewrite IH. unfold append_new, py_append.
    destruct (Py.mem t old) eqn:Hm; cbn [negb set_list]; [reflexivity|].
    rewrite <- app_assoc. cbn [app]. do 2 f_equal.
    rewrite filter_set_list. f_equal.
    clear IH. induction ts as [|y ts IHts]; cbn [filter]; [reflexivity|].
    rewrite mem_app. cbn [Py.mem existsb]. rewrite orb_false_r.
    rewrite (String.eqb_sym y t).
    destruct (Py.mem y old); destruct (String.eqb t y) eqn:Hty;
      cbn [negb orb filter]; rewrite ?Hty; cbn [negb]; now rewrite IHts.
Qed.

Lemma updated_of_accumulate (st : WorkflowState) (targets : list string) :
  updated_of (accumulate_updated_files st targets)
  = fold_left append_new targets (updated_of st).
Proof.
  unfold accumulate_updated_files, updated_of. cbn.
  destruct (code_changes st) as [cc|]; reflexivity.
Qed.

Section ChangeTracking.
Context {W : Type} `{Host W}.

(** A completed run of [TestGenerationNode.run] returns the state with
    its targets accumulated. *)
Lemma TestGenerationNode_run_inr (has_agent : bool) (st st' : WorkflowState)
      (w w' : World W) :
  TestGenerationNode_run has_agent st w = (inr st', w') ->
  exists targets w0,
    TestGenerationNode_targets st w = (inr targets, w0)
    /\ st' = accumulate_updated_files st targets.
Proof.
  unfold TestGenerationNode_run, TestGenerationNode_targets. intros Hr.
  apply bind_inr in Hr. destruct Hr as (lang & w1 & Hl & Hr).
  apply bind_inr in Hr. destruct Hr as (repo & w2 & Hn & Hr).
  apply bind_inr in Hr. destruct Hr as (targets & w3 & Ht & Hr).
  apply bind_inr in Hr. destruct Hr as (u & w4 & _ & Hr).
  apply ret_inr in Hr. destruct Hr as [<- _].
  exists targets, w3. split; [|reflexivity].
  unfold bind at 1. rewrite Hl. unfold bind at 1. now rewrite Hn.
Qed.

Lemma generation_trace_fold (st st' : WorkflowState) (tss : list (list string)) :
  generation_trace st tss st' ->
  updated_of st' = fold_left append_new (concat tss) (updated_of st).
Proof.
  induction 1 as [st | st st1 st2 w w1 tss Hi Hr _ IH
                  | b st st1 st2 w w0 w1 targets tss Ht Hr _ IH
                  | st st1 st2 tss Hu _ IH].
  - reflexivity.
  - apply CodeGenerationNode_run_inr in Hr.
    destruct Hr as [(He & _) | (_ & ->)]; [contradiction|].
    rewrite IH, updated_of_accumulate. cbn [concat]. now rewrite fold_left_app.
  - apply TestGenerationNode_run_inr in Hr.
    destruct Hr as (targets' & w0' & Ht' & ->).
    rewrite Ht in Ht'. inversion Ht'; subst targets'.
    rewrite IH, updated_of_accumulate. cbn [concat]. now rewrite fold_left_app.
  - now rewrite IH, Hu.
Qed.

(** C8.  Over any sequence of generation-phase executions that starts
    from a list without duplicates (the empty list of a fresh run is
    one), [updated_files] keeps what it had as a prefix, so nothing is
    lost and the order stands; it is the old list followed by the new
    target paths, each once, in the order of its first appearance; it has
    no duplicate however often a path is a target; and every target of
    every execution is in it. *)
Theorem change_tracking (st st' : WorkflowState) (tss : list (list string))
        (Htrace : generation_trace st tss st')
        (Hnodup : NoDup (updated_of st)) :
  (exists added, updated_of st' = (updated_of st ++ added)%list)
  /\ updated_of st'
     = (updated_of st
          ++ set_list (filter (fun f => negb (Py.mem f (updated_of st))) (concat tss)))%list
  /\ NoDup (updated_of st')
  /\ (forall targets f, In targets tss -> In f targets -> In f (updated_of st')).
Proof.
  pose proof (generation_trace_fold Htrace) as Hfold.
  split; [|split; [|split]].
  - rewrite Hfold. apply fold_append_prefix.
  - rewrite Hfold. apply fold_append_first_appearance.
  - rewrite Hfold. now apply fold_append_NoDup.
  - intros targets f Ht Hf. rewrite Hfold. apply fold_append_In.
    apply in_concat. now exists targets.
Qed.

End ChangeTracking.

(** the price issue: the code phase twice (a retry), the test-generation
    phase in between *)
Lemma change_tracking_witness :
  exists st' : WorkflowState,
    updated_of st' = ["price_utils.py"; "tests/test_price_utils.py"]
    /\ NoDup (updated_of st').
Proof.
  pose (w := Sim.start (price_host [])).
  pose (st1 := accumulate_updated_files planned_state ["price_utils.py"]).
  pose (st2 := accumulate_updated_files st1 ["tests/test_price_utils.py"]).
  pose (st3 := accumulate_updated_files st2 ["price_utils.py"]).
  assert (Htrace : generation_trace (W := Sim.t) planned_state
                     [["price_utils.py"]; ["tests/test_price_utils.py"]; ["price_utils.py"]]
                     st3).
  { eapply trace_code with (st1 := st1) (w := w);
      [discriminate | vm_compute; reflexivity|].
    eapply trace_test with (has_agent := true) (st1 := st2) (w := w);
      [vm_compute; reflexivity | vm_compute; reflexivity|].
    eapply trace_code with (st1 := st3) (w := w);
      [discriminate | vm_compute; reflexivity|].
    apply trace_done. }
  exists st3.
  destruct (change_tracking Htrace ltac:(constructor)) as (_ & Hfirst & Hnd & _).
  split; [exact Hfirst | exact Hnd].
Defined.

(** ** Paths: what [Path(...)] keeps and how it prints *)

Module PathFacts.

Lemma split_no_slash (s : string) :
  Forall (fun x => no_slash x = true) (Py.split "/"%char s).
Proof.
  induction s as [|a s IH]; cbn [Py.split].
  - repeat constructor.
  - destruct (Ascii.eqb a "/"%char) eqn:Ea.
    + constructor; [reflexivity | exact IH].
    + destruct (Py.split "/"%char s) as [|h t].
      * repeat constructor. cbn. now rewrite Ea.
      * inversion IH; subst. constructor; [|assumption].
        cbn. now rewrite Ea.
Qed.

Lemma split_single (x : string) :
  no_slash x = true -> Py.split "/"%char x = [x].
Proof.
  induction x as [|a x IH]; cbn; [reflexivity|].
  intros Hx. apply andb_true_iff in Hx. destruct Hx as [Ha Hx].
  apply negb_true_iff in Ha. rewrite Ha, (IH Hx). reflexivity.
Qed.

Lemma split_app_slash (x s : string) :
  no_slash x = true ->
  Py.split "/"%char (x ++ "/" ++ s) = x :: Py.split "/"%char s.
Proof.
  induction x as [|a x IH]; cbn; [reflexivity|].
  intros Hx. apply andb_true_iff in Hx. destruct Hx as [Ha Hx].
  apply negb_true_iff in Ha. rewrite Ha. cbn in IH. now rewrite (IH Hx).
Qed.

Lemma split_join (ps : list string) :
  Forall (fun x => no_slash x = true) ps -> ps <> [] ->
  Py.split "/"%char (Py.join "/" ps) = ps.
Proof.
  induction 1 as [|x ps Hx Hps IH]; intros Hne; [contradiction|].
  destruct ps as [|y ps].
  - cbn. now apply split_single.
  - cbn [Py.join]. rewrite (split_app_slash x _ Hx). f_equal.
    apply IH. discriminate.
Qed.

Lemma component_no_slash (x : string) : component x = true -> no_slash x = true.
Proof. unfold component. intros Hx. now apply andb_true_iff in Hx. Qed.

Lemma component_keep (x : string) : component x = true -> PurePath.keep_part x = true.
Proof. unfold component. intros Hx. now apply andb_true_iff in Hx. Qed.

Lemma filter_keep_components (ps : list string) :
  Forall (fun x => component x = true) ps -> filter PurePath.keep_part ps = ps.
Proof.
  induction 1 as [|x ps Hx _ IH]; cbn; [reflexivity|].
  now rewrite (component_keep _ Hx), IH.
Qed.

Lemma components_no_slash (ps : list string) :
  Forall (fun x => component x = true) ps ->
  Forall (fun x => no_slash x = true) ps.
Proof. intros Hp. eapply Forall_impl; [|exact Hp]. apply component_no_slash. Qed.

Lemma filter_components (l : list string) :
  Forall (fun x => no_slash x = true) l ->
  Forall (fun x => component x = true) (filter PurePath.keep_part l).
Proof.
  induction 1 as [|x l Hx _ IH]; cbn; [constructor|].
  destruct (PurePath.keep_part x) eqn:Hk; [|exact IH].
  constructor; [|exact IH]. unfold component. now rewrite Hk, Hx.
Qed.

Lemma of_string_canonical (s : string) : canonical (PurePath.of_string s).
Proof.
  split.
  - cbn. unfold PurePath.splitroot.
    destruct (PurePath.leading_slashes s) as [|[|[|n]]]; auto.
  - cbn. apply filter_components, split_no_slash.
Qed.

(** a component does not begin with [/], nor does a joined list of them *)
Lemma component_leading (x rest : string) :
  component x = true -> PurePath.leading_slashes (x ++ rest) = 0%nat.
Proof.
  destruct x as [|a x]; [discriminate|].
  unfold component. cbn [no_slash]. intros Hx.
  apply andb_true_iff in Hx. destruct Hx as [_ Hx].
  apply andb_true_iff in Hx. destruct Hx as [Ha _].
  apply negb_true_iff in Ha. cbn.
  destruct a as [[] [] [] [] [] [] [] []]; try reflexivity; discriminate.
Qed.

Lemma join_leading (ps : list string) :
  Forall (fun x => component x = true) ps ->
  PurePath.leading_slashes (Py.join "/" ps) = 0%nat.
Proof.
  destruct 1 as [|x ps Hx Hps]; [reflexivity|].
  destruct ps as [|y ps].
  - cbn [Py.join]. rewrite <- (component_leading x "" Hx).
    f_equal. clear. induction x as [|a x IH]; cbn; congruence.
  - cbn [Py.join]. now apply component_leading.
Qed.

Lemma split_join_filtered (ps : list string) :
  Forall (fun x => component x = true) ps ->
  filter PurePath.keep_part (Py.split "/"%char (Py.join "/" ps)) = ps.
Proof.
  intros Hp. destruct ps as [|x ps]; [reflexivity|].
  rewrite split_join; [|now apply components_no_slash|discriminate].
  now apply filter_keep_components.
Qed.

(** Printing a path and reading it back gives the path. *)
Lemma of_string_to_string (p : PurePath.t) :
  canonical p -> PurePath.of_string (PurePath.to_string p) = p.
Proof.
  destruct p as [r ps]. intros [Hr Hp]. cbn in Hr, Hp.
  pose proof (join_leading Hp) as Hl.
  pose proof (split_join_filtered Hp) as Hs.
  unfold PurePath.of_string, PurePath.to_string, PurePath.splitroot.
  cbn [PurePath.root PurePath.parts].
  destruct Hr as [-> | [-> | ->]].
  - destruct ps as [|x ps]; [reflexivity|].
    cbn [append]. now rewrite Hl, Hs.
  - cbn [append PurePath.leading_slashes Py.split Ascii.eqb Bool.eqb].
    rewrite Hl. cbn [filter PurePath.keep_part Py.nonempty andb].
    now rewrite Hs.
  - cbn [append PurePath.leading_slashes Py.split Ascii.eqb Bool.eqb].
    rewrite Hl. cbn [filter PurePath.keep_part Py.nonempty andb].
    now rewrite Hs.
Qed.

Lemma of_string_idempotent (s : string) :
  PurePath.of_string (PurePath.to_string (PurePath.of_string s)) = PurePath.of_string s.
Proof. apply of_string_to_string, of_string_canonical. Qed.

Lemma of_string_component (x : string) :
  component x = true -> PurePath.of_string x = PurePath.mk "" [x].
Proof.
  intros Hx. change x with (PurePath.to_string (PurePath.mk "" [x])) at 1.
  apply of_string_to_string. split; [now left|]. now repeat constructor.
Qed.

Lemma strip_prefix_app (l r : list string) :
  PurePath.strip_prefix l (l ++ r) = Some r.
Proof.
  induction l as [|x l IH]; cbn; [reflexivity|].
  now rewrite String.eqb_refl.
Qed.

(** [Path(base, d).relative_to(base)] is [Path(d)]. *)
Lemma relative_to_child (base d : string) :
  component d = true ->
  PurePath.relative_to
    (PurePath.join (PurePath.of_string base) (PurePath.of_string d))
    (PurePath.of_string base)
  = Some (PurePath.mk "" [d]).
Proof.
  intros Hd. rewrite (of_string_component d Hd).
  set (b := PurePath.of_string base).
  unfold PurePath.join. cbn [PurePath.root PurePath.parts Py.nonempty].
  unfold PurePath.relative_to, PurePath.abs_parts.
  cbn [PurePath.root PurePath.parts].
  destruct (Py.nonempty (PurePath.root b)) eqn:Hr.
  - change (PurePath.root b :: PurePath.parts b ++ [d])%list
      with ((PurePath.root b :: PurePath.parts b) ++ [d])%list.
    now rewrite strip_prefix_app.
  - destruct (PurePath.parts b) as [|x ps] eqn:Hps; [reflexivity|].
    change (x :: ps ++ [d])%list with ((x :: ps) ++ [d])%list.
    now rewrite strip_prefix_app.
Qed.

End PathFacts.

(** ** Test-path normalisation *)

(** The empty path is [Path(".")]: no parent, no name.  It is moved to
    [tests], which has no parent either and is moved to [tests/tests].
    And a path with a directory component comes back in the spelling of
    [pathlib], which need not be the one it came in. *)
Lemma normalization_counterexample :
  normalize_test_path testing_project "" (Sim.start (price_host []))
  = (inr "tests", Sim.start (price_host []))
  /\ normalize_test_path testing_project "tests" (Sim.start (price_host []))
     = (inr "tests/tests", Sim.start (price_host []))
  /\ normalize_test_path testing_project "tests//test_price_utils.py"
       (Sim.start (price_host []))
     = (inr "tests/test_price_utils.py", Sim.start (price_host []))
  /\ ~ normalization_idempotent_at testing_project "" (Sim.start (price_host [])).
Proof.
  split; [vm_compute; reflexivity|]. split; [vm_compute; reflexivity|].
  split; [vm_compute; reflexivity|].
  intros Hc. specialize (Hc "tests" (Sim.start (price_host [])) eq_refl).
  vm_compute in Hc. discriminate.
Qed.

Module NormalizeFacts.
Import PathFacts.

Lemma Forall_removelast {A : Type} (P : A -> Prop) (l : list A) :
  Forall P l -> Forall P (removelast l).
Proof.
  induction 1 as [|x l Hx Hl IH]; cbn; [constructor|].
  destruct l; [constructor|]. now constructor.
Qed.

Lemma join_not_dot (qs : list string) :
  Forall (fun x => component x = true) qs -> qs <> [] -> Py.join "/" qs <> ".".
Proof.
  destruct 1 as [|q qs Hq Hqs]; intros Hne; [contradiction|].
  destruct qs as [|q' qs]; cbn [Py.join].
  - intros ->. discriminate.
  - destruct q as [|a q]; [discriminate|].
    cbn. intros Hd. inversion Hd as [[Ha Hrest]].
    destruct q; discriminate.
Qed.

(** A path whose parent prints as [.] is relative and has at most one
    component. *)
Lemma parent_is_dot (p : PurePath.t) :
  canonical p ->
  PurePath.to_string (PurePath.parent p) = "." ->
  PurePath.root p = ""
  /\ (PurePath.parts p = [] \/ exists x, PurePath.parts p = [x] /\ component x = true).
Proof.
  destruct p as [r ps]. intros [Hr Hp]. cbn in Hr, Hp.
  unfold PurePath.parent, PurePath.to_string. cbn [PurePath.root PurePath.parts].
  assert (Hrl : Forall (fun x => component x = true) (removelast ps))
    by now apply Forall_removelast.
  destruct Hr as [-> | [-> | ->]]; cbn [append].
  - intros Hd. split; [reflexivity|].
    assert (Hnil : removelast ps = []).
    { destruct (removelast ps) as [|q qs] eqn:Eq; [reflexivity|].
      exfalso. revert Hd. apply join_not_dot; [exact Hrl | discriminate]. }
    destruct ps as [|x ps]; [now left|]. right. exists x.
    destruct ps as [|y ps]; [|discriminate].
    split; [reflexivity|]. now inversion Hp.
  - intros Hd. discriminate.
  - intros Hd. discriminate.
Qed.

Lemma to_string_dot (p : PurePath.t) :
  canonical p -> PurePath.root p = "" ->
  PurePath.to_string p = "." <-> PurePath.parts p = [].
Proof.
  destruct p as [r ps]. intros [_ Hp] Hr. cbn in Hp, Hr. subst r.
  unfold PurePath.to_string. cbn [PurePath.root PurePath.parts]. split.
  - destruct ps as [|x ps]; [reflexivity|]. cbn [append]. intros Hd.
    exfalso. revert Hd. apply join_not_dot; [exact Hp | discriminate].
  - now intros ->.
Qed.

Lemma relocated_named (d x : string) :
  component d = true -> component x = true ->
  relocated d x = d ++ "/" ++ x
  /\ PurePath.of_string (relocated d x) = PurePath.mk "" [d; x].
Proof.
  intros Hd Hx. unfold relocated. rewrite (of_string_component x Hx).
  unfold PurePath.join. cbn [PurePath.root PurePath.parts Py.nonempty app].
  split; [reflexivity|].
  apply of_string_to_string. split; [now left|]. now repeat constructor.
Qed.

End NormalizeFacts.

Section Normalization.
Context {W : Type} `{Host W}.
Import PathFacts NormalizeFacts.

(** [get_test_dir], case by case. *)
Lemma get_test_dir_cases (project_path : string) (w : World W) :
  let tests := dir_path project_path "tests" in
  let test := dir_path project_path "test" in
  get_test_dir project_path w
  = if has_dir w tests
    then (inr (PurePath.join (PurePath.of_string project_path)
                             (PurePath.of_string "tests")), w)
    else if has_dir w test
    then (inr (PurePath.join (PurePath.of_string project_path)
                             (PurePath.of_string "test")), w)
    else match path_mkdir (host w) tests with
         | inr h' => (inr (PurePath.join (PurePath.of_string project_path)
                                         (PurePath.of_string "tests")),
                      after_mkdir w tests h')
         | inl e => (inl e, after_mkdir w tests (host w))
         end.
Proof.
  cbn zeta. unfold get_test_dir, has_dir, dir_path, after_mkdir, mkdir.
  unfold bind, ask, ret, emit, update. cbn [host calls].
  destruct (path_exists (host w) _ && path_is_dir (host w) _); [reflexivity|].
  destruct (path_exists (host w) _ && path_is_dir (host w) _); [reflexivity|].
  destruct (path_mkdir (host w) _); reflexivity.
Qed.

(** the relocation branch, given what [get_test_dir] answers *)
Lemma normalize_relocates (project_path f : string) (w : World W) :
  PurePath.to_string (PurePath.parent (PurePath.of_string f)) = "." ->
  let name := PurePath.name (PurePath.of_string f) in
  let tests := dir_path project_path "tests" in
  let test := dir_path project_path "test" in
  normalize_test_path project_path f w
  = if has_dir w tests then (inr (relocated "tests" name), w)
    else if has_dir w test then (inr (relocated "test" name), w)
    else match path_mkdir (host w) tests with
         | inr h' => (inr (relocated "tests" name), after_mkdir w tests h')
         | inl e => (inl e, after_mkdir w tests (host w))
         end.
Proof.
  intros Hdot. cbn zeta. unfold normalize_test_path.
  rewrite Hdot. cbn [String.eqb Ascii.eqb Bool.eqb].
  unfold bind at 1. rewrite get_test_dir_cases. cbn zeta.
  destruct (has_dir w (dir_path project_path "tests")).
  - unfold bind, relative_to. rewrite relative_to_child by reflexivity. reflexivity.
  - destruct (has_dir w (dir_path project_path "test")).
    + unfold bind, relative_to. rewrite relative_to_child by reflexivity. reflexivity.
    + destruct (path_mkdir (host w) (dir_path project_path "tests")); [reflexivity|].
      unfold bind, relative_to. rewrite relative_to_child by reflexivity. reflexivity.
Qed.

(** a path with a directory component: nothing is consulted *)
Lemma normalize_keeps (project_path f : string) (w : World W) :
  PurePath.to_string (PurePath.parent (PurePath.of_string f)) <> "." ->
  normalize_test_path project_path f w
  = (inr (PurePath.to_string (PurePath.of_string f)), w).
Proof.
  intros Hdot. unfold normalize_test_path.
  apply String.eqb_neq in Hdot. now rewrite Hdot.
Qed.

(** C9, amended.  A path with a directory component comes back as
    [pathlib] prints it (so unchanged when it is already so printed), and
    the file system is not consulted.  A path without one is moved under
    [tests] when that is a directory, else under [test] when that is one,
    else under [tests] once [mkdir] has created it, an error of [mkdir]
    being passed on; for a path that has a name the result is the
    directory, a slash, and the name.  For every path but the nameless
    one (the empty path and [.]), normalising the result again returns
    it. *)
Theorem normalization (project_path f : string) (w : World W) :
  let p := PurePath.of_string f in
  let tests := dir_path project_path "tests" in
  let test := dir_path project_path "test" in
  (PurePath.to_string (PurePath.parent p) <> "." ->
   normalize_test_path project_path f w = (inr (PurePath.to_string p), w)
   /\ (PurePath.to_string p = f ->
       normalize_test_path project_path f w = (inr f, w)))
  /\ (PurePath.to_string (PurePath.parent p) = "." ->
      normalize_test_path project_path f w
      = if has_dir w tests then (inr (relocated "tests" (PurePath.name p)), w)
        else if has_dir w test then (inr (relocated "test" (PurePath.name p)), w)
        else match path_mkdir (host w) tests with
             | inr h' => (inr (relocated "tests" (PurePath.name p)),
                          after_mkdir w tests h')
             | inl e => (inl e, after_mkdir w tests (host w))
             end)
  /\ (PurePath.to_string (PurePath.parent p) = "." ->
      PurePath.to_string p <> "." ->
      relocated "tests" (PurePath.name p) = "tests/" ++ PurePath.name p
      /\ relocated "test" (PurePath.name p) = "test/" ++ PurePath.name p)
  /\ (PurePath.to_string p <> "." ->
      forall f1 w1,
        normalize_test_path project_path f w = (inr f1, w1) ->
        normalize_test_path project_path f1 w1 = (inr f1, w1)).
Proof.
  cbn zeta. pose proof (of_string_canonical f) as Hcan.
  assert (Hnamed : PurePath.to_string (PurePath.parent (PurePath.of_string f)) = "." ->
                   PurePath.to_string (PurePath.of_string f) <> "." ->
                   component (PurePath.name (PurePath.of_string f)) = true).
  { intros Hdot Hname. destruct (parent_is_dot Hcan Hdot) as [Hroot [Hnil | (x & Hx & Hc)]].
    - exfalso. apply Hname. now apply to_string_dot.
    - unfold PurePath.name. now rewrite Hx. }
  split; [|split; [|split]].
  - intros Hdot. split.
    + now apply normalize_keeps.
    + intros Hf. rewrite normalize_keeps by exact Hdot. now rewrite Hf.
  - intros Hdot. now apply normalize_relocates.
  - intros Hdot Hname. specialize (Hnamed Hdot Hname).
    split; now apply relocated_named.
  - intros Hname f1 w1 Hrun.
    destruct (string_dec (PurePath.to_string (PurePath.parent (PurePath.of_string f))) ".")
      as [Hdot | Hdot].
    + specialize (Hnamed Hdot Hname).
      assert (Hshape : exists d, component d = true
                                 /\ f1 = relocated d (PurePath.name (PurePath.of_string f))).
      { rewrite (normalize_relocates project_path f w Hdot) in Hrun. cbn zeta in Hrun.
        destruct (has_dir w (dir_path project_path "tests")).
        - inversion Hrun. now exists "tests".
        - destruct (has_dir w (dir_path project_path "test")).
          + inversion Hrun. now exists "test".
          + destruct (path_mkdir (host w) (dir_path project_path "tests"));
              inversion Hrun. now exists "tests". }
      destruct Hshape as (d & Hd & ->).
      destruct (relocated_named d _ Hd Hnamed) as [Hstr Hparse].
      rewrite normalize_keeps.
      * rewrite Hparse, Hstr. reflexivity.
      * rewrite Hparse. unfold PurePath.parent, PurePath.to_string.
        cbn [PurePath.root PurePath.parts removelast Py.join append].
        intros ->. discriminate.
    + rewrite normalize_keeps in Hrun by exact Hdot.
      inversion Hrun; subst f1 w1.
      rewrite normalize_keeps; rewrite of_string_idempotent; [reflexivity | exact Hdot].
Qed.

End Normalization.

Lemma normalization_witness :
  normalize_test_path testing_project "test_price_utils.py" (Sim.start (price_host []))
  = (inr "tests/test_price_utils.py", Sim.start (price_host []))
  /\ normalize_test_path testing_project "tests/test_price_utils.py"
       (Sim.start (price_host []))
     = (inr "tests/test_price_utils.py", Sim.start (price_host [])).
Proof.
  pose proof (normalization testing_project "test_price_utils.py"
                (Sim.start (price_host []))) as Hn.
  cbn zeta in Hn. destruct Hn as (_ & Hmove & _ & Hidem).
  assert (Hfirst : normalize_test_path testing_project "test_price_utils.py"
                     (Sim.start (price_host []))
                   = (inr "tests/test_price_utils.py", Sim.start (price_host []))).
  { rewrite Hmove by reflexivity. reflexivity. }
  split; [exact Hfirst|].
  apply Hidem; [discriminate | exact Hfirst].
Defined.

(** ** The generation phases of a run *)

Section RunTrace.
Context {W : Type} `{Host W}.

(** the fallbacks of the test phase either leave the state alone or run
    the test-generation phase on it *)
Lemma resolve_test_files_inr (st st2 : WorkflowState) (project_path : string)
      (found : list string) (w w' : World W) :
  resolve_test_files st project_path w = (inr (st2, found), w') ->
  st2 = st
  \/ exists w1 w2, TestGenerationNode_run false st w1 = (inr st2, w2).
Proof.
  unfold resolve_test_files. intros Hr.
  apply bind_inr in Hr. destruct Hr as (from_plan & w1 & _ & Hr).
  apply bind_inr in Hr. destruct Hr as (fs & w2 & _ & Hr).
  destruct fs as [|f fs].
  - apply bind_inr in Hr. destruct Hr as (st' & w3 & Hg & Hr).
    apply bind_inr in Hr. destruct Hr as (regenerated & w4 & _ & Hr).
    apply ret_inr in Hr. destruct Hr as [Hr _]. inversion Hr; subst.
    right. eauto.
  - apply ret_inr in Hr. destruct Hr as [Hr _]. inversion Hr. now left.
Qed.

(** [TestAndLintNode.run] touches [code_changes] only through the
    test-generation phase of its last fallback. *)
Lemma TestAndLintNode_run_inr (st st' : WorkflowState) (w w' : World W) :
  TestAndLintNode_run st w = (inr st', w') ->
  exists st2,
    (st2 = st \/ exists w1 w2, TestGenerationNode_run false st w1 = (inr st2, w2))
    /\ updated_of st' = updated_of st2
    /\ github_issue st' = github_issue st2.
Proof.
  unfold TestAndLintNode_run. destruct (plan_list st relevant_files) as [|r rs].
  - intros Hr. apply ret_inr in Hr. destruct Hr as [<- _].
    exists st. auto.
  - intros Hr.
    apply bind_inr in Hr. destruct Hr as (repo & w1 & _ & Hr).
    apply bind_inr in Hr. destruct Hr as (is_dir & w2 & _ & Hr).
    destruct (negb is_dir); [discriminate|].
    apply bind_inr in Hr. destruct Hr as ([st2 found] & w3 & Hres & Hr).
    exists st2. split; [eapply resolve_test_files_inr; eauto|].
    destruct found as [|f fs].
    + apply ret_inr in Hr. destruct Hr as [<- _]. auto.
    + apply bind_inr in Hr. destruct Hr as (t1 & w4 & _ & Hr).
      apply bind_inr in Hr. destruct Hr as (t2 & w5 & _ & Hr).
      apply ret_inr in Hr. destruct Hr as [<- _].
      unfold finish_test_and_lint. destruct (no_tests_ran _); auto.
Qed.

(** [CommitAndPRNode.run] keeps [updated_files]. *)
Lemma CommitAndPRNode_run_updated (st st' : WorkflowState) (w w' : World W) :
  CommitAndPRNode_run st w = (inr st', w') -> updated_of st' = updated_of st.
Proof.
  unfold CommitAndPRNode_run. destruct (tests_ok st).
  - destruct (code_changes st) as [cc|] eqn:Ecc; [|discriminate].
    intros Hr.
    apply bind_inr in Hr. destruct Hr as ([cc' msg] & w1 & Hm & Hr).
    assert (Hcc : updated_files cc' = updated_files cc).
    { unfold ensure_commit_message in Hm.
      destruct (Py.nonempty _).
      - apply ret_inr in Hm. destruct Hm as [Hm _]. now inversion Hm.
      - apply bind_inr in Hm. destruct Hm as (repo & v1 & _ & Hm).
        apply bind_inr in Hm. destruct Hm as (summaries & v2 & _ & Hm).
        apply bind_inr in Hm. destruct Hm as (message & v3 & _ & Hm).
        apply ret_inr in Hm. destruct Hm as [Hm _]. now inversion Hm. }
    assert (Hst : st' = set_code_changes st (Some cc')).
    { apply bind_inr in Hr. destruct Hr as (repo & w2 & _ & Hr).
      apply bind_inr in Hr. destruct Hr as (branch & w3 & _ & Hr).
      apply bind_inr in Hr. destruct Hr as (u1 & w4 & _ & Hr).
      apply bind_inr in Hr. destruct Hr as (u2 & w5 & _ & Hr).
      apply bind_inr in Hr. destruct Hr as (u3 & w6 & _ & Hr).
      apply bind_inr in Hr. destruct Hr as (files & w7 & _ & Hr).
      destruct files as [|f files].
      - apply ret_inr in Hr. now destruct Hr.
      - apply bind_inr in Hr. destruct Hr as (u4 & w8 & _ & Hr).
        apply bind_inr in Hr. destruct Hr as (u5 & w9 & _ & Hr).
        apply bind_inr in Hr. destruct Hr as (u6 & w10 & _ & Hr).
        apply bind_inr in Hr. destruct Hr as (u7 & w11 & _ & Hr).
        apply ret_inr in Hr. now destruct Hr. }
    subst st'. unfold updated_of. cbn. now rewrite Ecc, Hcc.
  - intros Hr. apply ret_inr in Hr. now destruct Hr as [<- _].
Qed.

(** The rounds of the graph are a sequence of generation-phase
    executions in the sense of [generation_trace]. *)
Lemma retry_cycle_trace (fuel : nat) (inc : bool) :
  forall (self self' : SDTAgent) (st st' : WorkflowState) (w w' : World W),
    github_issue st <> "" ->
    retry_cycle fuel inc self st w = (inr (Some (st', self')), w') ->
    exists tss, generation_trace st tss st'.
Proof.
  induction fuel as [|fuel IH]; intros self self' st st' w w' Hi Hr.
  - cbn in Hr. apply ret_inr in Hr. destruct Hr; discriminate.
  - cbn [retry_cycle] in Hr.
    apply bind_inr in Hr. destruct Hr as (st1 & w1 & Hgen & Hr).
    apply bind_inr in Hr. destruct Hr as (st2 & w2 & Htl & Hr).
    assert (Hi1 : github_issue st1 = github_issue st).
    { destruct (CodeGenerationNode_run_inr _ _ Hgen) as [(_ & -> & _) | (_ & ->)];
        reflexivity. }
    destruct (TestAndLintNode_run_inr _ _ Htl) as (stg & Hstg & Hu2 & Hi2).
    assert (Hmid : forall tss stf, generation_trace st2 tss stf ->
                                   exists tss', generation_trace st tss' stf).
    { intros tss stf Hrest.
      destruct Hstg as [-> | (v1 & v2 & Hg)].
      - eexists. eapply trace_code; eauto.
        eapply trace_other; [exact Hu2 | exact Hrest].
      - destruct (TestGenerationNode_run_inr _ _ _ Hg) as (targets & v0 & Ht & _).
        eexists. eapply trace_code; eauto.
        eapply trace_test; eauto.
        eapply trace_other; [exact Hu2 | exact Hrest]. }
    assert (Hi2' : github_issue st2 <> "").
    { rewrite Hi2. destruct Hstg as [-> | (v1 & v2 & Hg)].
      - now rewrite Hi1.
      - destruct (TestGenerationNode_run_inr _ _ _ Hg) as (targets & v0 & _ & ->).
        cbn. now rewrite Hi1. }
    destruct (should_retry_cases self st2 inc)
      as [(_ & _ & E) | [(_ & _ & E) | (_ & E)]]; rewrite E in Hr.
    + destruct (IH _ _ _ _ _ _ Hi2' Hr) as (tss & Ht). eapply Hmid; eauto.
    + apply ret_inr in Hr. destruct Hr as [Hr _]. inversion Hr; subst.
      apply (Hmid []). eapply trace_other; [|apply trace_done]. reflexivity.
    + destruct (inc && tests_ok st2).
      * apply bind_inr in Hr. destruct Hr as (st4 & w4 & Hc & Hr).
        apply ret_inr in Hr. destruct Hr as [Hr _]. inversion Hr; subst.
        apply (Hmid []). eapply trace_other; [|apply trace_done].
        now rewrite (CommitAndPRNode_run_updated _ _ Hc).
      * apply ret_inr in Hr. destruct Hr as [Hr _]. inversion Hr; subst.
        apply (Hmid []). eapply trace_other; [|apply trace_done]. reflexivity.
Qed.

(** [PlanningNode.run] returns only for an issue text that is there, and
    writes the plan alone. *)
Lemma PlanningNode_run_inr (st st' : WorkflowState) (w w' : World W) :
  PlanningNode_run st w = (inr st', w') ->
  github_issue st <> "" /\ exists p, st' = set_plan st (Some p).
Proof.
  unfold PlanningNode_run. intros Hr.
  apply bind_inr in Hr. destruct Hr as (repo & w1 & _ & Hr).
  apply bind_inr in Hr. destruct Hr as (is_dir & w2 & _ & Hr).
  destruct (negb is_dir); [discriminate|].
  destruct (github_issue st) as [|c s] eqn:Ei; [discriminate|].
  cbn [Py.nonempty negb] in Hr.
  apply bind_inr in Hr. destruct Hr as (u & w3 & _ & Hr).
  apply bind_inr in Hr. destruct Hr as (classified & w4 & _ & Hr).
  apply bind_inr in Hr. destruct Hr as (normalized & w5 & _ & Hr).
  apply ret_inr in Hr. destruct Hr as [<- _].
  split; [discriminate | eauto].
Qed.

Lemma CloneProjectRepoNode_run_inr (st st' : WorkflowState) (w w' : World W) :
  CloneProjectRepoNode_run st w = (inr st', w') -> st' = st.
Proof.
  unfold CloneProjectRepoNode_run. intros Hr.
  apply bind_inr in Hr. destruct Hr as (repo & w1 & _ & Hr).
  apply bind_inr in Hr. destruct Hr as (u1 & w2 & _ & Hr).
  apply bind_inr in Hr. destruct Hr as (u2 & w3 & _ & Hr).
  apply ret_inr in Hr. now destruct Hr.
Qed.

Lemma RetrieveIssueDetailsNode_run_inr (st st' : WorkflowState) (w w' : World W) :
  RetrieveIssueDetailsNode_run st w = (inr st', w') ->
  updated_of st' = updated_of st.
Proof.
  unfold RetrieveIssueDetailsNode_run. intros Hr.
  apply bind_inr in Hr. destruct Hr as (numbered & w1 & _ & Hr).
  destruct (Py.nonempty (github_issue st) && numbered).
  - apply bind_inr in Hr. destruct Hr as (token & w2 & _ & Hr).
    apply bind_inr in Hr. destruct Hr as (repo & w3 & _ & Hr).
    destruct (negb _ || negb _); [discriminate|].
    apply bind_inr in Hr. destruct Hr as (u & w4 & _ & Hr).
    apply bind_inr in Hr. destruct Hr as (body & w5 & _ & Hr).
    apply ret_inr in Hr. now destruct Hr as [<- _].
  - destruct (negb (Py.nonempty (github_issue st))); [discriminate|].
    apply ret_inr in Hr. now destruct Hr as [<- _].
Qed.

(** Every run that ends is such a sequence, from the state it was
    started on to its final state. *)
Lemma run_workflow_trace (self : SDTAgent) (st st' : WorkflowState)
      (inc : bool) (w w' : World W) :
  run_workflow self st inc w = (Some st', w') ->
  exists tss, generation_trace st tss st'.
Proof.
  unfold run_workflow. intros Hr.
  destruct (workflow self st inc w) as [[e|[[fs fa]|]] w1] eqn:Ew; try discriminate.
  inversion Hr; subst. unfold workflow in Ew.
  apply bind_inr in Ew. destruct Ew as (s1 & w2 & Hc & Ew).
  apply bind_inr in Ew. destruct Ew as (s2 & w3 & Hi & Ew).
  apply bind_inr in Ew. destruct Ew as (s3 & w4 & Hp & Ew).
  apply CloneProjectRepoNode_run_inr in Hc. subst s1.
  apply RetrieveIssueDetailsNode_run_inr in Hi.
  apply PlanningNode_run_inr in Hp. destruct Hp as (Hne & p & ->).
  assert (Hne' : github_issue (set_plan s2 (Some p)) <> "") by exact Hne.
  destruct (retry_cycle_trace _ _ _ _ _ Hne' Ew) as (tss & Ht).
  exists tss. eapply trace_other; [exact Hi|].
  eapply trace_other; [|exact Ht]. reflexivity.
Qed.

End RunTrace.

(** ** A failing test phase hands its errors on *)

Section ErrorsPopulated.
Context {W : Type} `{Host W}.

Lemma try_except_inr {A : Type} (m : M W A) (h : Exn -> M W A)
      (w w' : World W) (a : A) :
  try_except m h w = (inr a, w') ->
  m w = (inr a, w')
  \/ exists e w1, m w = (inl e, w1) /\ h e w1 = (inr a, w').
Proof.
  unfold try_except. destruct (m w) as [[e|x] w1]; intros Hr.
  - right. now exists e, w1.
  - left. exact Hr.
Qed.

Lemma fold_m_invariant {A S : Type} (P : S -> Prop) (l : list A)
      (body : S -> A -> M W S) :
  (forall s a w s' w', P s -> body s a w = (inr s', w') -> P s') ->
  forall acc w r w', P acc -> fold_m l body acc w = (inr r, w') -> P r.
Proof.
  intros Hbody. induction l as [|x l IH]; intros acc w r w' Hacc Hr; cbn in Hr.
  - apply ret_inr in Hr. now destruct Hr as [<- _].
  - apply bind_inr in Hr. destruct Hr as (s1 & w1 & Hb & Hr).
    eapply IH; [|exact Hr]. eapply Hbody; eauto.
Qed.

Lemma py_append_not_nil {A : Type} (l : list A) (x : A) : py_append l x <> [].
Proof. unfold py_append. destruct l; discriminate. Qed.

Lemma record_test_recorded (t : Tally) (f : string) (p : CompletedProcess) :
  errors_recorded t -> errors_recorded (record_test t f p).
Proof.
  unfold errors_recorded, record_test. cbn.
  destruct (negb (returncode p =? 0)%Z); auto using py_append_not_nil.
Qed.

Lemma record_lint_recorded (t : Tally) (f : string) (p : CompletedProcess) :
  errors_recorded t -> errors_recorded (record_lint t f p).
Proof.
  unfold errors_recorded, record_lint. cbn.
  destruct (negb (returncode p =? 0)%Z); auto using py_append_not_nil.
Qed.

Lemma test_one_recorded (repo_root : string) (t t' : Tally) (f : string)
      (w w' : World W) :
  errors_recorded t -> test_one repo_root t f w = (inr t', w') -> errors_recorded t'.
Proof.
  intros Ht. unfold test_one.
  assert (Hattempt : forall cmd v v',
             try_except
               (p <- run_test repo_root f
                       (Py.lower (PurePath.suffix (PurePath.of_string f))) cmd ;;
                ret (record_test t f p))
               (fun e => ret (record_test_error t f e)) v = (inr t', v') ->
             errors_recorded t').
  { intros cmd v v' Hr. apply try_except_inr in Hr.
    destruct Hr as [Hr | (e & v1 & _ & Hr)].
    - apply bind_inr in Hr. destruct Hr as (p & v1 & _ & Hr).
      apply ret_inr in Hr. destruct Hr as [<- _]. now apply record_test_recorded.
    - apply ret_inr in Hr. destruct Hr as [<- _].
      intros _. cbn. apply py_append_not_nil. }
  destruct (String.eqb _ ".py").
  - intros Hr. apply bind_inr in Hr. destruct Hr as (b & w1 & _ & Hr). eauto.
  - destruct (Py.mem _ _); [eauto|].
    intros Hr. apply ret_inr in Hr. now destruct Hr as [<- _].
Qed.

Lemma lint_one_recorded (repo_root : string) (t t' : Tally) (f : string)
      (w w' : World W) :
  errors_recorded t -> lint_one repo_root t f w = (inr t', w') -> errors_recorded t'.
Proof.
  intros Ht. unfold lint_one. destruct (lintable f).
  - intros Hr. apply try_except_inr in Hr.
    destruct Hr as [Hr | (e & v1 & _ & Hr)].
    + apply bind_inr in Hr. destruct Hr as (rel & v1 & _ & Hr).
      apply bind_inr in Hr. destruct Hr as (p & v2 & _ & Hr).
      apply ret_inr in Hr. destruct Hr as [<- _]. now apply record_lint_recorded.
    + apply ret_inr in Hr. destruct Hr as [<- _].
      intros _. cbn. apply py_append_not_nil.
  - intros Hr. apply ret_inr in Hr. now destruct Hr as [<- _].
Qed.

(** When [TestAndLintNode.run] reports that the tests did not pass, the
    transition will see a failure, and [last_errors] carries the error
    blocks for the next generation. *)
Lemma failing_tests_leave_errors (st st' : WorkflowState) (w w' : World W) :
  TestAndLintNode_run st w = (inr st', w') ->
  tests_passed_of st' = Some false ->
  tests_failed st' = true /\ passed st' = Some false /\ last_errors st' <> None.
Proof.
  unfold TestAndLintNode_run. destruct (plan_list st relevant_files) as [|r rs].
  - intros Hr. apply ret_inr in Hr. destruct Hr as [<- _]. discriminate.
  - intros Hr.
    apply bind_inr in Hr. destruct Hr as (repo & w1 & _ & Hr).
    apply bind_inr in Hr. destruct Hr as (is_dir & w2 & _ & Hr).
    destruct (negb is_dir); [discriminate|].
    apply bind_inr in Hr. destruct Hr as ([st2 found] & w3 & _ & Hr).
    destruct found as [|f fs].
    + apply ret_inr in Hr. destruct Hr as [<- _]. discriminate.
    + apply bind_inr in Hr. destruct Hr as (t1 & w4 & Ht1 & Hr).
      apply bind_inr in Hr. destruct Hr as (t2 & w5 & Ht2 & Hr).
      apply ret_inr in Hr. destruct Hr as [<- _].
      assert (Hrec1 : errors_recorded t1).
      { eapply fold_m_invariant with (P := errors_recorded); [| |exact Ht1].
        - intros s a v s' v' Hs Hb. eapply test_one_recorded; eauto.
        - intros Hc. discriminate. }
      assert (Hrec : errors_recorded t2).
      { eapply fold_m_invariant with (P := errors_recorded);
          [|exact Hrec1|exact Ht2].
        intros s a v s' v' Hs Hb. eapply lint_one_recorded; eauto. }
      unfold finish_test_and_lint. destruct (no_tests_ran _); [discriminate|].
      cbn. intros Hp. inversion Hp as [Hall]. rewrite Hall. cbn.
      split; [reflexivity|]. split; [reflexivity|].
      specialize (Hrec Hall). destruct (error_accum t2); [contradiction|discriminate].
Qed.

End ErrorsPopulated.

(* ===================================================================== *)
(** * Further properties of the sources *)
(* ===================================================================== *)

(** ** Strings *)

Module StringFacts.

Lemma length_app (a b : string) :
  String.length (a ++ b) = (String.length a + String.length b)%nat.
Proof. induction a as [|c a IH]; cbn; congruence. Qed.

Lemma substring_0_length (s : string) : String.substring 0 (String.length s) s = s.
Proof. induction s as [|c s IH]; cbn; congruence. Qed.

Lemma substring_0_app (a b : string) :
  String.substring 0 (String.length a) (a ++ b) = a.
Proof.
  induction a as [|c a IH]; cbn.
  - now destruct b.
  - now rewrite IH.
Qed.

Lemma substring_skip_app (a b : string) (n : nat) :
  String.substring (String.length a) n (a ++ b) = String.substring 0 n b.
Proof. induction a as [|c a IH]; cbn; [reflexivity | exact IH]. Qed.

Lemma endswith_app (a p : string) : Py.endswith (a ++ p) p = true.
Proof.
  unfold Py.endswith. rewrite length_app.
  replace (String.length a + String.length p - String.length p)%nat
    with (String.length a) by lia.
  rewrite substring_skip_app, substring_0_length, String.eqb_refl.
  rewrite andb_true_r. apply Nat.leb_le. lia.
Qed.

Lemma drop_last_app (a p : string) : Py.drop_last (String.length p) (a ++ p) = a.
Proof.
  unfold Py.drop_last. rewrite length_app.
  replace (String.length a + String.length p - String.length p)%nat
    with (String.length a) by lia.
  apply substring_0_app.
Qed.

Lemma prefix_nil (s : string) : String.prefix "" s = true.
Proof. now destruct s. Qed.

Lemma prefix_app (p a b : string) :
  String.prefix p a = true -> String.prefix p (a ++ b) = true.
Proof.
  revert a. induction p as [|c p IH]; intros a; [intros _; apply prefix_nil|].
  destruct a as [|d a]; [discriminate|]. cbn.
  destruct (Ascii.ascii_dec c d); [apply IH | discriminate].
Qed.

(** a string begins with what it was built on *)
Lemma prefix_here (p rest : string) : String.prefix p (p ++ rest) = true.
Proof.
  induction p as [|c p IH]; [apply prefix_nil|]. cbn.
  destruct (Ascii.ascii_dec c c); [exact IH | contradiction].
Qed.

Lemma contains_app_l (sub a b : string) :
  Py.contains sub a = true -> Py.contains sub (a ++ b) = true.
Proof.
  induction a as [|c a IH]; cbn [Py.contains append].
  - rewrite orb_false_r. intros Hp.
    destruct sub; [|discriminate]. now destruct b.
  - intros Hc. apply orb_true_iff in Hc. apply orb_true_iff.
    destruct Hc as [Hp | Hc].
    + left. now apply (prefix_app sub (String c a) b).
    + right. now apply IH.
Qed.

Lemma contains_app_r (sub a b : string) :
  Py.contains sub b = true -> Py.contains sub (a ++ b) = true.
Proof.
  intros Hb. induction a as [|c a IH]; cbn [Py.contains append]; [exact Hb|].
  rewrite IH. apply orb_true_r.
Qed.

Lemma lower_app (a b : string) : Py.lower (a ++ b) = Py.lower a ++ Py.lower b.
Proof. induction a as [|c a IH]; cbn; congruence. Qed.

(** [s[:n]] begins [s] *)
Lemma substring_0_begins (n : nat) (s : string) :
  exists rest, s = String.substring 0 n s ++ rest.
Proof.
  revert n. induction s as [|c s IH]; intros n.
  - exists "". now destruct n.
  - destruct n as [|n]; cbn.
    + now exists (String c s).
    + destruct (IH n) as (rest & E). exists rest. now rewrite <- E.
Qed.

Lemma no_slash_app (a b : string) : no_slash (a ++ b) = no_slash a && no_slash b.
Proof.
  induction a as [|c a IH]; cbn; [reflexivity|].
  now rewrite IH, andb_assoc.
Qed.

Lemma no_slash_substring (s : string) :
  no_slash s = true -> forall i n, no_slash (String.substring i n s) = true.
Proof.
  induction s as [|c s IH]; intros Hs i n.
  - now destruct i, n.
  - cbn in Hs. apply andb_true_iff in Hs. destruct Hs as [Hc Hs].
    destruct i as [|i]; cbn.
    + destruct n as [|n]; cbn; [reflexivity|]. now rewrite Hc, IH.
    + now apply IH.
Qed.

End StringFacts.

(** ** The edges of the graph and the transition *)

(** Whatever [should_retry] answers is a key of the mapping that
    [run_workflow] registers for the same setting of the commit flag, and
    the node it names is one [build_phases] lists: the graph is never
    asked for an edge it does not have.  In particular the answer is
    never [commit_and_pr] when that node was left out. *)
Theorem route_is_an_edge (self : SDTAgent) (st : WorkflowState) (inc : bool) :
  let route := fst (fst (should_retry self st inc)) in
  In route (conditional_edges inc)
  /\ (forall node, route_node route = Some node -> In node (build_phases inc))
  /\ (inc = false -> route <> commit_and_pr).
Proof.
  cbn zeta.
  destruct (should_retry_cases self st inc)
    as [(_ & _ & E) | [(_ & _ & E) | (_ & E)]]; rewrite E; cbn [fst].
  - destruct inc; cbn; repeat split; auto; try discriminate;
      intros node Hn; inversion Hn; auto 10.
  - destruct inc; cbn; repeat split; auto; discriminate.
  - destruct inc; cbn [andb].
    + destruct (tests_ok st); cbn; repeat split; auto; try discriminate.
      intros node Hn; inversion Hn; auto 10.
    + cbn. repeat split; auto; discriminate.
Qed.

(** ** The language of a run *)

Lemma language_of_files_range (l : list string) :
  language_of_files l = "python"
  \/ language_of_files l = "typescript"
  \/ language_of_files l = "javascript".
Proof.
  induction l as [|f l IH]; cbn [language_of_files]; [now left|].
  destruct (String.eqb _ ".py"); [now left|].
  destruct (_ || _); [now right; left|].
  destruct (_ || _); [now right; right|]. exact IH.
Qed.

(** [detect_language_from_context] answers with one of three languages,
    [python] being the answer when neither the context nor the plan says
    anything; it raises exactly when there is a project context whose
    [language] is [None]. *)
Theorem detect_language_range (st : WorkflowState) :
  match detect_language_from_context st with
  | inr lang => lang = "python" \/ lang = "typescript" \/ lang = "javascript"
  | inl _ => exists pc, project_context st = Some pc /\ language pc = None
  end
  /\ (project_context st = None -> plan_list st relevant_files = [] ->
      detect_language_from_context st = inr "python")
  /\ (forall pc, project_context st = Some pc -> language pc = None ->
      exists e, detect_language_from_context st = inl e).
Proof.
  unfold detect_language_from_context, plan_list.
  assert (Hplan : match plan st with
                  | Some p => match relevant_files p with
                              | Some l => language_of_files l
                              | None => "python"
                              end
                  | None => "python"
                  end = "python"
                  \/ match plan st with
                     | Some p => match relevant_files p with
                                 | Some l => language_of_files l
                                 | None => "python"
                                 end
                     | None => "python"
                     end = "typescript"
                  \/ match plan st with
                     | Some p => match relevant_files p with
                                 | Some l => language_of_files l
                                 | None => "python"
                                 end
                     | None => "python"
                     end = "javascript").
  { destruct (plan st) as [p|]; [|now left].
    destruct (relevant_files p) as [l|]; [|now left].
    apply language_of_files_range. }
  split; [|split].
  - destruct (project_context st) as [pc|]; [|exact Hplan].
    destruct (language pc) as [l|] eqn:El; [|now exists pc].
    destruct (Py.contains "python" _); [now left|].
    destruct (_ || _); [now right; left|].
    destruct (_ || _); [now right; right|]. exact Hplan.
  - intros -> Hrel.
    destruct (plan st) as [p|]; [|reflexivity].
    destruct (relevant_files p) as [l|]; [|reflexivity]. now subst l.
  - intros pc -> ->. eauto.
Qed.

Lemma detect_language_range_witness :
  detect_language_from_context
    {| github_issue := ""; project_context := None; plan := None;
       code_changes := None; test_results := None; lint_results := None;
       passed := None; last_errors := None |} = inr "python".
Proof.
  apply (proj1 (proj2 (detect_language_range
                         {| github_issue := ""; project_context := None;
                            plan := None; code_changes := None;
                            test_results := None; lint_results := None;
                            passed := None; last_errors := None |})));
    reflexivity.
Defined.

(** ** The two file-name heuristics *)

Module NameFacts.
Import PathFacts StringFacts.

Lemma name_parts (s : string) :
  PurePath.name (PurePath.of_string s) = ""
  \/ component (PurePath.name (PurePath.of_string s)) = true.
Proof.
  destruct (of_string_canonical s) as [_ Hp]. unfold PurePath.name.
  induction Hp as [|x ps Hx Hps IH]; [now left|].
  destruct ps as [|y ps]; [now right|]. exact IH.
Qed.

Lemma name_no_slash (s : string) :
  no_slash (PurePath.name (PurePath.of_string s)) = true.
Proof.
  destruct (name_parts s) as [-> | Hc]; [reflexivity|].
  now apply component_no_slash.
Qed.

(** the stem is the name, or the name up to its last dot *)
Lemma stem_begins_name (p : PurePath.t) :
  exists rest, PurePath.name p = PurePath.stem p ++ rest.
Proof.
  unfold PurePath.stem. destruct (Py.rfind_dot (PurePath.name p)) as [i|].
  - destruct (_ && _)%nat.
    + apply substring_0_begins.
    + exists "". clear. induction (PurePath.name p); cbn; congruence.
  - exists "". clear. induction (PurePath.name p); cbn; congruence.
Qed.

Lemma stem_no_slash (s : string) :
  no_slash (PurePath.stem (PurePath.of_string s)) = true.
Proof.
  destruct (stem_begins_name (PurePath.of_string s)) as (rest & E).
  pose proof (name_no_slash s) as Hn. rewrite E, no_slash_app in Hn.
  now apply andb_true_iff in Hn.
Qed.

(** a string of two characters or more without [/] is a component *)
Lemma long_component (x : string) :
  no_slash x = true -> (2 <= String.length x)%nat -> component x = true.
Proof.
  intros Hx Hl. unfold component, PurePath.keep_part. rewrite Hx.
  destruct x as [|a [|b x]]; cbn in Hl; try lia.
  cbn. destruct (Ascii.eqb a "."); reflexivity.
Qed.

Lemma name_of_component (x : string) :
  component x = true -> PurePath.name (PurePath.of_string x) = x.
Proof. intros Hx. now rewrite (of_string_component x Hx). Qed.

End NameFacts.

(** A file the test heuristic rejects is one the lint loop takes, if it
    is a Python file: [is_test_file] looks for [test] in the name, the
    lint loop for [test] in the stem, and the stem begins the name.  So
    no [.py] file of the plan is skipped by both loops' name tests. *)
Theorem lint_takes_what_is_no_test (file_path : string)
        (Hpy : Py.endswith file_path ".py" = true)
        (Hno : is_test_file file_path = false) :
  lintable file_path = true.
Proof.
  unfold lintable. rewrite Hpy. cbn [andb]. apply negb_true_iff.
  unfold is_test_file in Hno. apply orb_false_iff in Hno. destruct Hno as [Hno _].
  destruct (NameFacts.stem_begins_name (PurePath.of_string file_path)) as (rest & E).
  rewrite E, StringFacts.lower_app in Hno.
  destruct (Py.contains "test" (Py.lower (PurePath.stem (PurePath.of_string file_path))))
    eqn:Hc; [|reflexivity].
  now rewrite (StringFacts.contains_app_l _ _ _ Hc) in Hno.
Qed.

Lemma lint_takes_what_is_no_test_witness : lintable "price_utils.py" = true.
Proof. apply lint_takes_what_is_no_test; reflexivity. Defined.

(** The file name [TestGenerationNode.run] makes up when the plan names
    no test file is always one [is_test_file] recognises, whatever the
    language and the first source file are: the test phase's second
    fallback will find it by name. *)
Theorem inferred_test_filename_is_test (lang : string) (sources : list string) :
  is_test_file (inferred_test_filename lang sources) = true.
Proof.
  unfold inferred_test_filename. destruct sources as [|s0 _].
  - destruct (String.eqb lang "python"); reflexivity.
  - set (stem0 := PurePath.stem (PurePath.of_string s0)).
    assert (Hstem : no_slash stem0 = true) by apply NameFacts.stem_no_slash.
    set (base := if Py.startswith stem0 "test_"
                 then String.substring 5 (String.length stem0 - 5) stem0
                 else stem0).
    assert (Hbase : no_slash base = true).
    { unfold base. destruct (Py.startswith stem0 "test_"); [|exact Hstem].
      now apply StringFacts.no_slash_substring. }
    unfold is_test_file. apply orb_true_iff. left.
    destruct (String.eqb lang "python").
    + rewrite NameFacts.name_of_component.
      * reflexivity.
      * apply NameFacts.long_component.
        -- rewrite !StringFacts.no_slash_app, Hbase. reflexivity.
        -- cbn. lia.
    + set (ext := if String.eqb lang "typescript" then "ts" else "js").
      assert (Hext : no_slash ext = true /\ Py.contains "test" (".test." ++ ext) = true).
      { unfold ext. destruct (String.eqb lang "typescript"); split; reflexivity. }
      destruct Hext as [Hext Htest].
      rewrite NameFacts.name_of_component.
      * rewrite StringFacts.lower_app. apply StringFacts.contains_app_r.
        unfold ext. destruct (String.eqb lang "typescript"); reflexivity.
      * apply NameFacts.long_component.
        -- rewrite !StringFacts.no_slash_app, Hbase, Hext. reflexivity.
        -- rewrite StringFacts.length_app. cbn. lia.
Qed.

(** ** Repository names *)

Module RepoFacts.
Import StringFacts.

Lemma append_assoc (a b c : string) : (a ++ b) ++ c = a ++ b ++ c.
Proof. induction a as [|x a IH]; cbn; congruence. Qed.

(** whether [o/r] begins with a slash-free [p] does not depend on [r] *)
Lemma prefix_before_slash (p o r1 r2 : string) :
  no_slash p = true ->
  String.prefix p (o ++ "/" ++ r1) = String.prefix p (o ++ "/" ++ r2).
Proof.
  revert o. induction p as [|c p IH]; intros o Hp.
  - now rewrite !prefix_nil.
  - cbn in Hp. apply andb_true_iff in Hp. destruct Hp as [Hc Hp].
    destruct o as [|d o]; cbn.
    + destruct (Ascii.ascii_dec c "/") as [->|_]; [discriminate | reflexivity].
    + destruct (Ascii.ascii_dec c d); [now apply IH | reflexivity].
Qed.

End RepoFacts.

(** The URL the benchmark builds from an [owner/name] repository is read
    back by [extract_repo_name_from_url] as that same [owner/name]; and
    a repository given with [.git] at its end leads to the same URL, so
    to the same name and the same clone directory. *)
Theorem repository_round_trip (owner name : string)
        (Howner : no_slash owner = true)
        (Hname : no_slash name = true)
        (Hplain : Py.startswith (owner ++ "/" ++ name) "http" = false)
        (Hgit : Py.endswith (owner ++ "/" ++ name) ".git" = false) :
  let repo := owner ++ "/" ++ name in
  instance_repo_url repo = "https://github.com/" ++ repo ++ ".git"
  /\ instance_repo_url (repo ++ ".git") = instance_repo_url repo
  /\ extract_repo_name_from_url (instance_repo_url repo) = inr repo.
Proof.
  cbn zeta. set (repo := owner ++ "/" ++ name) in *.
  assert (Hurl : instance_repo_url repo = "https://github.com/" ++ repo ++ ".git").
  { unfold instance_repo_url. now rewrite Hplain, Hgit. }
  split; [exact Hurl|]. split.
  - rewrite Hurl. unfold instance_repo_url.
    rewrite StringFacts.endswith_app. cbn [negb].
    assert (Hp : Py.startswith (repo ++ ".git") "http" = Py.startswith repo "http").
    { unfold Py.startswith, repo. rewrite !RepoFacts.append_assoc.
      now apply RepoFacts.prefix_before_slash. }
    now rewrite Hp, Hplain.
  - rewrite Hurl. unfold extract_repo_name_from_url.
    replace ("https://github.com/" ++ repo ++ ".git")
      with (("https://github.com/" ++ repo) ++ ".git")
      by apply RepoFacts.append_assoc.
    rewrite StringFacts.endswith_app.
    change 4%nat with (String.length ".git").
    rewrite StringFacts.drop_last_app.
    cbn [Py.startswith].
    change (String.prefix "git@" ("https://github.com/" ++ repo)) with false.
    change (String.prefix "https://" ("https://github.com/" ++ repo)) with true.
    cbn [orb]. f_equal.
    change ("https://github.com/" ++ repo)
      with ("https:" ++ "/" ++ "" ++ "/" ++ "github.com" ++ "/" ++ owner ++ "/" ++ name).
    rewrite (PathFacts.split_app_slash "https:" _ eq_refl).
    rewrite (PathFacts.split_app_slash "" _ eq_refl).
    rewrite (PathFacts.split_app_slash "github.com" _ eq_refl).
    rewrite (PathFacts.split_app_slash owner _ Howner).
    rewrite (PathFacts.split_single name Hname).
    reflexivity.
Qed.

Lemma repository_round_trip_witness :
  extract_repo_name_from_url (instance_repo_url "mahmoud99-cell/SDT-Agent")
  = inr "mahmoud99-cell/SDT-Agent".
Proof.
  apply (proj2 (proj2 (repository_round_trip "mahmoud99-cell" "SDT-Agent"
                         eq_refl eq_refl eq_refl eq_refl))).
Defined.

(** ** Generating twice *)

Lemma fold_append_absorbed (targets old : list string) :
  (forall t, In t targets -> In t old) ->
  fold_left append_new targets old = old.
Proof.
  induction targets as [|t ts IH]; intros Hin; cbn; [reflexivity|].
  assert (Ht : append_new old t = old).
  { unfold append_new.
    now rewrite (proj2 (mem_In t old) (Hin t (or_introl eq_refl))). }
  rewrite Ht. apply IH. intros x Hx. apply Hin. now right.
Qed.

Lemma accumulate_twice (st : WorkflowState) (targets : list string) :
  accumulate_updated_files (accumulate_updated_files st targets) targets
  = accumulate_updated_files st targets.
Proof.
  unfold accumulate_updated_files at 1.
  cbn [code_changes accumulate_updated_files set_code_changes updated_files
       created_file commit_message].
  rewrite fold_append_absorbed.
  - reflexivity.
  - intros t Ht. now apply fold_append_In.
Qed.

Section Regeneration.
Context {W : Type} `{Host W}.

(** Running [CodeGenerationNode.run] again on the state it returned, as
    a retry does when the plan is the same, returns that state unchanged:
    the files are generated again, but [updated_files] gains nothing and
    nothing else of the state is written. *)
Theorem regeneration_keeps_state (st st1 st2 : WorkflowState) (w w1 w2 w3 : World W)
        (Hfirst : CodeGenerationNode_run st w = (inr st1, w1))
        (Hagain : CodeGenerationNode_run st1 w2 = (inr st2, w3)) :
  st2 = st1.
Proof.
  destruct (CodeGenerationNode_run_inr _ _ Hfirst) as [(He & -> & _) | (Hne & ->)].
  - destruct (CodeGenerationNode_run_inr _ _ Hagain) as [(_ & -> & _) | (Hne & _)];
      [reflexivity | contradiction].
  - destruct (CodeGenerationNode_run_inr _ _ Hagain) as [(He & _) | (_ & ->)].
    + contradiction.
    + apply accumulate_twice.
Qed.

End Regeneration.

Lemma regeneration_keeps_state_witness :
  let st1 := accumulate_updated_files planned_state ["price_utils.py"] in
  let w1 := snd (CodeGenerationNode_run planned_state (Sim.start (price_host []))) in
  updated_of st1 = ["price_utils.py"]
  /\ fst (CodeGenerationNode_run planned_state (Sim.start (price_host []))) = inr st1
  /\ fst (CodeGenerationNode_run st1 w1) = inr st1.
Proof.
  cbn zeta. split; [reflexivity|]. split; [vm_compute; reflexivity|].
  assert (Hfirst :
            CodeGenerationNode_run planned_state (Sim.start (price_host []))
            = (inr (accumulate_updated_files planned_state ["price_utils.py"]),
               snd (CodeGenerationNode_run planned_state (Sim.start (price_host [])))))
    by (vm_compute; reflexivity).
  destruct (CodeGenerationNode_run
              (accumulate_updated_files planned_state ["price_utils.py"])
              (snd (CodeGenerationNode_run planned_state (Sim.start (price_host [])))))
    as [[e|st2] w3] eqn:Hagain.
  - vm_compute in Hagain. discriminate.
  - cbn [fst]. f_equal.
    eapply regeneration_keeps_state; [exact Hfirst | exact Hagain].
Defined.

(** ** The calls of the test phase *)

Lemma pytest_command (x : string) : test_phase_command ("pytest " ++ x) = true.
Proof.
  unfold test_phase_command, Py.startswith.
  rewrite (StringFacts.prefix_here "pytest " x). now rewrite orb_true_r.
Qed.

Lemma ruff_command (x : string) : test_phase_command ("ruff check " ++ x) = true.
Proof.
  unfold test_phase_command, Py.startswith.
  rewrite (StringFacts.prefix_here "ruff check " x). now rewrite orb_true_r.
Qed.

Section PhaseCalls.
Context {W : Type} `{Host W}.
Variable bad : Event -> bool.

(** a continuation need only be quiet on what the first part returns *)
Lemma avoids_bind_post {A B : Type} (m : M W A) (k : A -> M W B) :
  avoids (W := W) bad m ->
  (forall a w w1, m w = (inr a, w1) -> avoids (W := W) bad (k a)) ->
  avoids (W := W) bad (bind m k).
Proof.
  intros Hm Hk w r w' Hr. unfold bind in Hr.
  destruct (m w) as [[e|a] w1] eqn:Em.
  - inversion Hr; subst. eapply Hm; eauto.
  - destruct (Hm _ _ _ Em) as (evs1 & E1 & F1).
    destruct (Hk a _ _ Em _ _ _ Hr) as (evs2 & E2 & F2).
    exists (evs1 ++ evs2)%list. split.
    + now rewrite E2, E1, app_assoc.
    + now apply Forall_app.
Qed.

(** what follows a [raise] is not run *)
Lemma avoids_raise_bind {A B : Type} (e : Exn) (k : A -> M W B) :
  avoids (W := W) bad (bind (raise e) k).
Proof.
  apply avoids_same. unfold bind, raise. intros w r w' Hr. now inversion Hr.
Qed.

Hypothesis mkdir_ok : forall p, bad (EvMkdir p) = false.
Hypothesis touch_ok : forall p, bad (EvTouch p) = false.
Hypothesis pip_ok : forall m, bad (EvPipInstall m) = false.
Hypothesis command_ok :
  forall cmd cwd, test_phase_command cmd = true -> bad (EvSubprocess cmd cwd) = false.

Lemma avoids_run_process (cmd cwd : string) :
  test_phase_command cmd = true -> avoids (W := W) bad (run_process cmd cwd).
Proof.
  intros Hcmd. unfold run_process.
  apply avoids_bind; [apply avoids_emit; now apply command_ok | intros ?; prove_avoids].
Qed.

Lemma avoids_pip (m : string) : avoids (W := W) bad (pip m).
Proof.
  unfold pip. apply avoids_bind; [now apply avoids_emit | intros ?; prove_avoids].
Qed.

Lemma avoids_existing (p : string) (l : list string) : avoids (W := W) bad (existing p l).
Proof. unfold existing. prove_avoids. Qed.

Lemma avoids_use_repo_pytest (root : string) : avoids (W := W) bad (use_repo_pytest root).
Proof.
  unfold use_repo_pytest. apply avoids_bind; [prove_avoids | intros is_file].
  apply avoids_if; [|prove_avoids].
  apply avoids_try; [|intros ?; prove_avoids].
  apply avoids_bind; [apply avoids_read_text | intros ?; prove_avoids].
Qed.

Lemma avoids_run_test (root f ext cmd : string) :
  test_phase_command cmd = true -> avoids (W := W) bad (run_test root f ext cmd).
Proof.
  intros Hcmd. unfold run_test.
  apply avoids_bind_post; [apply avoids_if; prove_avoids|].
  intros cmd' w w1 Hcmd'.
  assert (Hok : test_phase_command cmd' = true).
  { destruct (_ && _ && _).
    - apply bind_inr in Hcmd'. destruct Hcmd' as (rel & w2 & _ & Hr).
      apply ret_inr in Hr. destruct Hr as [<- _]. apply pytest_command.
    - apply ret_inr in Hcmd'. now destruct Hcmd' as [<- _]. }
  apply avoids_bind; [now apply avoids_run_process | intros proc].
  apply avoids_if; [|prove_avoids].
  apply avoids_bind; [prove_avoids | intros missing].
  apply avoids_bind; [|intros ?; now apply avoids_run_process].
  apply avoids_for_each. intros m.
  apply avoids_try; [apply avoids_pip | intros ?; prove_avoids].
Qed.

Lemma avoids_test_one (root : string) (t : Tally) (f : string) :
  avoids (W := W) bad (test_one root t f).
Proof.
  unfold test_one.
  assert (Hattempt : forall cmd, test_phase_command cmd = true ->
            avoids (W := W) bad
              (try_except
                 (p <- run_test root f
                         (Py.lower (PurePath.suffix (PurePath.of_string f))) cmd ;;
                  ret (record_test t f p))
                 (fun e => ret (record_test_error t f e)))).
  { intros cmd Hcmd. apply avoids_try; [|intros ?; prove_avoids].
    apply avoids_bind; [now apply avoids_run_test | intros ?; prove_avoids]. }
  apply avoids_if.
  - apply avoids_bind; [apply avoids_use_repo_pytest | intros repo_pytest].
    apply Hattempt. destruct repo_pytest; [reflexivity | apply pytest_command].
  - apply avoids_if; [now apply Hattempt | prove_avoids].
Qed.

Lemma avoids_lint_one (root : string) (t : Tally) (f : string) :
  avoids (W := W) bad (lint_one root t f).
Proof.
  unfold lint_one. apply avoids_if; [|prove_avoids].
  apply avoids_try; [|intros ?; prove_avoids].
  apply avoids_bind; [prove_avoids | intros rel].
  apply avoids_bind; [apply avoids_run_process, ruff_command | intros ?; prove_avoids].
Qed.

(** [TestGenerationNode()], built without an oracle, prepares its
    targets but can neither ask for code nor store any *)
Lemma avoids_unaided_generation (st : WorkflowState) :
  avoids (W := W) bad (TestGenerationNode_run false st).
Proof.
  unfold TestGenerationNode_run.
  apply avoids_bind; [prove_avoids | intros lang].
  apply avoids_bind; [prove_avoids | intros repo].
  apply avoids_bind; [now apply avoids_test_targets | intros targets].
  apply avoids_bind; [|intros ?; prove_avoids].
  apply avoids_for_each. intros f.
  apply avoids_bind; [apply avoids_target_path | intros path_obj].
  apply avoids_bind; [now apply avoids_mkdir | intros ?].
  apply avoids_bind;
    [apply avoids_try; [apply avoids_read_text | intros ?; prove_avoids] | intros content].
  apply avoids_try; [apply avoids_raise_bind | intros ?; prove_avoids].
Qed.

Lemma avoids_unaided_resolve (st : WorkflowState) (p : string) :
  avoids (W := W) bad (resolve_test_files st p).
Proof.
  unfold resolve_test_files.
  apply avoids_bind; [apply avoids_existing | intros from_plan].
  apply avoids_bind;
    [destruct from_plan; [apply avoids_existing | prove_avoids] | intros found].
  destruct found; [|prove_avoids].
  apply avoids_bind; [apply avoids_unaided_generation | intros st'].
  apply avoids_bind; [apply avoids_existing | intros ?; prove_avoids].
Qed.

Lemma avoids_TestAndLintNode_run (st : WorkflowState) :
  avoids (W := W) bad (TestAndLintNode_run st).
Proof.
  unfold TestAndLintNode_run. destruct (plan_list st relevant_files) as [|r rs];
    [prove_avoids|].
  apply avoids_bind; [prove_avoids | intros repo].
  apply avoids_bind; [prove_avoids | intros is_dir].
  apply avoids_if; [prove_avoids|].
  apply avoids_bind; [apply avoids_unaided_resolve | intros [st2 found]].
  destruct found as [|f fs]; [prove_avoids|].
  apply avoids_bind; [apply avoids_fold_m; intros; apply avoids_test_one | intros t1].
  apply avoids_bind; [apply avoids_fold_m; intros; apply avoids_lint_one | intros t2].
  prove_avoids.
Qed.

End PhaseCalls.

Section TestPhaseCalls.
Context {W : Type} `{Host W}.

(** [TestAndLintNode.run] never asks the oracle, never writes the
    content of a file and makes no GitHub call, whether it returns or
    raises, also when its last fallback runs the test-generation phase:
    that phase is built there without an oracle, so it creates the
    directory and the empty test file and generates nothing. *)
Theorem test_phase_generates_nothing (st : WorkflowState) (w : World W) :
  exists evs,
    calls (snd (TestAndLintNode_run st w)) = (calls w ++ evs)%list
    /\ Forall (fun e => writes_or_asks e = false) evs.
Proof.
  destruct (TestAndLintNode_run st w) as [r w'] eqn:Hrun.
  assert (Hq : avoids (W := W) writes_or_asks (TestAndLintNode_run st))
    by (apply avoids_TestAndLintNode_run; reflexivity).
  exact (Hq _ _ _ Hrun).
Qed.


End TestPhaseCalls.

(** ** A run without the commit phase *)

Section RunCalls.
Context {W : Type} `{Host W}.






End RunCalls.

(** ** The commit *)

Section CommitProtocol.
Context {W : Type} `{Host W}.

Lemma ask_inr {A : Type} (f : W -> A) (a : A) (w w' : World W) :
  ask f w = (inr a, w') -> a = f (host w) /\ w' = w.
Proof. unfold ask. intros Hr. now inversion Hr. Qed.

Lemma remote_inr (c : GithubCall) (u : unit) (w w' : World W) :
  remote c w = (inr u, w') -> calls w' = (calls w ++ [EvGithub c])%list.
Proof.
  unfold remote, bind, emit, call. cbn [host calls].
  destruct (github (host w) c) as [r h']. intros Hr. now inversion Hr.
Qed.

Lemma remote_github (c : GithubCall) (u : unit) (w w' : World W) :
  remote c w = (inr u, w') ->
  filter is_github (calls w') = (filter is_github (calls w) ++ [EvGithub c])%list.
Proof. intros Hr. now rewrite (remote_inr _ _ Hr), filter_app. Qed.

(** a loop invariant may use that the element is one of the list *)
Lemma fold_m_invariant_in {A S : Type} (P : S -> Prop) (l : list A)
      (body : S -> A -> M W S) :
  (forall s a w s' w', In a l -> P s -> body s a w = (inr s', w') -> P s') ->
  forall acc w r w', P acc -> fold_m l body acc w = (inr r, w') -> P r.
Proof.
  induction l as [|x l IH]; intros Hbody acc w r w' Hacc Hr; cbn in Hr.
  - apply ret_inr in Hr. now destruct Hr as [<- _].
  - apply bind_inr in Hr. destruct Hr as (s1 & w1 & Hb & Hr).
    eapply IH; [|  |exact Hr].
    + intros s a v s' v' Ha. apply Hbody. now right.
    + eapply Hbody; [now left | exact Hacc | exact Hb].
Qed.

(** reading the files leaves the world as it is, and keeps only entries
    of files of the list *)
Lemma read_all_inr (base : string) (files : list string)
      (entry : string -> string -> string * string)
      (r : list (string * string)) (w w' : World W) :
  read_all base files entry w = (inr r, w') ->
  w' = w /\ Forall (fun kv => exists f data, In f files /\ kv = entry f data) r.
Proof.
  unfold read_all. intros Hr. split.
  - revert Hr. generalize (@nil (string * string)). revert w.
    induction files as [|x l IH]; intros w acc Hr; cbn in Hr.
    + apply ret_inr in Hr. now destruct Hr.
    + apply bind_inr in Hr. destruct Hr as (s1 & w1 & Hb & Hr).
      apply IH in Hr. subst w'.
      apply try_except_inr in Hb. destruct Hb as [Hb | (e & v & Hm & Hb)].
      * apply bind_inr in Hb. destruct Hb as (data & v & Hd & Hb).
        apply ret_inr in Hb. destruct Hb as [_ <-].
        unfold read_text in Hd. apply bind_inr in Hd.
        destruct Hd as (x0 & v0 & Ha & Hl).
        apply ask_inr in Ha. destruct Ha as [_ ->].
        apply lift_inr in Hl. now destruct Hl.
      * apply ret_inr in Hb. destruct Hb as [_ <-].
        unfold bind, read_text, bind, ask in Hm.
        destruct (path_read_text (host w) (os_path_join base x)); cbn in Hm;
          unfold ret, raise in Hm; now inversion Hm.
  - eapply fold_m_invariant_in
      with (P := Forall (fun kv => exists f data, In f files /\ kv = entry f data));
      [| constructor | exact Hr].
    intros s a v s' v' Ha Hs Hb.
    apply try_except_inr in Hb. destruct Hb as [Hb | (e & v1 & _ & Hb)].
    + apply bind_inr in Hb. destruct Hb as (data & v1 & _ & Hb).
      apply ret_inr in Hb. destruct Hb as [<- _].
      unfold py_append. apply Forall_app. split; [exact Hs|].
      constructor; [now exists a, data | constructor].
    + apply ret_inr in Hb. now destruct Hb as [<- _].
Qed.

Lemma ensure_commit_message_inr (st : WorkflowState) (cc cc' : CodeChanges)
      (url message : string) (w w' : World W) :
  ensure_commit_message st cc url w = (inr (cc', message), w') ->
  created_file cc' = created_file cc
  /\ updated_files cc' = updated_files cc
  /\ commit_message cc' = Some message
  /\ filter is_github (calls w') = filter is_github (calls w).
Proof.
  intros Hm.
  assert (Hq : avoids (W := W) is_github (ensure_commit_message st cc url)).
  { unfold ensure_commit_message. apply avoids_if; [prove_avoids|].
    apply avoids_bind; [prove_avoids | intros repo].
    apply avoids_bind; [|intros summaries].
    - unfold read_all. apply avoids_fold_m. intros acc f.
      apply avoids_try; [|intros ?; prove_avoids].
      apply avoids_bind; [apply avoids_read_text | intros ?; prove_avoids].
    - apply avoids_bind; [now apply avoids_respond | intros ?; prove_avoids]. }
  assert (Hcalls : filter is_github (calls w') = filter is_github (calls w))
    by (eapply avoids_filter; [exact Hq | exact Hm]).
  unfold ensure_commit_message in Hm.
  destruct (commit_message cc) as [m|] eqn:Ecm.
  - destruct (Py.nonempty m) eqn:Hne.
    + apply ret_inr in Hm. destruct Hm as [Hm _]. inversion Hm; subst. auto.
    + apply bind_inr in Hm. destruct Hm as (repo & v1 & _ & Hm).
      apply bind_inr in Hm. destruct Hm as (summaries & v2 & _ & Hm).
      apply bind_inr in Hm. destruct Hm as (msg & v3 & _ & Hm).
      apply ret_inr in Hm. destruct Hm as [Hm _]. inversion Hm; subst. auto.
  - cbn [Py.nonempty] in Hm.
    apply bind_inr in Hm. destruct Hm as (repo & v1 & _ & Hm).
    apply bind_inr in Hm. destruct Hm as (summaries & v2 & _ & Hm).
    apply bind_inr in Hm. destruct Hm as (msg & v3 & _ & Hm).
    apply ret_inr in Hm. destruct Hm as [Hm _]. inversion Hm; subst. auto.
Qed.

(** A completed run of [CommitAndPRNode.run] either did nothing (the
    tests had not passed) or did this and no more: it wrote
    [commit_message] in [code_changes], leaving [created_file],
    [updated_files] and the rest of the state alone; it looked up the
    repository, the branch and its reference; and, if a changed file
    could be read, it created one tree, one commit under the message
    now stored in the state, and moved the branch, in this order.  Every
    path of the tree is that of a file of [created_file] or
    [updated_files], and a tree is never created from no file. *)
Theorem commit_protocol (st st' : WorkflowState) (w w' : World W)
        (Hrun : CommitAndPRNode_run st w = (inr st', w')) :
  commit_outcome st st' w w'.
Proof.
  unfold commit_outcome. unfold CommitAndPRNode_run in Hrun.
  destruct (tests_ok st) eqn:Hok.
  - right. destruct (code_changes st) as [cc|] eqn:Ecc; [|discriminate].
    apply bind_inr in Hrun. destruct Hrun as ([cc' message] & w1 & Hm & Hr).
    apply ensure_commit_message_inr in Hm. destruct Hm as (Hcf & Huf & Hcm & Hc1).
    apply bind_inr in Hr. destruct Hr as (repo & w2 & Hrepo & Hr).
    apply lift_inr in Hrepo. destruct Hrepo as [_ <-].
    apply bind_inr in Hr. destruct Hr as (branch & w3 & Hb & Hr).
    apply ask_inr in Hb. destruct Hb as [_ ->].
    apply bind_inr in Hr. destruct Hr as (u1 & w4 & H1 & Hr).
    apply bind_inr in Hr. destruct Hr as (u2 & w5 & H2 & Hr).
    apply bind_inr in Hr. destruct Hr as (u3 & w6 & H3 & Hr).
    apply bind_inr in Hr. destruct Hr as (files & w7 & Hf & Hr).
    apply read_all_inr in Hf. destruct Hf as [-> Hfiles].
    apply remote_github in H1, H2, H3.
    assert (Hpaths : Forall (fun kv => exists f, In f (changed_files cc)
                               /\ fst kv = lstrip_slash (Py.replace "\" "/" f)) files).
    { eapply Forall_impl; [|exact Hfiles]. cbn.
      intros kv (f & data & Hin & ->). exists f. split; [|reflexivity].
      unfold changed_files in *. now rewrite <- Hcf, <- Huf. }
    exists cc, cc', message, repo, branch, files.
    repeat split; auto.
    + destruct files; [apply ret_inr in Hr; now destruct Hr|].
      apply bind_inr in Hr. destruct Hr as (u4 & w8 & _ & Hr).
      apply bind_inr in Hr. destruct Hr as (u5 & w9 & _ & Hr).
      apply bind_inr in Hr. destruct Hr as (u6 & w10 & _ & Hr).
      apply bind_inr in Hr. destruct Hr as (u7 & w11 & _ & Hr).
      apply ret_inr in Hr. now destruct Hr.
    + unfold commit_calls. destruct files as [|f files].
      * apply ret_inr in Hr. destruct Hr as [_ <-].
        rewrite H3, H2, H1, Hc1. cbn [map app]. now rewrite <- !app_assoc.
      * apply bind_inr in Hr. destruct Hr as (u4 & w8 & H4 & Hr).
        apply bind_inr in Hr. destruct Hr as (u5 & w9 & H5 & Hr).
        apply bind_inr in Hr. destruct Hr as (u6 & w10 & H6 & Hr).
        apply bind_inr in Hr. destruct Hr as (u7 & w11 & H7 & Hr).
        apply ret_inr in Hr. destruct Hr as [_ <-].
        apply remote_github in H4, H5, H6, H7.
        rewrite H7, H6, H5, H4, H3, H2, H1, Hc1. cbn [map app].
        now rewrite <- !app_assoc.
  - left. apply ret_inr in Hrun. now destruct Hrun.
Qed.

End CommitProtocol.

Lemma commit_protocol_witness :
  exists st' w',
    CommitAndPRNode_run committable_state (Sim.start (price_host [])) = (inr st', w')
    /\ filter is_github (calls w')
       = commit_calls "SDT-DeveloperTwin/SDT-Testing-Project" "main"
           "fix: round prices half up" [("price_utils.py", "def f(): pass")]
    /\ commit_outcome committable_state st' (Sim.start (price_host [])) w'.
Proof.
  eexists. eexists. split; [vm_compute; reflexivity|].
  split; [reflexivity|].
  apply commit_protocol. vm_compute. reflexivity.
Defined.

(** ** [MainCodeGenerationNode] and the retrieval of the issue *)

Section Unaided.
Context {W : Type} `{Host W}.

(** [MainCodeGenerationNode.run] generates nothing: it builds its phase
    objects without the oracle, so no run of it asks the oracle, writes
    file content or calls GitHub.  For an issue that is not a
    test-generation issue it raises as soon as the plan names a source
    file, and returns the state as it is otherwise; for a
    test-generation issue without test files it returns the state as it
    is. *)
Theorem main_code_generation_generates_nothing (st : WorkflowState) (w : World W) :
  (exists evs,
      calls (snd (MainCodeGenerationNode_run st w)) = (calls w ++ evs)%list
      /\ Forall (fun e => writes_or_asks e = false) evs)
  /\ (for_test_generation st = false -> plan_list st source_files <> [] ->
      exists e, MainCodeGenerationNode_run st w = (inl e, w))
  /\ (for_test_generation st = false -> plan_list st source_files = [] ->
      MainCodeGenerationNode_run st w = (inr st, w))
  /\ (for_test_generation st = true -> plan_list st test_files = [] ->
      MainCodeGenerationNode_run st w = (inr st, w)).
Proof.
  split; [|split; [|split]].
  - assert (Hq : avoids (W := W) writes_or_asks (MainCodeGenerationNode_run st)).
    { unfold MainCodeGenerationNode_run. apply avoids_if.
      - destruct (plan_list st test_files); [prove_avoids|].
        apply avoids_unaided_generation; reflexivity.
      - destruct (plan_list st source_files); prove_avoids. }
    destruct (MainCodeGenerationNode_run st w) as [r w'] eqn:Hrun.
    exact (Hq _ _ _ Hrun).
  - unfold MainCodeGenerationNode_run, for_test_generation. intros -> Hsrc.
    destruct (plan_list st source_files); [contradiction|]. eexists. reflexivity.
  - unfold MainCodeGenerationNode_run, for_test_generation. now intros -> ->.
  - unfold MainCodeGenerationNode_run, for_test_generation. now intros -> ->.
Qed.

(** [RetrieveIssueDetailsNode.run]: an empty issue raises; an issue
    that is text and not a number is handed on as it is, nothing being
    called; without [GITHUB_TOKEN] nothing is fetched, whatever the issue
    is, and the state can only come back unchanged; and a completed run
    has changed nothing but the issue text. *)
Theorem issue_retrieval (st : WorkflowState) (w : World W) :
  (github_issue st = "" ->
   exists e, RetrieveIssueDetailsNode_run st w = (inl e, w))
  /\ (github_issue st <> "" -> is_issue_number (host w) (github_issue st) = false ->
      RetrieveIssueDetailsNode_run st w = (inr st, w))
  /\ (has_token w = false ->
      snd (RetrieveIssueDetailsNode_run st w) = w
      /\ forall st', fst (RetrieveIssueDetailsNode_run st w) = inr st' -> st' = st)
  /\ (forall st' w',
         RetrieveIssueDetailsNode_run st w = (inr st', w') ->
         github_issue st <> ""
         /\ (st' = st \/ exists body, st' = set_github_issue st body)).
Proof.
  split; [|split; [|split]].
  - intros Hi. unfold RetrieveIssueDetailsNode_run, bind, ask. rewrite Hi.
    cbn. eexists. reflexivity.
  - intros Hi Hn. unfold RetrieveIssueDetailsNode_run, bind, ask. rewrite Hn.
    rewrite andb_false_r. destruct (github_issue st); [contradiction | reflexivity].
  - intros Ht. unfold has_token in Ht.
    unfold RetrieveIssueDetailsNode_run, bind, ask.
    destruct (Py.nonempty (github_issue st) && is_issue_number (host w) (github_issue st)).
    + cbn [lift].
      destruct (project_context st) as [pc|];
        [destruct (Py.nonempty (repo_link pc));
         [destruct (extract_repo_name_from_url (repo_link pc))|]|];
        cbn [lift raise ret]; rewrite ?Ht; cbn;
        (split; [reflexivity | intros st' Hd; discriminate Hd]).
    + destruct (negb (Py.nonempty (github_issue st))); cbn;
        (split; [reflexivity | intros st' Hd; now inversion Hd]).
  - intros st' w' Hr. unfold RetrieveIssueDetailsNode_run in Hr.
    apply bind_inr in Hr. destruct Hr as (numbered & w1 & _ & Hr).
    destruct (github_issue st) as [|c s] eqn:Ei.
    + cbn in Hr. discriminate.
    + split; [discriminate|]. cbn [Py.nonempty andb negb] in Hr.
      destruct numbered.
      * apply bind_inr in Hr. destruct Hr as (token & w2 & _ & Hr).
        apply bind_inr in Hr. destruct Hr as (repo & w3 & _ & Hr).
        destruct (negb _ || negb _); [discriminate|].
        apply bind_inr in Hr. destruct Hr as (u & w4 & _ & Hr).
        apply bind_inr in Hr. destruct Hr as (body & w5 & _ & Hr).
        apply ret_inr in Hr. destruct Hr as [<- _]. right. now exists body.
      * apply ret_inr in Hr. destruct Hr as [<- _]. now left.
Qed.

End Unaided.

Lemma main_code_generation_generates_nothing_witness :
  exists e,
    MainCodeGenerationNode_run planned_state (Sim.start (price_host []))
    = (inl e, Sim.start (price_host [])).
Proof.
  apply (proj1 (proj2 (main_code_generation_generates_nothing
                         planned_state (Sim.start (price_host []))))).
  - reflexivity.
  - discriminate.
Defined.

Lemma issue_retrieval_witness :
  RetrieveIssueDetailsNode_run price_state (Sim.start (price_host []))
  = (inr price_state, Sim.start (price_host [])).
Proof.
  apply (proj1 (proj2 (issue_retrieval price_state (Sim.start (price_host []))))).
  - discriminate.
  - reflexivity.
Defined.

(** ** Where test files are put *)

Module HomeFacts.
Import PathFacts NormalizeFacts NameFacts.

(** [Path(base, d, x).relative_to(base)] is [Path(d, x)]. *)
Lemma relative_to_grandchild (base d x : string) :
  component d = true -> component x = true ->
  PurePath.relative_to
    (PurePath.join (PurePath.join (PurePath.of_string base) (PurePath.of_string d))
                   (PurePath.of_string x))
    (PurePath.of_string base)
  = Some (PurePath.mk "" [d; x]).
Proof.
  intros Hd Hx. rewrite (of_string_component d Hd), (of_string_component x Hx).
  set (b := PurePath.of_string base).
  unfold PurePath.join. cbn [PurePath.root PurePath.parts Py.nonempty].
  unfold PurePath.relative_to, PurePath.abs_parts.
  cbn [PurePath.root PurePath.parts]. rewrite <- app_assoc. cbn [app].
  destruct (Py.nonempty (PurePath.root b)) eqn:Hr.
  - change (PurePath.root b :: PurePath.parts b ++ [d; x])%list
      with ((PurePath.root b :: PurePath.parts b) ++ [d; x])%list.
    now rewrite strip_prefix_app.
  - destruct (PurePath.parts b) as [|y ps] eqn:Hps; [reflexivity|].
    change (y :: ps ++ [d; x])%list with ((y :: ps) ++ [d; x])%list.
    now rewrite strip_prefix_app.
Qed.

(** a path of two components has a parent that is not [.] *)
Lemma two_parts_homed (d x : string) :
  component d = true -> component x = true ->
  PurePath.of_string (d ++ "/" ++ x) = PurePath.mk "" [d; x]
  /\ PurePath.to_string (PurePath.parent (PurePath.of_string (d ++ "/" ++ x))) = d.
Proof.
  intros Hd Hx.
  assert (Hp : PurePath.of_string (d ++ "/" ++ x) = PurePath.mk "" [d; x]).
  { change (d ++ "/" ++ x) with (PurePath.to_string (PurePath.mk "" [d; x])).
    apply of_string_to_string. split; [now left|]. now repeat constructor. }
  split; [exact Hp|]. rewrite Hp.
  unfold PurePath.parent, PurePath.to_string.
  cbn [PurePath.root PurePath.parts removelast Py.join].
  destruct d; [discriminate | reflexivity].
Qed.

Lemma inferred_test_filename_component (lang : string) (sources : list string) :
  component (inferred_test_filename lang sources) = true.
Proof.
  unfold inferred_test_filename. destruct sources as [|s0 _].
  - destruct (String.eqb lang "python"); reflexivity.
  - set (stem0 := PurePath.stem (PurePath.of_string s0)).
    assert (Hstem : no_slash stem0 = true) by apply stem_no_slash.
    set (base := if Py.startswith stem0 "test_"
                 then String.substring 5 (String.length stem0 - 5) stem0
                 else stem0).
    assert (Hbase : no_slash base = true).
    { unfold base. destruct (Py.startswith stem0 "test_"); [|exact Hstem].
      now apply StringFacts.no_slash_substring. }
    destruct (String.eqb lang "python").
    + apply long_component.
      * rewrite !StringFacts.no_slash_app, Hbase. reflexivity.
      * cbn. lia.
    + apply long_component.
      * rewrite !StringFacts.no_slash_app, Hbase.
        destruct (String.eqb lang "typescript"); reflexivity.
      * rewrite StringFacts.length_app. cbn. lia.
Qed.

Lemma inferred_test_filename_mentions_test (lang : string) (sources : list string) :
  Py.contains "test" (Py.lower (inferred_test_filename lang sources)) = true.
Proof.
  unfold inferred_test_filename. destruct sources as [|s0 _].
  - destruct (String.eqb lang "python"); reflexivity.
  - destruct (String.eqb lang "python"); [reflexivity|].
    rewrite StringFacts.lower_app. apply StringFacts.contains_app_r.
    destruct (String.eqb lang "typescript"); reflexivity.
Qed.

End HomeFacts.

Section Homes.
Context {W : Type} `{Host W}.
Import PathFacts NormalizeFacts NameFacts HomeFacts.




(** With no test file in the plan, [TestGenerationNode.run] works on
    exactly one target: the made-up file name under the test directory
    ([tests], or [test] when only that one is a directory).  The file is
    created on disk before anything is generated, and its name is one
    [is_test_file] recognises. *)
Theorem test_target_made_up (st : WorkflowState) (lang project_path : string)
        (targets : list string) (w w' : World W)
        (Hnone : plan_list st test_files = [])
        (Hrun : test_targets st lang project_path w = (inr targets, w')) :
  let name := inferred_test_filename lang (plan_list st source_files) in
  exists d,
    (d = "tests" \/ d = "test")
    /\ (d = "test" -> has_dir w (dir_path project_path "tests") = false
                      /\ has_dir w (dir_path project_path "test") = true)
    /\ targets = [d ++ "/" ++ name]
    /\ is_test_file (d ++ "/" ++ name) = true
    /\ exists before,
         calls w'
         = (before ++
            [EvTouch
               (PurePath.to_string
                  (PurePath.join
                     (PurePath.join (PurePath.of_string project_path)
                                    (PurePath.of_string d))
                     (PurePath.of_string name)))])%list.
Proof.
  cbn zeta. unfold test_targets in Hrun. rewrite Hnone in Hrun.
  set (name := inferred_test_filename lang (plan_list st source_files)) in *.
  assert (Hname : component name = true) by apply inferred_test_filename_component.
  apply bind_inr in Hrun. destruct Hrun as (files & w1 & Hfiles & Hnorm).
  apply bind_inr in Hfiles. destruct Hfiles as (td & w2 & Htd & Hfiles).
  assert (Hd : exists d, (d = "tests" \/ d = "test")
                         /\ (d = "test" ->
                             has_dir w (dir_path project_path "tests") = false
                             /\ has_dir w (dir_path project_path "test") = true)
                         /\ td = PurePath.join (PurePath.of_string project_path)
                                               (PurePath.of_string d)).
  { rewrite get_test_dir_cases in Htd. cbn zeta in Htd.
    destruct (has_dir w (dir_path project_path "tests")) eqn:H1.
    - inversion Htd. exists "tests". repeat split; auto; discriminate.
    - destruct (has_dir w (dir_path project_path "test")) eqn:H2.
      + inversion Htd. exists "test". repeat split; auto.
      + destruct (path_mkdir (host w) (dir_path project_path "tests"));
          inversion Htd. exists "tests". repeat split; auto; discriminate. }
  destruct Hd as (d & Hd & Honly & ->).
  assert (Hcd : component d = true) by (destruct Hd as [-> | ->]; reflexivity).
  exists d. split; [exact Hd|]. split; [exact Honly|].
  apply bind_inr in Hfiles. destruct Hfiles as (rel & w3 & Hrel & Hfiles).
  unfold relative_to in Hrel.
  rewrite (relative_to_grandchild project_path d name Hcd Hname) in Hrel.
  apply ret_inr in Hrel. destruct Hrel as [<- <-].
  apply bind_inr in Hfiles. destruct Hfiles as (u & w4 & Htouch & Hfiles).
  apply ret_inr in Hfiles. destruct Hfiles as [<- <-].
  assert (Hcalls : calls w4
                   = (calls w2 ++
                      [EvTouch
                         (PurePath.to_string
                            (PurePath.join
                               (PurePath.join (PurePath.of_string project_path)
                                              (PurePath.of_string d))
                               (PurePath.of_string name)))])%list).
  { unfold touch, bind, emit, update in Htouch. cbn [host calls] in Htouch.
    destruct (path_touch (host w2) _); inversion Htouch; reflexivity. }
  change (PurePath.to_string (PurePath.mk "" [d; name])) with (d ++ "/" ++ name) in Hnorm.
  destruct (two_parts_homed d name Hcd Hname) as [Hparse Hparent].
  unfold normalize_test_files in Hnorm. cbn [fold_m] in Hnorm.
  apply bind_inr in Hnorm. destruct Hnorm as (acc & w5 & Hn & Hnorm).
  apply ret_inr in Hnorm. destruct Hnorm as [<- <-].
  apply bind_inr in Hn. destruct Hn as (n & w6 & Hn & Hacc).
  apply ret_inr in Hacc. destruct Hacc as [<- <-].
  rewrite normalize_keeps in Hn.
  - inversion Hn; subst. split.
    { unfold py_append. cbn [app]. f_equal.
      change (d ++ String "/" name) with (d ++ "/" ++ name). now rewrite Hparse. }
    split.
    + unfold is_test_file. rewrite Hparse. unfold PurePath.name.
      cbn [PurePath.parts last].
      apply orb_true_iff. left. apply inferred_test_filename_mentions_test.
    + exists (calls w2). exact Hcalls.
  - rewrite Hparent. destruct Hd as [-> | ->]; discriminate.
Qed.

End Homes.


Lemma test_target_made_up_witness :
  exists d,
    (d = "tests" \/ d = "test")
    /\ fst (test_targets untested_state "python" testing_project
              (Sim.start (price_host [])))
       = inr [d ++ "/" ++ "test_price_utils.py"].
Proof.
  assert (Hrun : test_targets untested_state "python" testing_project
                   (Sim.start (price_host []))
                 = (inr ["tests/test_price_utils.py"],
                    snd (test_targets untested_state "python" testing_project
                           (Sim.start (price_host [])))))
    by (vm_compute; reflexivity).
  destruct (test_target_made_up untested_state "python" testing_project _ eq_refl Hrun)
    as (d & Hd & _ & Ht & _).
  exists d. split; [exact Hd|]. rewrite Hrun. cbn [fst]. f_equal.
  change (inferred_test_filename "python" (plan_list untested_state source_files))
    with "test_price_utils.py" in Ht.
  exact Ht.
Defined.

(** ** What the test phase records *)

Lemma keys_dict_set (d : Outputs) (k v f : string) :
  In f (keys (dict_set d k v)) <-> f = k \/ In f (keys d).
Proof.
  unfold keys. induction d as [|[k' v'] d IH]; cbn.
  - intuition.
  - destruct (String.eqb k' k) eqn:Ek; cbn.
    + apply String.eqb_eq in Ek. subst k'. intuition.
    + rewrite IH. intuition.
Qed.

Section Recorded.
Context {W : Type} `{Host W}.

Lemma test_one_keys (root : string) (t t' : Tally) (f : string) (w w' : World W) :
  test_one root t f w = (inr t', w') ->
  t_lint_outputs t' = t_lint_outputs t
  /\ forall k, In k (keys (t_test_outputs t')) ->
               In k (keys (t_test_outputs t)) \/ (k = f /\ testable f = true).
Proof.
  unfold test_one, testable.
  assert (Hattempt : forall cmd v v',
             try_except
               (p <- run_test root f
                       (Py.lower (PurePath.suffix (PurePath.of_string f))) cmd ;;
                ret (record_test t f p))
               (fun e => ret (record_test_error t f e)) v = (inr t', v') ->
             t_lint_outputs t' = t_lint_outputs t
             /\ forall k, In k (keys (t_test_outputs t')) ->
                          In k (keys (t_test_outputs t)) \/ k = f).
  { intros cmd v v' Hr. apply try_except_inr in Hr.
    destruct Hr as [Hr | (e & v1 & _ & Hr)].
    - apply bind_inr in Hr. destruct Hr as (p & v1 & _ & Hr).
      apply ret_inr in Hr. destruct Hr as [<- _]. split; [reflexivity|].
      cbn [record_test t_test_outputs]. intros k Hk.
      apply keys_dict_set in Hk. tauto.
    - apply ret_inr in Hr. destruct Hr as [<- _]. split; [reflexivity|].
      cbn [record_test_error t_test_outputs]. intros k Hk.
      apply keys_dict_set in Hk. tauto. }
  destruct (String.eqb _ ".py") eqn:Epy.
  - intros Hr. apply bind_inr in Hr. destruct Hr as (b & w1 & _ & Hr).
    apply Hattempt in Hr. destruct Hr as [Hl Hk]. split; [exact Hl|].
    intros k Hin. destruct (Hk k Hin); auto.
  - destruct (Py.mem _ _) eqn:Ejs.
    + intros Hr. apply Hattempt in Hr. destruct Hr as [Hl Hk]. split; [exact Hl|].
      intros k Hin. destruct (Hk k Hin); auto.
    + intros Hr. apply ret_inr in Hr. destruct Hr as [<- _]. auto.
Qed.

Lemma lint_one_keys (root : string) (t t' : Tally) (f : string) (w w' : World W) :
  lint_one root t f w = (inr t', w') ->
  t_test_outputs t' = t_test_outputs t
  /\ (forall k, In k (keys (t_lint_outputs t')) ->
                In k (keys (t_lint_outputs t)) \/ (k = f /\ lintable f = true))
  /\ (forall k, In k (keys (t_lint_outputs t)) -> In k (keys (t_lint_outputs t')))
  /\ (lintable f = true -> In f (keys (t_lint_outputs t'))).
Proof.
  unfold lint_one. destruct (lintable f) eqn:El.
  - intros Hr.
    assert (Hshape : exists v, t_test_outputs t' = t_test_outputs t
                               /\ t_lint_outputs t' = dict_set (t_lint_outputs t) f v).
    { apply try_except_inr in Hr. destruct Hr as [Hr | (e & v1 & _ & Hr)].
      - apply bind_inr in Hr. destruct Hr as (rel & v1 & _ & Hr).
        apply bind_inr in Hr. destruct Hr as (p & v2 & _ & Hr).
        apply ret_inr in Hr. destruct Hr as [<- _]. eexists. split; reflexivity.
      - apply ret_inr in Hr. destruct Hr as [<- _]. eexists. split; reflexivity. }
    destruct Hshape as (v & Ht & Hl). rewrite Hl. split; [exact Ht|].
    split; [|split].
    + intros k Hk. apply keys_dict_set in Hk. tauto.
    + intros k Hk. apply keys_dict_set. tauto.
    + intros _. apply keys_dict_set. tauto.
  - intros Hr. apply ret_inr in Hr. destruct Hr as [<- _].
    repeat split; auto. discriminate.
Qed.

(** the lint loop leaves an entry for every file of its list that it
    takes *)
Lemma lint_loop_covers (root : string) (l : list string) :
  forall (t r : Tally) (w w' : World W),
    fold_m l (lint_one root) t w = (inr r, w') ->
    (forall k, In k (keys (t_lint_outputs t)) -> In k (keys (t_lint_outputs r)))
    /\ (forall f, In f l -> lintable f = true -> In f (keys (t_lint_outputs r))).
Proof.
  induction l as [|x l IH]; intros t r w w' Hr; cbn in Hr.
  - apply ret_inr in Hr. destruct Hr as [<- _]. split; [auto | intros f []].
  - apply bind_inr in Hr. destruct Hr as (t1 & w1 & Hb & Hr).
    apply lint_one_keys in Hb. destruct Hb as (_ & _ & Hkeep & Hnew).
    apply IH in Hr. destruct Hr as [Hkeep' Hcov]. split.
    + auto.
    + intros f [<- | Hf] Hl; auto.
Qed.

(** the test files the phase settles on come from the plan *)
Lemma resolve_test_files_found (st st2 : WorkflowState) (project_path : string)
      (found : list string) (w w' : World W) :
  resolve_test_files st project_path w = (inr (st2, found), w') ->
  forall f, In f found ->
            In f (plan_list st test_files)
            \/ (In f (plan_list st relevant_files) /\ is_test_file f = true).
Proof.
  unfold resolve_test_files, existing. intros Hr f Hf.
  apply bind_inr in Hr. destruct Hr as (from_plan & w1 & Hp & Hr).
  apply ask_inr in Hp. destruct Hp as [-> ->].
  apply bind_inr in Hr. destruct Hr as (fs & w2 & Hs & Hr).
  assert (Hfs : forall x, In x fs ->
                          In x (plan_list st test_files)
                          \/ (In x (plan_list st relevant_files) /\ is_test_file x = true)).
  { intros x Hx. destruct (filter _ (plan_list st test_files)) as [|y ys] eqn:Ef.
    - apply ask_inr in Hs. destruct Hs as [-> _].
      apply filter_In in Hx. destruct Hx as [Hx _].
      apply filter_In in Hx. now right.
    - apply ret_inr in Hs. destruct Hs as [<- _]. rewrite <- Ef in Hx.
      apply filter_In in Hx. now left. }
  destruct fs as [|y ys].
  - apply bind_inr in Hr. destruct Hr as (st' & w3 & Hg & Hr).
    apply bind_inr in Hr. destruct Hr as (regenerated & w4 & Ha & Hr).
    apply ret_inr in Hr. destruct Hr as [Hr _]. inversion Hr; subst.
    apply ask_inr in Ha. destruct Ha as [-> _].
    apply filter_In in Hf. destruct Hf as [Hf _]. left.
    destruct (TestGenerationNode_run_inr _ _ _ Hg) as (targets & v0 & _ & ->).
    exact Hf.
  - apply ret_inr in Hr. destruct Hr as [Hr _]. inversion Hr; subst. auto.
Qed.

Lemma finish_outputs (st : WorkflowState) (t : Tally) :
  test_outputs_of (finish_test_and_lint st t) = t_test_outputs t
  /\ lint_outputs_of (finish_test_and_lint st t) = t_lint_outputs t.
Proof. unfold finish_test_and_lint. destruct (no_tests_ran _); split; reflexivity. Qed.

(** What a completed [TestAndLintNode.run] has recorded.  A test output
    is kept only for a file that has an extension the loop has a command
    for and that the plan names as a test file, or names as relevant
    with a name that looks like a test; a lint output only for a
    relevant file that the lint loop takes.  And linting is all or
    nothing: if any lint output was recorded, there is one for every
    relevant file the lint loop takes, whether [ruff] ran or failed to
    start. *)
Theorem recorded_outputs (st st' : WorkflowState) (w w' : World W)
        (Hrun : TestAndLintNode_run st w = (inr st', w')) :
  (forall f, In f (keys (test_outputs_of st')) ->
             testable f = true
             /\ (In f (plan_list st test_files)
                 \/ (In f (plan_list st relevant_files) /\ is_test_file f = true)))
  /\ (forall f, In f (keys (lint_outputs_of st')) ->
                In f (plan_list st relevant_files) /\ lintable f = true)
  /\ (lint_outputs_of st' <> [] ->
      forall f, In f (plan_list st relevant_files) -> lintable f = true ->
                In f (keys (lint_outputs_of st'))).
Proof.
  unfold TestAndLintNode_run in Hrun.
  destruct (plan_list st relevant_files) as [|r0 rs] eqn:Erel.
  - apply ret_inr in Hrun. destruct Hrun as [<- _]. cbn.
    repeat split; try contradiction.
  - set (relevant := r0 :: rs) in *.
    apply bind_inr in Hrun. destruct Hrun as (repo & w1 & _ & Hr).
    apply bind_inr in Hr. destruct Hr as (is_dir & w2 & _ & Hr).
    destruct (negb is_dir); [discriminate|].
    apply bind_inr in Hr. destruct Hr as ([st2 found] & w3 & Hres & Hr).
    pose proof (@resolve_test_files_found _ _ _ _ _ _ Hres) as Hfound.
    rewrite Erel in Hfound. fold relevant in Hfound.
    destruct found as [|f0 fs] eqn:Efound.
    + apply ret_inr in Hr. destruct Hr as [<- _]. cbn.
      repeat split; try contradiction.
    + rewrite <- Efound in *. clear Efound.
      apply bind_inr in Hr. destruct Hr as (t1 & w4 & Ht1 & Hr).
      apply bind_inr in Hr. destruct Hr as (t2 & w5 & Ht2 & Hr).
      apply ret_inr in Hr. destruct Hr as [<- _].
      destruct (finish_outputs st2 t2) as [-> ->].
      assert (H1 : t_lint_outputs t1 = []
                   /\ forall k, In k (keys (t_test_outputs t1)) ->
                                testable k = true /\ In k found).
      { eapply fold_m_invariant_in
          with (P := fun t => t_lint_outputs t = []
                              /\ forall k, In k (keys (t_test_outputs t)) ->
                                           testable k = true /\ In k found);
          [| |exact Ht1].
        - intros s a v s' v' Ha [Hl Hk] Hb.
          apply test_one_keys in Hb. destruct Hb as [Hl' Hk'].
          split; [congruence|]. intros k Hin.
          destruct (Hk' k Hin) as [Hold | [-> Ht]]; auto.
        - split; [reflexivity | intros k []]. }
      destruct H1 as [Hl1 Hk1].
      assert (H2 : t_test_outputs t2 = t_test_outputs t1
                   /\ forall k, In k (keys (t_lint_outputs t2)) ->
                                In k relevant /\ lintable k = true).
      { eapply fold_m_invariant_in
          with (P := fun t => t_test_outputs t = t_test_outputs t1
                              /\ forall k, In k (keys (t_lint_outputs t)) ->
                                           In k relevant /\ lintable k = true);
          [| |exact Ht2].
        - intros s a v s' v' Ha [Ht Hk] Hb.
          apply lint_one_keys in Hb. destruct Hb as (Ht' & Hk' & _ & _).
          split; [congruence|]. intros k Hin.
          destruct (Hk' k Hin) as [Hold | [-> Hl]]; auto.
        - split; [reflexivity|]. rewrite Hl1. intros k []. }
      destruct H2 as [Ht2' Hk2].
      split; [|split].
      * intros f Hf. rewrite Ht2' in Hf. destruct (Hk1 f Hf) as [Ht Hin].
        split; [exact Ht | now apply Hfound].
      * exact Hk2.
      * intros _. eapply lint_loop_covers. exact Ht2.
Qed.

End Recorded.

Lemma recorded_outputs_witness :
  exists st',
    fst (TestAndLintNode_run planned_state (Sim.start (price_host []))) = inr st'
    /\ In "price_utils.py" (keys (lint_outputs_of st')).
Proof.
  destruct (TestAndLintNode_run planned_state (Sim.start (price_host [])))
    as [[e|st'] w'] eqn:Hrun.
  - vm_compute in Hrun. discriminate.
  - exists st'. split; [reflexivity|].
    pose proof Hrun as Hval. vm_compute in Hval. inversion Hval; subst st' w'.
    eapply (proj2 (proj2 (recorded_outputs _ _ Hrun))).
    + discriminate.
    + cbn. now left.
    + reflexivity.
Defined.

(** ** How many processes the test phase starts *)

Section Spawned.
Context {W : Type} `{Host W}.













End Spawned.
